(** * TTS batch processor: a shallow embedding of [text2speech-v1.py]

    The development follows the layout of the script: Python strings and
    the filename sanitizer first, then floats and the guarded ratios of the
    report, then the processor object with its effects (clock, files,
    synthesis engine, dual-sink log) as an explicit state-and-exception
    monad, and finally the properties of a run. *)

From Stdlib Require Import List ZArith Lia Bool String Ascii.
From Stdlib Require Import DecimalString DecimalPos DecimalZ.
From Stdlib Require Import Floats.SpecFloat.
Import ListNotations.

Local Open Scope Z_scope.

(** ** Python strings

    A Python [str] is a sequence of Unicode code points; [len] counts code
    points.  A code point is kept as a [Z]. *)

Module PyStr.

Definition char := Z.
Definition str := list char.

(** An ASCII literal read as a [str]. *)
Definition lit (s : string) : str :=
  map (fun a => Z.of_N (N_of_ascii a)) (list_ascii_of_string s).

(** [len(s)] *)
Definition len (s : str) : Z := Z.of_nat (List.length s).

(** [str.isspace] on one code point: the characters [str.strip()] removes
    when it is called without argument. *)
Definition is_space (c : char) : bool :=
  ((9 <=? c) && (c <=? 13)) || ((28 <=? c) && (c <=? 32))
  || (c =? 133) || (c =? 160) || (c =? 5760)
  || ((8192 <=? c) && (c <=? 8202))
  || (c =? 8232) || (c =? 8233) || (c =? 8239) || (c =? 8287)
  || (c =? 12288).

(** [s.lstrip()] *)
Fixpoint lstrip (s : str) : str :=
  match s with
  | [] => []
  | c :: t => if is_space c then lstrip t else s
  end.

(** [s.rstrip()] *)
Fixpoint rstrip (s : str) : str :=
  match s with
  | [] => []
  | c :: t =>
      match rstrip t with
      | [] => if is_space c then [] else [c]
      | t' => c :: t'
      end
  end.

(** [s.strip()] *)
Definition strip (s : str) : str := rstrip (lstrip s).

(** [s[:n]] for a non-negative [n] *)
Definition slice_to (n : nat) (s : str) : str := firstn n s.

(** Truth value of a string: [if text:] holds when the string is not empty. *)
Definition truthy (s : str) : bool :=
  match s with [] => false | _ :: _ => true end.

(** [sep.join(parts)] *)
Fixpoint join (sep : str) (parts : list str) : str :=
  match parts with
  | [] => []
  | [p] => p
  | p :: rest => p ++ sep ++ join sep rest
  end.

(** [str(n)] for an integer: decimal digits, with a minus sign when
    negative. *)
Definition str_of_int (n : Z) : str :=
  lit (NilZero.string_of_int (Z.to_int n)).

(** [c * n]: the character repeated. *)
Definition repeat_char (c : char) (n : nat) : str := repeat c n.

(** [format(s, '<w')]: left-justified, padded with spaces to width [w];
    longer strings are left as they are. *)
Definition ljust (w : nat) (s : str) : str :=
  s ++ repeat_char 32 (w - List.length s).

(** [s.center(w)]: CPython puts [(w - len) // 2 + ((w - len) & w & 1)]
    spaces on the left and the rest on the right. *)
Definition center (w : nat) (s : str) : str :=
  let marg := (w - List.length s)%nat in
  let left := (Nat.div marg 2 + Nat.land (Nat.land marg w) 1)%nat in
  repeat_char 32 left ++ s ++ repeat_char 32 (marg - left).

(** *** The regular expression of the sanitizer

    [re.sub(cls, '', s)] for a character class [cls]: the scan goes left to
    right and replaces every match (one character of the class) by the
    empty string. *)
Definition in_class (cls : list char) (c : char) : bool :=
  existsb (Z.eqb c) cls.

Fixpoint re_sub_class_empty (cls : list char) (s : str) : str :=
  match s with
  | [] => []
  | c :: t =>
      if in_class cls c then re_sub_class_empty cls t
      else c :: re_sub_class_empty cls t
  end.

End PyStr.

Import PyStr.

(** ** Filename sanitizer *)

(** The character class of the pattern, in the order it is written:
    less-than, greater-than, colon, double quote, slash, backslash,
    vertical bar, question mark, asterisk. *)
Definition illegal_chars : list char := [60; 62; 58; 34; 47; 92; 124; 63; 42].

(** [TTSBatchProcessor.sanitize_filename] *)
Definition sanitize_filename (text : str) : str :=
  let text := re_sub_class_empty illegal_chars text in
  let text := strip text in
  text.


(** ** Exceptions and results

    Only instances of [Exception] are modelled (the ones an
    [except Exception] clause catches); an exception carries its class and
    the text [str(e)]. *)

Inductive exn_class :=
| FileNotFoundError | WaveError | EOFError | UnicodeDecodeError
| ZeroDivisionError | RuntimeError.

Record exn := mk_exn { exn_cls : exn_class; exn_msg : str }.

Inductive result (A : Type) :=
| Ok (a : A)
| Raise (e : exn).
Arguments Ok {A} & a.
Arguments Raise {A} e.

Definition is_ok {A} (r : result A) : bool :=
  match r with Ok _ => true | Raise _ => false end.

(** ** Python floats

    A Python [float] is an IEEE 754 binary64 number: the specification
    floats of the standard library at precision 53 and maximal exponent
    1024.  Division by zero raises instead of returning an infinity. *)

Module PyFloat.

Definition float := spec_float.
Definition prec := 53.
Definition emax := 1024.

(** [0.0] *)
Definition zero : float := S754_zero false.

Definition add (a b : float) : float := SFadd prec emax a b.
Definition sub (a b : float) : float := SFsub prec emax a b.
Definition div (a b : float) : float := SFdiv prec emax a b.
Definition eqb (a b : float) : bool := SFeqb a b.
Definition ltb (a b : float) : bool := SFltb a b.
Definition leb (a b : float) : bool := SFleb a b.

(** [x > 0] for a float [x] and the integer literal [0] *)
Definition gt_zero (x : float) : bool := ltb zero x.

(** [float(n)] for an integer [n], rounded to nearest even.  The integers
    the script converts are string lengths and 32-bit header fields of a
    wave file, far below the [2 ^ 1024] from which Python raises
    [OverflowError]; that case is left out. *)
Definition float_of_int (n : Z) : float :=
  binary_normalize prec emax n 0 false.

(** [a / b] on two floats *)
Definition truediv (a b : float) : result float :=
  if eqb b zero
  then Raise (mk_exn ZeroDivisionError (lit "float division by zero"))
  else Ok (div a b).

(** [a / n] for a float [a] and an integer [n] *)
Definition truediv_int (a : float) (n : Z) : result float :=
  truediv a (float_of_int n).

(** [n / b] for an integer [n] and a float [b] *)
Definition int_truediv (n : Z) (b : float) : result float :=
  truediv (float_of_int n) b.

End PyFloat.

Import PyFloat.

(** A float that is zero or positive, by its shape. *)
Definition nonneg_shape (x : float) : Prop :=
  match x with
  | S754_zero false | S754_infinity false | S754_finite false _ _ => True
  | _ => False
  end.

(** A float that is zero or positive and finite, by its shape. *)
Definition finite_shape (x : float) : Prop :=
  match x with
  | S754_zero false | S754_finite false _ _ => True
  | _ => False
  end.

(** ** Text files

    A file opened in text mode with the default [newline=None] translates
    the line endings CR LF and CR to LF, and iteration yields the lines
    with their terminating LF. *)

Fixpoint translate_newlines (s : str) : str :=
  match s with
  | [] => []
  | c :: t =>
      if c =? 13 then
        10 :: match t with
              | [] => []
              | c' :: t' =>
                  if c' =? 10 then translate_newlines t'
                  else translate_newlines t
              end
      else c :: translate_newlines t
  end.

Fixpoint split_lines (s : str) : list str :=
  match s with
  | [] => []
  | c :: t =>
      if c =? 10 then [c] :: split_lines t
      else match split_lines t with
           | [] => [[c]]
           | l :: ls => (c :: l) :: ls
           end
  end.

(** The lines [for line in f] yields for a file of decoded content [s]. *)
Definition file_lines (s : str) : list str :=
  split_lines (translate_newlines s).

(** A file that opened, as [for line in f] meets it.  The file is read
    and decoded while the loop runs: either the whole text decodes, and
    the loop gets every line of it, or reading or decoding fails at some
    point, and the loop gets the lines of [prefix] and then the exception
    [e] in place of the next line.  A [str] where a file is expected
    stands for the file that decodes as a whole to it. *)
Inductive text_file :=
| Whole (content : str)
| Broken (prefix : str) (e : exn).

Coercion Whole : str >-> text_file.

(** ** String literals of the script *)

Module Msg.

(** [警告: 无法读取音频文件 ] *)
Definition warn_duration_1 : str :=
  [35686; 21578; 58; 32; 26080; 27861; 35835; 21462; 38899; 39057; 25991;
   20214; 32].

(** [ 的时长: ] *)
Definition warn_duration_2 : str :=
  [32; 30340; 26102; 38271; 58; 32].

(** [正在处理第 ] *)
Definition line_progress_1 : str :=
  [27491; 22312; 22788; 29702; 31532; 32].

(** [ 行: ] *)
Definition line_progress_2 : str :=
  [32; 34892; 58; 32].

(** [...字符数量: ] *)
Definition progress_3 : str :=
  [46; 46; 46; 23383; 31526; 25968; 37327; 58; 32].

(** [ 个] *)
Definition progress_4 : str :=
  [32; 20010].

(** [输出文件: ] *)
Definition output_file_is : str :=
  [36755; 20986; 25991; 20214; 58; 32].

(** [已完成: ] *)
Definition done_1 : str :=
  [24050; 23436; 25104; 58; 32].

(** [ 处理时间: ] *)
Definition done_2 : str :=
  [32; 22788; 29702; 26102; 38388; 58; 32].

(** [ 秒\n] *)
Definition done_3 : str :=
  [32; 31186; 10].

(** [正在处理完整文本: ] *)
Definition full_progress_1 : str :=
  [27491; 22312; 22788; 29702; 23436; 25972; 25991; 26412; 58; 32].

(** [完整文本] *)
Definition full_text_label : str :=
  [23436; 25972; 25991; 26412].

(** [=== TTS 批量处理开始 === 时间: ] *)
Definition header_begin : str :=
  [61; 61; 61; 32; 84; 84; 83; 32; 25209; 37327; 22788; 29702; 24320;
   22987; 32; 61; 61; 61; 32; 26102; 38388; 58; 32].

(** [输入文件: ] *)
Definition header_input : str :=
  [36755; 20837; 25991; 20214; 58; 32].

(** [输出目录: ] *)
Definition header_output : str :=
  [36755; 20986; 30446; 24405; 58; 32].

(** [日志文件: ] *)
Definition header_log : str :=
  [26085; 24535; 25991; 20214; 58; 32].

(** [所有音频文件生成完成！总字符数: ] *)
Definition summary_1 : str :=
  [25152; 26377; 38899; 39057; 25991; 20214; 29983; 25104; 23436; 25104;
   65281; 24635; 23383; 31526; 25968; 58; 32].

(** [ 个，总处理时间: ] *)
Definition summary_2 : str :=
  [32; 20010; 65292; 24635; 22788; 29702; 26102; 38388; 58; 32].

(** [ 分 ] *)
Definition summary_3 : str :=
  [32; 20998; 32].

(** [ 秒] *)
Definition summary_4 : str :=
  [32; 31186].

(** [=== TTS 批量处理结束 === 时间: ] *)
Definition footer_end : str :=
  [61; 61; 61; 32; 84; 84; 83; 32; 25209; 37327; 22788; 29702; 32467;
   26463; 32; 61; 61; 61; 32; 26102; 38388; 58; 32].

(** [处理报告] *)
Definition report_title : str :=
  [22788; 29702; 25253; 21578].

(** [行号] *)
Definition col_line_num : str :=
  [34892; 21495].

(** [字符数] *)
Definition col_char_count : str :=
  [23383; 31526; 25968].

(** [音频时间(秒)] *)
Definition col_audio_time : str :=
  [38899; 39057; 26102; 38388; 40; 31186; 41].

(** [消耗时间(秒)] *)
Definition col_elapsed_time : str :=
  [28040; 32791; 26102; 38388; 40; 31186; 41].

(** [字符比率] *)
Definition col_char_ratio : str :=
  [23383; 31526; 27604; 29575].

(** [时间比率] *)
Definition col_time_ratio : str :=
  [26102; 38388; 27604; 29575].

(** [总计] *)
Definition total_label : str :=
  [24635; 35745].

(** [处理模式: 按行读取（每行生成一个音频文件）] *)
Definition mode_by_line : str :=
  [22788; 29702; 27169; 24335; 58; 32; 25353; 34892; 35835; 21462; 65288;
   27599; 34892; 29983; 25104; 19968; 20010; 38899; 39057; 25991; 20214;
   65289].

(** [处理模式: 整文本读取（生成一个完整音频文件）] *)
Definition mode_full_text : str :=
  [22788; 29702; 27169; 24335; 58; 32; 25972; 25991; 26412; 35835; 21462;
   65288; 29983; 25104; 19968; 20010; 23436; 25972; 38899; 39057; 25991;
   20214; 65289].

(** [警告: 输入文件为空，无法生成音频文件] *)
Definition warn_empty_input : str :=
  [35686; 21578; 58; 32; 36755; 20837; 25991; 20214; 20026; 31354; 65292;
   26080; 27861; 29983; 25104; 38899; 39057; 25991; 20214].

End Msg.

(** ** The world outside the script

    Everything the script only consumes: the files on disk, the wall
    clock, the synthesis engine, the platform's path join and the number
    formatting of f-strings.  A conforming backend is an instance. *)

Class Env := {
  (** files on disk (and whatever else the engine keeps) *)
  disk : Type;
  (** the [k]-th reading of the wall clock by [time.time()] *)
  time_time : nat -> float;
  (** [datetime.now().strftime(fmt)] when it is the [k]-th reading *)
  now_strftime : str -> nat -> str;
  (** [open(path, 'r', encoding='utf-8')]: raises, or gives the file as
      the loop over its lines will meet it *)
  open_read : disk -> str -> result text_file;
  (** [wave.open(path, 'r')] followed by [getnframes()] and
      [getframerate()], both read from unsigned 32-bit header fields *)
  wave_open : disk -> str -> result (N * N);
  wave_open_range :
    forall d path frames rate,
      wave_open d path = Ok (frames, rate) ->
      (frames < 2 ^ 32)%N /\ (rate < 2 ^ 32)%N;
  (** [self.tts.infer(spk_audio_prompt, text, output_path, verbose=True)]:
      writes the audio file as a side effect and may raise *)
  tts_infer : str -> str -> str -> disk -> result unit * disk;
  (** [os.path.join] *)
  os_path_join : str -> str -> str;
  (** [format(x, '.2f')] *)
  format_f2 : float -> str;
  (** [int(x // n)] and [int(x % n)] for a float [x] and an integer [n];
      [x] is a difference of clock readings, hence finite, and the
      conversions cannot fail *)
  int_floordiv : float -> Z -> Z;
  int_mod : float -> Z -> Z
}.

(** ** Data model *)

(** The value under the key ['line_num']: an integer in per-line mode,
    a string in whole-text mode. *)
Inductive label :=
| LabelInt (n : Z)
| LabelStr (s : str).

(** A processing record, the dictionary built by [process_single_line]
    and [process_full_text]. *)
Record record := mk_record {
  line_num : label;
  char_count : Z;
  elapsed_time : float;
  audio_duration : float
}.

(** The attributes of the processor that [__init__] fixes. *)
Record config := mk_config {
  spk_audio_prompt : str;
  input_file : str;
  output_dir : str;
  log_file : str;
  start_line_num : Z;
  read_by_line : bool
}.

(** [format(v, '<w')] of a label *)
Definition format_label (w : nat) (l : label) : str :=
  match l with
  | LabelInt n => ljust w (str_of_int n)
  | LabelStr s => ljust w s
  end.

Definition sum_char_count (rs : list record) : Z :=
  fold_right (fun r acc => char_count r + acc) 0 rs.

Section Processor.

Context {E : Env}.

(** The mutable attributes of the processor, and the world it acts on.
    [console] and [log_content] hold the chunks written so far, oldest
    first. *)
Record state := mk_state {
  total_char_count : Z;
  processing_records : list record;
  total_start_time : option float;
  clock : nat;
  files : disk;
  console : list str;
  log_content : list str
}.

(** The state [__init__] leaves: no character counted, no record, the log
    file of this run not yet written. *)
Definition init_state (d : disk) (k : nat) : state :=
  mk_state 0 [] None k d [] [].

(** *** The monad of the script: state, and exceptions that keep the
    state reached when they are raised. *)

Definition M (A : Type) : Type := state -> result A * state.

Definition ret {A} (a : A) : M A := fun s => (Ok a, s).

Definition bind {A B} (m : M A) (k : A -> M B) : M B :=
  fun s =>
    match m s with
    | (Ok a, s') => k a s'
    | (Raise e, s') => (Raise e, s')
    end.

Definition lift {A} (r : result A) : M A := fun s => (r, s).

(** [try: m  except Exception as e: h e] *)
Definition try_except {A} (m : M A) (h : exn -> M A) : M A :=
  fun s =>
    match m s with
    | (Ok a, s') => (Ok a, s')
    | (Raise e, s') => h e s'
    end.

Definition get {A} (f : state -> A) : M A := fun s => (Ok (f s), s).

Definition modify (f : state -> state) : M unit := fun s => (Ok tt, f s).

End Processor.

Declare Scope py_scope.
Delimit Scope py_scope with py.
Notation "x <- m ;; k" := (bind m (fun x => k))
  (at level 61, m at next level, right associativity) : py_scope.
Notation "m ;; k" := (bind m (fun _ => k))
  (at level 61, right associativity) : py_scope.
Local Open Scope py_scope.

(** ** The methods of [TTSBatchProcessor] *)

Section Methods.

Context {E : Env}.
Variable self : config.

(** [time.time()] *)
Definition time_now : M float :=
  fun s =>
    (Ok (time_time (clock s)),
     mk_state (total_char_count s) (processing_records s)
       (total_start_time s) (S (clock s)) (files s) (console s)
       (log_content s)).

(** [datetime.now().strftime(fmt)] *)
Definition datetime_now_strftime (fmt : str) : M str :=
  fun s =>
    (Ok (now_strftime fmt (clock s)),
     mk_state (total_char_count s) (processing_records s)
       (total_start_time s) (S (clock s)) (files s) (console s)
       (log_content s)).

(** [log_print]: the message goes to the console with its line end, and
    to the log file with the line end only when that is a newline.
    Opening the log file is taken to succeed. *)
Definition log_print_end (message end_ : str) : M unit :=
  modify (fun s =>
    mk_state (total_char_count s) (processing_records s)
      (total_start_time s) (clock s) (files s)
      (console s ++ [message ++ end_])
      (log_content s ++
         [if list_eq_dec Z.eq_dec end_ [10] then message ++ end_
          else message])).

Definition log_print (message : str) : M unit := log_print_end message [10].

(** [get_audio_duration] *)
Definition get_audio_duration (audio_path : str) : M float :=
  try_except
    (d <- get files ;;
     wav_file <- lift (wave_open d audio_path) ;;
     let frames := Z.of_N (fst wav_file) in
     let sample_rate := Z.of_N (snd wav_file) in
     duration <- lift (int_truediv frames (float_of_int sample_rate)) ;;
     ret duration)
    (fun e =>
       log_print (Msg.warn_duration_1 ++ audio_path ++ Msg.warn_duration_2
                  ++ exn_msg e) ;;
       ret zero).

(** [generate_output_filename]; [timestamp] is read only in whole-text
    mode. *)
Definition generate_output_filename (line_num : Z) (text : str)
    (is_full_text : bool) : M (str * str) :=
  let text_prefix := slice_to 10 text in
  let safe_prefix := sanitize_filename text_prefix in
  output_filename <-
    (if is_full_text then
       timestamp <- datetime_now_strftime (lit "%Y%m%d_%H%M%S") ;;
       ret (lit "full_text_" ++ timestamp ++ lit "_" ++ safe_prefix
            ++ lit ".wav")
     else
       ret (str_of_int line_num ++ lit "_" ++ safe_prefix ++ lit ".wav")) ;;
  let output_path := os_path_join (output_dir self) output_filename in
  ret (output_filename, output_path).

(** [self.tts.infer(...)] *)
Definition infer (text output_path : str) : M unit :=
  fun s =>
    let '(r, d) := tts_infer (spk_audio_prompt self) text output_path
                     (files s) in
    (r, mk_state (total_char_count s) (processing_records s)
          (total_start_time s) (clock s) d (console s) (log_content s)).

Definition set_total_char_count (n : Z) : M unit :=
  modify (fun s =>
    mk_state n (processing_records s) (total_start_time s) (clock s)
      (files s) (console s) (log_content s)).

(** [self.processing_records.append(record)] *)
Definition append_record (r : record) : M unit :=
  modify (fun s =>
    mk_state (total_char_count s) (processing_records s ++ [r])
      (total_start_time s) (clock s) (files s) (console s)
      (log_content s)).

Definition set_total_start_time (t : float) : M unit :=
  modify (fun s =>
    mk_state (total_char_count s) (processing_records s) (Some t)
      (clock s) (files s) (console s) (log_content s)).

(** [process_single_line] *)
Definition process_single_line (line_num : Z) (text : str) : M record :=
  names <- generate_output_filename line_num text false ;;
  let output_filename := fst names in
  let output_path := snd names in
  let char_count := len text in
  total <- get total_char_count ;;
  set_total_char_count (total + char_count) ;;
  log_print (Msg.line_progress_1 ++ str_of_int line_num
             ++ Msg.line_progress_2 ++ slice_to 50 text ++ Msg.progress_3
             ++ str_of_int char_count ++ Msg.progress_4) ;;
  log_print (Msg.output_file_is ++ output_filename) ;;
  line_start_time <- time_now ;;
  infer text output_path ;;
  line_end_time <- time_now ;;
  let line_elapsed := sub line_end_time line_start_time in
  audio_duration <- get_audio_duration output_path ;;
  let record :=
    mk_record (LabelInt line_num) char_count line_elapsed audio_duration in
  log_print (Msg.done_1 ++ output_filename ++ Msg.done_2
             ++ format_f2 line_elapsed ++ Msg.done_3) ;;
  ret record.

(** [process_full_text] *)
Definition process_full_text (text : str) : M record :=
  names <- generate_output_filename 0 text true ;;
  let output_filename := fst names in
  let output_path := snd names in
  let char_count := len text in
  set_total_char_count char_count ;;
  log_print (Msg.full_progress_1 ++ slice_to 50 text ++ Msg.progress_3
             ++ str_of_int char_count ++ Msg.progress_4) ;;
  log_print (Msg.output_file_is ++ output_filename) ;;
  start_time <- time_now ;;
  infer text output_path ;;
  end_time <- time_now ;;
  let elapsed := sub end_time start_time in
  audio_duration <- get_audio_duration output_path ;;
  let record :=
    mk_record (LabelStr Msg.full_text_label) char_count elapsed
      audio_duration in
  log_print (Msg.done_1 ++ output_filename ++ Msg.done_2
             ++ format_f2 elapsed ++ Msg.done_3) ;;
  ret record.

(** [print_log_header] *)
Definition print_log_header : M unit :=
  now <- datetime_now_strftime (lit "%Y-%m-%d %H:%M:%S") ;;
  log_print (Msg.header_begin ++ now) ;;
  log_print (Msg.header_input ++ input_file self) ;;
  log_print (Msg.header_output ++ output_dir self) ;;
  log_print (Msg.header_log ++ log_file self) ;;
  log_print [].

(** [print_summary] *)
Definition print_summary (total_elapsed : float) : M unit :=
  let total_minutes := int_floordiv total_elapsed 60 in
  let total_seconds := int_mod total_elapsed 60 in
  log_print [] ;;
  total <- get total_char_count ;;
  log_print (Msg.summary_1 ++ str_of_int total ++ Msg.summary_2
             ++ str_of_int total_minutes ++ Msg.summary_3
             ++ str_of_int total_seconds ++ Msg.summary_4) ;;
  now <- datetime_now_strftime (lit "%Y-%m-%d %H:%M:%S") ;;
  log_print (Msg.footer_end ++ now) ;;
  log_print [].

(** *** The report *)

Definition COL_WIDTH_LINE_NUM : nat := 12.
Definition COL_WIDTH_CHAR_COUNT : nat := 15.
Definition COL_WIDTH_AUDIO_TIME : nat := 20.
Definition COL_WIDTH_ELAPSED_TIME : nat := 20.
Definition COL_WIDTH_CHAR_RATIO : nat := 16.
Definition COL_WIDTH_TIME_RATIO : nat := 16.

Definition total_width : nat :=
  (COL_WIDTH_LINE_NUM + COL_WIDTH_CHAR_COUNT + COL_WIDTH_AUDIO_TIME
   + COL_WIDTH_ELAPSED_TIME + COL_WIDTH_CHAR_RATIO
   + COL_WIDTH_TIME_RATIO)%nat.

Definition header_line : str :=
  ljust COL_WIDTH_LINE_NUM Msg.col_line_num
  ++ ljust COL_WIDTH_CHAR_COUNT Msg.col_char_count
  ++ ljust COL_WIDTH_AUDIO_TIME Msg.col_audio_time
  ++ ljust COL_WIDTH_ELAPSED_TIME Msg.col_elapsed_time
  ++ ljust COL_WIDTH_CHAR_RATIO Msg.col_char_ratio
  ++ ljust COL_WIDTH_TIME_RATIO Msg.col_time_ratio.

(** [elapsed / count if count > 0 else 0.0], for an integer [count] *)
Definition guarded_char_ratio (elapsed : float) (count : Z)
  : result float :=
  if 0 <? count then truediv_int elapsed count else Ok zero.

(** [elapsed / duration if duration > 0 else 0.0], for a float [duration] *)
Definition guarded_time_ratio (elapsed duration : float) : result float :=
  if gt_zero duration then truediv elapsed duration else Ok zero.

(** The two ratios of a row. *)
Definition row_char_ratio (r : record) : result float :=
  guarded_char_ratio (elapsed_time r) (char_count r).

Definition row_time_ratio (r : record) : result float :=
  guarded_time_ratio (elapsed_time r) (audio_duration r).

Definition data_line (r : record) (ratio time_ratio : float) : str :=
  format_label COL_WIDTH_LINE_NUM (line_num r)
  ++ ljust COL_WIDTH_CHAR_COUNT (str_of_int (char_count r))
  ++ ljust COL_WIDTH_AUDIO_TIME (format_f2 (audio_duration r))
  ++ ljust COL_WIDTH_ELAPSED_TIME (format_f2 (elapsed_time r))
  ++ ljust COL_WIDTH_CHAR_RATIO (format_f2 ratio)
  ++ ljust COL_WIDTH_TIME_RATIO (format_f2 time_ratio).

Definition total_line (total_chars : Z)
    (total_audio_duration total_elapsed total_ratio total_time_ratio : float)
  : str :=
  ljust COL_WIDTH_LINE_NUM Msg.total_label
  ++ ljust COL_WIDTH_CHAR_COUNT (str_of_int total_chars)
  ++ ljust COL_WIDTH_AUDIO_TIME (format_f2 total_audio_duration)
  ++ ljust COL_WIDTH_ELAPSED_TIME (format_f2 total_elapsed)
  ++ ljust COL_WIDTH_CHAR_RATIO (format_f2 total_ratio)
  ++ ljust COL_WIDTH_TIME_RATIO (format_f2 total_time_ratio).

(** The loop of [generate_report] over the records; the accumulator is
    [total_audio_duration]. *)
Fixpoint report_rows (records : list record) (total_audio_duration : float)
  : M float :=
  match records with
  | [] => ret total_audio_duration
  | record :: rest =>
      ratio <- lift (row_char_ratio record) ;;
      time_ratio <- lift (row_time_ratio record) ;;
      let total_audio_duration :=
        add total_audio_duration (audio_duration record) in
      log_print (data_line record ratio time_ratio) ;;
      report_rows rest total_audio_duration
  end.

(** [generate_report] *)
Definition generate_report (total_elapsed : float) : M unit :=
  log_print (repeat_char 61 total_width) ;;
  log_print (center total_width Msg.report_title) ;;
  log_print (repeat_char 61 total_width) ;;
  log_print header_line ;;
  log_print (repeat_char 45 total_width) ;;
  records <- get processing_records ;;
  total_audio_duration <- report_rows records zero ;;
  log_print (repeat_char 45 total_width) ;;
  total <- get total_char_count ;;
  total_ratio <- lift (guarded_char_ratio total_elapsed total) ;;
  total_time_ratio <-
    lift (guarded_time_ratio total_elapsed total_audio_duration) ;;
  log_print (total_line total total_audio_duration total_elapsed
               total_ratio total_time_ratio) ;;
  log_print (repeat_char 61 total_width).

(** *** The batch *)

(** The per-line loop of [process_batch]; [line_counter] counts the
    non-empty lines met so far. *)
Fixpoint per_line_loop (lines : list str) (line_counter : Z) : M unit :=
  match lines with
  | [] => ret tt
  | line :: rest =>
      let text := strip line in
      if negb (truthy text) then per_line_loop rest line_counter
      else
        let line_counter := line_counter + 1 in
        let output_line_num := start_line_num self + (line_counter - 1) in
        record <- process_single_line output_line_num text ;;
        append_record record ;;
        per_line_loop rest line_counter
  end.

(** The collecting loop of whole-text mode: the stripped lines that are
    not empty, in order. *)
Fixpoint collect_lines (lines : list str) (acc : list str) : list str :=
  match lines with
  | [] => acc
  | line :: rest =>
      let stripped_line := strip line in
      if truthy stripped_line then collect_lines rest (acc ++ [stripped_line])
      else collect_lines rest acc
  end.

(** The per-line branch of [process_batch] (lines 362-381).  The units
    are processed while the file is read: a read error comes after the
    units of the lines before it. *)
Definition batch_by_line : M unit :=
  log_print Msg.mode_by_line ;;
  log_print [] ;;
  d <- get files ;;
  f <- lift (open_read d (input_file self)) ;;
  match f with
  | Whole content => per_line_loop (file_lines content) 0
  | Broken prefix e =>
      per_line_loop (file_lines prefix) 0 ;;
      lift (Raise e)
  end.

(** The whole-text branch of [process_batch] (lines 382-404).  The file
    is read to its end before anything is processed: a read error leaves
    the collecting loop, and the lines collected are lost. *)
Definition batch_full_text : M unit :=
  log_print Msg.mode_full_text ;;
  log_print [] ;;
  d <- get files ;;
  f <- lift (open_read d (input_file self)) ;;
  lines <- lift (match f with
                 | Whole content => Ok (collect_lines (file_lines content) [])
                 | Broken _ e => Raise e
                 end) ;;
  let full_text := join [32] lines in
  if truthy full_text then
    record <- process_full_text full_text ;;
    append_record record
  else
    log_print Msg.warn_empty_input.

(** [process_batch]; [t0] is [self.total_start_time], written once. *)
Definition process_batch : M float :=
  t0 <- time_now ;;
  set_total_start_time t0 ;;
  print_log_header ;;
  (if read_by_line self then batch_by_line else batch_full_text) ;;
  total_end_time <- time_now ;;
  let total_elapsed := sub total_end_time t0 in
  print_summary total_elapsed ;;
  generate_report total_elapsed ;;
  ret total_elapsed.

End Methods.

(** ** Vocabulary of the statements *)

Section Vocabulary.

Context {E : Env}.

(** The state after the lines [lines] went through [log_print]: each is
    written, newline-terminated, to the console and to the log file. *)
Definition with_logged (s : state) (lines : list str) : state :=
  mk_state (total_char_count s) (processing_records s) (total_start_time s)
    (clock s) (files s)
    (console s ++ map (fun m => m ++ [10]) lines)
    (log_content s ++ map (fun m => m ++ [10]) lines).

(** The warning of the duration probe for [audio_path] and exception [e]. *)
Definition duration_warning (audio_path : str) (e : exn) : str :=
  Msg.warn_duration_1 ++ audio_path ++ Msg.warn_duration_2 ++ exn_msg e.

(** The state one clock reading later. *)
Definition ticked (s : state) : state :=
  mk_state (total_char_count s) (processing_records s) (total_start_time s)
    (S (clock s)) (files s) (console s) (log_content s).

(** The state once [process_batch] has noted its start time. *)
Definition started (s : state) : state :=
  mk_state (total_char_count s) (processing_records s)
    (Some (time_time (clock s))) (S (clock s)) (files s) (console s)
    (log_content s).

(** The lines of [print_log_header] when the clock has been read [k]
    times. *)
Definition header_text (self : config) (k : nat) : list str :=
  [Msg.header_begin ++ now_strftime (lit "%Y-%m-%d %H:%M:%S") k;
   Msg.header_input ++ input_file self;
   Msg.header_output ++ output_dir self;
   Msg.header_log ++ log_file self;
   []].

(** The state in which the branch of [process_batch] starts. *)
Definition at_branch (self : config) (s : state) : state :=
  with_logged (ticked (started s)) (header_text self (S (clock s))).

(** The lines of [print_summary]. *)
Definition summary_text (total : Z) (total_elapsed : float) (k : nat)
  : list str :=
  [[];
   Msg.summary_1 ++ str_of_int total ++ Msg.summary_2
   ++ str_of_int (int_floordiv total_elapsed 60) ++ Msg.summary_3
   ++ str_of_int (int_mod total_elapsed 60) ++ Msg.summary_4;
   Msg.footer_end ++ now_strftime (lit "%Y-%m-%d %H:%M:%S") k;
   []].

(** The destination of the whole-text unit [text] when the clock has been
    read [k] times. *)
Definition full_text_path (self : config) (text : str) (k : nat) : str :=
  os_path_join (output_dir self)
    (lit "full_text_" ++ now_strftime (lit "%Y%m%d_%H%M%S") k ++ lit "_"
     ++ sanitize_filename (slice_to 10 text) ++ lit ".wav").

(** The records [rs] are, in order, those of the first units of [units],
    and the record at index [i] carries the label [offset + i]. *)
Definition labelled_in_order (offset : Z) (units : list str)
    (rs : list record) : Prop :=
  forall i r,
    nth_error rs i = Some r ->
    line_num r = LabelInt (offset + Z.of_nat i)
    /\ exists text, nth_error units i = Some text /\ char_count r = len text.

(** The exception of a float division by zero. *)
Definition zero_division : exn :=
  mk_exn ZeroDivisionError (lit "float division by zero").

(** The non-empty stripped lines among [lines]. *)
Definition nonblank (lines : list str) : list str :=
  filter truthy (map strip lines).

(** The units of an input: its lines, stripped, without the empty ones. *)
Definition units_of (content : str) : list str :=
  nonblank (file_lines content).

(** The whole-text blob of an input. *)
Definition blob_of (content : str) : str := join [32] (units_of content).

(** The labels [offset + 0], [offset + 1], ... of [n] successive records. *)
Definition labels_from (offset : Z) (n : nat) : list label :=
  map (fun i => LabelInt (offset + Z.of_nat i)) (seq 0 n).

(** [x / y (0.0 if y is 0)], the ratio as the specification words it. *)
Definition spec_ratio (x y : float) : float :=
  if eqb y zero then zero else div x y.

(** What the processor guarantees of a record it builds: the character
    count is a length, and the duration is zero or positive. *)
Definition valid_record (r : record) : Prop :=
  0 <= char_count r /\ leb zero (audio_duration r) = true.

(** The sum of the durations, as the loop of the report accumulates it. *)
Definition sum_audio_duration (rs : list record) : float :=
  fold_left (fun acc r => add acc (audio_duration r)) rs zero.

(** The row of a record, with the ratios of the specification. *)
Definition row_text (r : record) : str :=
  data_line r
    (spec_ratio (elapsed_time r) (float_of_int (char_count r)))
    (spec_ratio (elapsed_time r) (audio_duration r)).

(** The lines of the report for the records [rs], the character total
    [total] and the elapsed time [total_elapsed]. *)
Definition report_text (rs : list record) (total : Z)
    (total_elapsed : float) : list str :=
  [repeat_char 61 total_width; center total_width Msg.report_title;
   repeat_char 61 total_width; header_line; repeat_char 45 total_width]
  ++ map row_text rs
  ++ [repeat_char 45 total_width;
      total_line total (sum_audio_duration rs) total_elapsed
        (spec_ratio total_elapsed (float_of_int total))
        (spec_ratio total_elapsed (sum_audio_duration rs));
      repeat_char 61 total_width].

End Vocabulary.

(** ** Further vocabulary *)

(** The text a label is printed as. *)
Definition label_text (l : label) : str :=
  match l with
  | LabelInt n => str_of_int n
  | LabelStr s => s
  end.

(** A character that may stand in a file name. *)
Definition legal (c : char) : Prop := ~ In c illegal_chars.

(** A decimal digit or the minus sign. *)
Definition digit_or_minus (c : char) : Prop := 48 <= c <= 57 \/ c = 45.

(** A text that holds neither a line feed nor a carriage return. *)
Definition one_line (text : str) : Prop := ~ In 10 text /\ ~ In 13 text.

Section StateChanges.

Context {E : Env}.

(** The five ways a method changes the state besides logging and reading
    the clock: the engine leaves another disk, the character total is
    written, a record is appended, the start time is noted. *)
Definition with_files (s : state) (d : disk) : state :=
  mk_state (total_char_count s) (processing_records s) (total_start_time s)
    (clock s) d (console s) (log_content s).

Definition with_total (s : state) (n : Z) : state :=
  mk_state n (processing_records s) (total_start_time s) (clock s)
    (files s) (console s) (log_content s).

Definition with_record (s : state) (r : record) : state :=
  mk_state (total_char_count s) (processing_records s ++ [r])
    (total_start_time s) (clock s) (files s) (console s) (log_content s).

Definition with_start (s : state) (t : float) : state :=
  mk_state (total_char_count s) (processing_records s) (Some t) (clock s)
    (files s) (console s) (log_content s).

(** A computation keeps the relation [R] when the state it leaves, with a
    result or with an exception, is related to the state it started in. *)
Definition keeps (R : state -> state -> Prop) {A} (m : M A) : Prop :=
  forall s, R s (snd (m s)).

(** Both sinks received the same newline-terminated lines. *)
Definition sinks_extended (s s' : state) : Prop :=
  exists lines,
    console s' = console s ++ map (fun m => m ++ [10]) lines
    /\ log_content s' = log_content s ++ map (fun m => m ++ [10]) lines.

(** The records were only appended to. *)
Definition records_extended (s s' : state) : Prop :=
  exists new, processing_records s' = processing_records s ++ new.

(** A computation raises no exception but those of [P], whatever the state
    it starts in. *)
Definition raises_only (P : exn -> Prop) {A} (m : M A) : Prop :=
  forall s e, fst (m s) = Raise e -> P e.

End StateChanges.

(** The destination of the unit [text] with the ordinal [n] in per-line
    mode. *)
Definition line_path `{E : Env} (self : config) (n : Z) (text : str)
  : str :=
  os_path_join (output_dir self)
    (str_of_int n ++ lit "_" ++ sanitize_filename (slice_to 10 text)
     ++ lit ".wav").

(** ** A small world to run the script in

    The input file holds [content]; the engine never fails and, when
    [writes] is set, writes one second of audio per character at 24000
    frames per second, else writes nothing; the clock advances one second
    per reading. *)

Module Demo.

Definition str_eqb (a b : str) : bool :=
  if list_eq_dec Z.eq_dec a b then true else false.

Definition lookup (d : list (str * (N * N))) (path : str)
  : option (N * N) :=
  match find (fun e => str_eqb path (fst e)) d with
  | Some e => Some (snd e)
  | None => None
  end.

Definition probe (d : list (str * (N * N))) (path : str)
  : result (N * N) :=
  match lookup d path with
  | Some (frames, rate) =>
      if ((frames <? 2 ^ 32) && (rate <? 2 ^ 32))%N then Ok (frames, rate)
      else Raise (mk_exn WaveError (lit "bad header"))
  | None => Raise (mk_exn FileNotFoundError (lit "No such file or directory"))
  end.

Lemma probe_range d path frames rate :
  probe d path = Ok (frames, rate) ->
  (frames < 2 ^ 32)%N /\ (rate < 2 ^ 32)%N.
Proof.
  unfold probe. destruct (lookup d path) as [[f r]|]; [|discriminate].
  destruct ((f <? 2 ^ 32) && (r <? 2 ^ 32))%N eqn:H; [|discriminate].
  intros Heq. inversion Heq; subst.
  apply andb_true_iff in H. destruct H as [H1 H2].
  apply N.ltb_lt in H1, H2. auto.
Qed.

Definition env (content : str) (writes : bool) : Env := {|
  disk := list (str * (N * N));
  time_time := fun k => float_of_int (Z.of_nat k);
  now_strftime := fun _ k => str_of_int (Z.of_nat k);
  open_read := fun _ _ => Ok content;
  wave_open := probe;
  wave_open_range := probe_range;
  tts_infer := fun _ text path d =>
    (Ok tt,
     if writes
     then (path, (24000 * N.of_nat (List.length text), 24000)%N) :: d
     else d);
  os_path_join := fun a b => a ++ [47] ++ b;
  format_f2 := fun _ => lit "0.00";
  int_floordiv := fun _ _ => 0;
  int_mod := fun _ _ => 0
|}.

Definition cfg (by_line : bool) (offset : Z) : config :=
  mk_config (lit "voice.mp3") (lit "input.txt") (lit "outputs")
    (lit "logs/tts_log.txt") offset by_line.

(** The input of scenarios A and B: two sentences around an empty line. *)
Definition two_sentences : str :=
  lit "Hello world." ++ [10; 10] ++ lit "Goodbye." ++ [10].

(** An input of blank lines only. *)
Definition blank_lines : str := [32; 10; 10; 9; 32; 13; 10; 32].

(** The worlds of the scenarios, and a disk with nothing on it. *)
Definition env_two : Env := env two_sentences true.
Definition env_blank : Env := env blank_lines true.
Definition env_mute : Env := env two_sentences false.
Definition empty_disk : list (str * (N * N)) := [].

(** The runs of scenarios A and B, from the state [__init__] leaves. *)
Definition run_by_line : result float * @state env_two :=
  @process_batch env_two (cfg true 1) (@init_state env_two empty_disk 0).
Definition run_full_text : result float * @state env_two :=
  @process_batch env_two (cfg false 1) (@init_state env_two empty_disk 0).

(** The run of scenario A with an engine that leaves no audio file. *)
Definition run_mute : result float * @state env_mute :=
  @process_batch env_mute (cfg true 1) (@init_state env_mute empty_disk 0).

End Demo.

(** ** A world whose engine fails

    As the small world above with the two sentences as input, but the
    engine raises on the second sentence. *)

Module DemoFail.

Definition env : Env := {|
  disk := list (str * (N * N));
  time_time := fun k => float_of_int (Z.of_nat k);
  now_strftime := fun _ k => str_of_int (Z.of_nat k);
  open_read := fun _ _ => Ok Demo.two_sentences;
  wave_open := Demo.probe;
  wave_open_range := Demo.probe_range;
  tts_infer := fun _ text path d =>
    if Demo.str_eqb text (lit "Goodbye.")
    then (Raise (mk_exn RuntimeError (lit "engine failure")), d)
    else (Ok tt,
          (path, (24000 * N.of_nat (List.length text), 24000)%N) :: d);
  os_path_join := fun a b => a ++ [47] ++ b;
  format_f2 := fun _ => lit "0.00";
  int_floordiv := fun _ _ => 0;
  int_mod := fun _ _ => 0
|}.

Definition run_by_line : result float * @state env :=
  @process_batch env (Demo.cfg true 1) (@init_state env Demo.empty_disk 0).

End DemoFail.

(** ** A world whose engine is particular

    The engine raises on a text that is empty, has surrounding whitespace
    or holds a line feed or a carriage return, and otherwise behaves as in
    the small world. *)

Module DemoPicky.

Definition accepts (text : str) : bool :=
  truthy text && Demo.str_eqb (strip text) text
  && forallb (fun c => negb (in_class [10; 13] c)) text.

Definition env : Env := {|
  disk := list (str * (N * N));
  time_time := fun k => float_of_int (Z.of_nat k);
  now_strftime := fun _ k => str_of_int (Z.of_nat k);
  open_read := fun _ _ => Ok Demo.two_sentences;
  wave_open := Demo.probe;
  wave_open_range := Demo.probe_range;
  tts_infer := fun _ text path d =>
    if accepts text
    then (Ok tt,
          (path, (24000 * N.of_nat (List.length text), 24000)%N) :: d)
    else (Raise (mk_exn RuntimeError (lit "bad text")), d);
  os_path_join := fun a b => a ++ [47] ++ b;
  format_f2 := fun _ => lit "0.00";
  int_floordiv := fun _ _ => 0;
  int_mod := fun _ _ => 0
|}.

Definition run_by_line : result float * @state env :=
  @process_batch env (Demo.cfg true 1) (@init_state env Demo.empty_disk 0).
Definition run_full_text : result float * @state env :=
  @process_batch env (Demo.cfg false 1) (@init_state env Demo.empty_disk 0).

End DemoPicky.

(** ** A world without input file

    As the small world above, but opening the input file raises. *)

Module DemoMissing.

Definition no_such_file : exn :=
  mk_exn FileNotFoundError (lit "No such file or directory").

Definition env : Env := {|
  disk := list (str * (N * N));
  time_time := fun k => float_of_int (Z.of_nat k);
  now_strftime := fun _ k => str_of_int (Z.of_nat k);
  open_read := fun _ _ => Raise no_such_file;
  wave_open := Demo.probe;
  wave_open_range := Demo.probe_range;
  tts_infer := fun _ text path d =>
    (Ok tt, (path, (24000 * N.of_nat (List.length text), 24000)%N) :: d);
  os_path_join := fun a b => a ++ [47] ++ b;
  format_f2 := fun _ => lit "0.00";
  int_floordiv := fun _ _ => 0;
  int_mod := fun _ _ => 0
|}.

Definition run_by_line : result float * @state env :=
  @process_batch env (Demo.cfg true 1) (@init_state env Demo.empty_disk 0).

End DemoMissing.

(** ** A world whose input file breaks

    As the small world above, but reading the input file fails with a
    decoding error after the first sentence and the empty line. *)

Module DemoBroken.

Definition bad_byte : exn :=
  mk_exn UnicodeDecodeError (lit "invalid start byte").

Definition first_lines : str := lit "Hello world." ++ [10; 10].

Definition env : Env := {|
  disk := list (str * (N * N));
  time_time := fun k => float_of_int (Z.of_nat k);
  now_strftime := fun _ k => str_of_int (Z.of_nat k);
  open_read := fun _ _ => Ok (Broken first_lines bad_byte);
  wave_open := Demo.probe;
  wave_open_range := Demo.probe_range;
  tts_infer := fun _ text path d =>
    (Ok tt, (path, (24000 * N.of_nat (List.length text), 24000)%N) :: d);
  os_path_join := fun a b => a ++ [47] ++ b;
  format_f2 := fun _ => lit "0.00";
  int_floordiv := fun _ _ => 0;
  int_mod := fun _ _ => 0
|}.

Definition run_by_line : result float * @state env :=
  @process_batch env (Demo.cfg true 1) (@init_state env Demo.empty_disk 0).
Definition run_full_text : result float * @state env :=
  @process_batch env (Demo.cfg false 1) (@init_state env Demo.empty_disk 0).

End DemoBroken.

(** ** Sums *)

(** The sum of the lengths of some texts. *)
Definition sum_len (texts : list str) : Z :=
  fold_right (fun t acc => len t + acc) 0 texts.

(** * Properties *)

(** ** Strings *)

Lemma lstrip_idem (s : str) : lstrip (lstrip s) = lstrip s.
Proof.
  induction s as [|c t IH]; simpl; auto.
  destruct (is_space c) eqn:Hc; auto.
  simpl. now rewrite Hc.
Qed.

Lemma lstrip_rstrip (s : str) : lstrip (rstrip s) = rstrip (lstrip s).
Proof.
  induction s as [|c t IH]; simpl; auto.
  destruct (is_space c) eqn:Hc.
  - destruct (rstrip t) eqn:Ht.
    + simpl. symmetry. rewrite <- IH. reflexivity.
    + rewrite <- IH. simpl. now rewrite Hc.
  - simpl. destruct (rstrip t) eqn:Ht; simpl; now rewrite Hc.
Qed.

Lemma rstrip_idem (s : str) : rstrip (rstrip s) = rstrip s.
Proof.
  induction s as [|c t IH]; simpl; auto.
  destruct (rstrip t) as [|c' t'] eqn:Ht.
  - destruct (is_space c) eqn:Hc; simpl; auto. now rewrite Hc.
  - change (rstrip (c :: c' :: t')) with
      (match rstrip (c' :: t') with
       | [] => if is_space c then [] else [c]
       | x => c :: x
       end).
    rewrite IH. reflexivity.
Qed.

Lemma strip_idem (s : str) : strip (strip s) = strip s.
Proof.
  unfold strip.
  rewrite (lstrip_rstrip (lstrip s)), lstrip_idem, rstrip_idem.
  reflexivity.
Qed.

Lemma lstrip_split (s : str) :
  exists pre, forallb is_space pre = true /\ s = pre ++ lstrip s.
Proof.
  induction s as [|c t [pre [Hp Ht]]].
  - exists []. auto.
  - simpl. destruct (is_space c) eqn:Hc.
    + exists (c :: pre). simpl. rewrite Hc, Hp. split; auto. now f_equal.
    + exists []. auto.
Qed.

Lemma rstrip_split (s : str) :
  exists post, forallb is_space post = true /\ s = rstrip s ++ post.
Proof.
  induction s as [|c t [post [Hp Ht]]].
  - exists []. auto.
  - simpl. destruct (rstrip t) as [|c' t'] eqn:Hr.
    + simpl in Ht. subst post.
      destruct (is_space c) eqn:Hc.
      * exists (c :: t). simpl. now rewrite Hc, Hp.
      * exists t. auto.
    + exists post. split; auto. simpl. f_equal. exact Ht.
Qed.

Lemma strip_split (s : str) :
  exists pre post,
    forallb is_space pre = true /\ forallb is_space post = true /\
    s = pre ++ strip s ++ post.
Proof.
  destruct (lstrip_split s) as [pre [Hpre Hs]].
  destruct (rstrip_split (lstrip s)) as [post [Hpost Hl]].
  exists pre, post. repeat split; auto.
  unfold strip. rewrite <- Hl. exact Hs.
Qed.

Lemma strip_Forall (P : char -> Prop) (s : str) :
  Forall P s -> Forall P (strip s).
Proof.
  intros H. destruct (strip_split s) as [pre [post [_ [_ Hs]]]].
  rewrite Hs in H. apply Forall_app in H. destruct H as [_ H].
  apply Forall_app in H. tauto.
Qed.

Lemma strip_lstrip_fix (s : str) : lstrip (strip s) = strip s.
Proof. unfold strip. now rewrite lstrip_rstrip, lstrip_idem. Qed.

Lemma strip_rstrip_fix (s : str) : rstrip (strip s) = strip s.
Proof. unfold strip. now rewrite rstrip_idem. Qed.

Lemma truthy_len (s : str) : truthy s = true <-> 1 <= len s.
Proof.
  unfold len. destruct s; simpl; split; intros; try lia; try discriminate.
Qed.

Lemma re_sub_class_empty_filter (cls : list char) (s : str) :
  re_sub_class_empty cls s = filter (fun c => negb (in_class cls c)) s.
Proof.
  induction s as [|c t IH]; simpl; auto.
  destruct (in_class cls c); simpl; now rewrite IH.
Qed.

Lemma in_class_In (cls : list char) (c : char) :
  in_class cls c = true <-> In c cls.
Proof.
  unfold in_class. rewrite existsb_exists. split.
  - intros [x [Hx Heq]]. apply Z.eqb_eq in Heq. now subst.
  - intros H. exists c. split; auto. apply Z.eqb_refl.
Qed.

Lemma re_sub_class_empty_fix (cls : list char) (s : str) :
  Forall (fun c => in_class cls c = false) s ->
  re_sub_class_empty cls s = s.
Proof.
  induction 1 as [|c t Hc Ht IH]; simpl; auto.
  now rewrite Hc, IH.
Qed.

Lemma re_sub_class_empty_clean (cls : list char) (s : str) :
  Forall (fun c => in_class cls c = false) (re_sub_class_empty cls s).
Proof.
  induction s as [|c t IH]; simpl; auto.
  destruct (in_class cls c) eqn:Hc; auto.
Qed.

(** ** Filename sanitizer *)


(** C9: sanitizing a sanitized name changes nothing. *)
Theorem sanitize_filename_idempotent (text : str) :
  sanitize_filename (sanitize_filename text) = sanitize_filename text.
Proof.
  unfold sanitize_filename.
  rewrite re_sub_class_empty_fix.
  - apply strip_idem.
  - apply strip_Forall, re_sub_class_empty_clean.
Qed.

(** ** Floats *)

Lemma gt_zero_not_zero (a : float) : gt_zero a = true -> eqb a zero = false.
Proof. destruct a as [[]|[]| |[] m e]; cbv; intros; congruence. Qed.

Lemma nonneg_gt_zero (a : float) :
  leb zero a = true -> gt_zero a = negb (eqb a zero).
Proof. destruct a as [[]|[]| |[] m e]; cbv; intros; congruence. Qed.

Lemma nonneg_shape_leb (x : float) : nonneg_shape x -> leb zero x = true.
Proof. destruct x as [[]|[]| |[] m e]; cbv; tauto. Qed.

Lemma iter_pos_inv {A} (P : A -> Prop) (f : A -> A) :
  (forall x, P x -> P (f x)) ->
  forall p x, P x -> P (iter_pos f p x).
Proof.
  intros Hf. induction p as [p IH|p IH|]; simpl; intros x Hx; auto.
Qed.

Lemma shr_1_nonneg (mrs : shr_record) :
  0 <= shr_m mrs -> 0 <= shr_m (shr_1 mrs).
Proof.
  destruct mrs as [m r s]. simpl.
  destruct m as [|[p|p|]|p]; simpl; lia.
Qed.

Lemma shr_fexp_nonneg (m e : Z) (l : location) :
  0 <= m -> 0 <= shr_m (fst (shr_fexp prec emax m e l)).
Proof.
  intros Hm. unfold shr_fexp, shr.
  assert (H0 : 0 <= shr_m (shr_record_of_loc m l)).
  { destruct l as [|[]]; simpl; exact Hm. }
  destruct (fexp prec emax (Zdigits2 m + e) - e) as [|p|p]; simpl; auto.
  apply iter_pos_inv; auto using shr_1_nonneg.
Qed.

Lemma round_nearest_even_nonneg (m : Z) (l : location) :
  0 <= m -> 0 <= round_nearest_even m l.
Proof.
  intros Hm. destruct l as [|[]]; simpl; try lia.
  destruct (Z.even m); lia.
Qed.

Lemma binary_round_aux_shape (m e : Z) (l : location) :
  0 <= m -> nonneg_shape (binary_round_aux prec emax false m e l).
Proof.
  intros Hm. unfold binary_round_aux.
  pose proof (shr_fexp_nonneg m e l Hm) as H1.
  destruct (shr_fexp prec emax m e l) as [mrs' e'] eqn:E1. simpl in H1.
  pose proof (shr_fexp_nonneg
                (round_nearest_even (shr_m mrs') (loc_of_shr_record mrs'))
                e' loc_Exact
                (round_nearest_even_nonneg _ _ H1)) as H2.
  destruct (shr_fexp prec emax
              (round_nearest_even (shr_m mrs') (loc_of_shr_record mrs'))
              e' loc_Exact) as [mrs'' e''] eqn:E2.
  simpl in H2.
  destruct (shr_m mrs'') as [|p|p]; simpl; auto; try lia.
  destruct (e'' <=? _); simpl; auto.
Qed.


Lemma digits2_pos_size (p : positive) : digits2_pos p = Pos.size p.
Proof. induction p; simpl; congruence. Qed.

Lemma Zdigits2_log2 (m : Z) : 0 < m -> Zdigits2 m = Z.log2 m + 1.
Proof.
  destruct m as [|p|p]; try lia. intros _. simpl.
  rewrite digits2_pos_size. destruct p; simpl; lia.
Qed.

Lemma Zdigits2_nonneg (m : Z) : 0 <= Zdigits2 m.
Proof. destruct m; simpl; lia. Qed.

Lemma Zdigits2_le (m B : Z) : 0 <= B -> 0 <= m < 2 ^ B -> Zdigits2 m <= B.
Proof.
  intros HB [H0 HB']. destruct (Z.eq_dec m 0) as [->|Hn]; [simpl; lia|].
  rewrite Zdigits2_log2 by lia.
  apply Z.log2_lt_pow2 in HB'; lia.
Qed.

Lemma shr_1_div2 (mrs : shr_record) :
  0 <= shr_m mrs -> shr_m (shr_1 mrs) = shr_m mrs / 2.
Proof.
  destruct mrs as [m r s]. simpl. rewrite <- Z.div2_div.
  destruct m as [|[p|p|]|p]; simpl; intros; try reflexivity; lia.
Qed.

Lemma iter_pos_shr_1 (n : positive) (mrs : shr_record) :
  0 <= shr_m mrs ->
  shr_m (iter_pos shr_1 n mrs) = shr_m mrs / 2 ^ Z.pos n.
Proof.
  revert mrs. induction n as [n IH|n IH|]; intros mrs Hm; simpl iter_pos.
  - assert (H1 : 0 <= shr_m (shr_1 mrs)) by now apply shr_1_nonneg.
    assert (H2 : 0 <= shr_m (iter_pos shr_1 n (shr_1 mrs))).
    { apply (iter_pos_inv (fun x => 0 <= shr_m x)); auto using shr_1_nonneg. }
    rewrite IH, IH, shr_1_div2 by assumption.
    rewrite !Z.div_div by lia. f_equal.
    replace (Z.pos n~1) with (1 + (Z.pos n + Z.pos n)) by lia.
    rewrite !Z.pow_add_r by lia. reflexivity.
  - assert (H2 : 0 <= shr_m (iter_pos shr_1 n mrs)).
    { apply (iter_pos_inv (fun x => 0 <= shr_m x)); auto using shr_1_nonneg. }
    rewrite IH, IH by assumption.
    rewrite !Z.div_div by lia. f_equal.
    replace (Z.pos n~0) with (Z.pos n + Z.pos n) by lia.
    rewrite Z.pow_add_r by lia. reflexivity.
  - rewrite shr_1_div2 by assumption. reflexivity.
Qed.

(** What [shr_fexp] returns on a mantissa that is not negative: the
    mantissa shifted right by the excess of digits over the format. *)
Lemma shr_fexp_spec (m e : Z) (l : location) :
  0 <= m ->
  let n := fexp prec emax (Zdigits2 m + e) - e in
  shr_m (fst (shr_fexp prec emax m e l)) = (if 0 <? n then m / 2 ^ n else m)
  /\ snd (shr_fexp prec emax m e l) = (if 0 <? n then e + n else e).
Proof.
  intros Hm n. unfold shr_fexp, shr. fold n.
  assert (H0 : shr_m (shr_record_of_loc m l) = m).
  { destruct l as [|[]]; reflexivity. }
  destruct n as [|p|p]; simpl; auto.
  rewrite iter_pos_shr_1 by lia. now rewrite H0.
Qed.

Lemma shr_fexp_pos (m e : Z) (l : location) :
  0 < m -> emin prec emax <= e ->
  0 < shr_m (fst (shr_fexp prec emax m e l))
  /\ emin prec emax <= snd (shr_fexp prec emax m e l).
Proof.
  intros Hm He.
  destruct (shr_fexp_spec m e l ltac:(lia)) as [H1 H2].
  rewrite H1, H2. clear H1 H2.
  unfold fexp. rewrite (Zdigits2_log2 m Hm).
  set (n := Z.max (Z.log2 m + 1 + e - prec) (emin prec emax) - e).
  destruct (0 <? n) eqn:Hn; [|lia].
  apply Z.ltb_lt in Hn.
  assert (Hle : n <= Z.log2 m) by (unfold prec in *; lia).
  split; [|lia].
  apply Z.div_str_pos. split; [apply Z.pow_pos_nonneg; lia|].
  transitivity (2 ^ Z.log2 m).
  - apply Z.pow_le_mono_r; lia.
  - apply Z.log2_spec; lia.
Qed.

Lemma round_nearest_even_pos (m : Z) (l : location) :
  0 < m -> 0 < round_nearest_even m l.
Proof.
  intros Hm. destruct l as [|[]]; simpl; try lia.
  destruct (Z.even m); lia.
Qed.

(** Rounding a positive mantissa whose exponent is not below the least
    exponent never gives zero. *)
Lemma binary_round_aux_not_zero (m e : Z) (l : location) :
  0 < m -> emin prec emax <= e ->
  eqb (binary_round_aux prec emax false m e l) zero = false.
Proof.
  intros Hm He. unfold binary_round_aux.
  destruct (shr_fexp_pos m e l Hm He) as [H1 H1'].
  destruct (shr_fexp prec emax m e l) as [mrs' e'] eqn:E1.
  simpl in H1, H1'.
  destruct (shr_fexp_pos _ e' loc_Exact
              (round_nearest_even_pos _ (loc_of_shr_record mrs') H1) H1')
    as [H2 _].
  destruct (shr_fexp prec emax _ e' loc_Exact) as [mrs'' e''] eqn:E2.
  simpl in H2.
  destruct (shr_m mrs'') as [|p|p]; try lia.
  destruct (e'' <=? _); reflexivity.
Qed.

Lemma float_of_int_not_zero (n : Z) :
  0 < n -> eqb (float_of_int n) zero = false.
Proof.
  intros Hn. unfold float_of_int.
  destruct n as [|p|p]; try lia. simpl. unfold binary_round, shl_align.
  set (ex' := fexp prec emax (Z.pos (digits2_pos p) + 0)).
  assert (Hex : emin prec emax <= ex') by (unfold ex', fexp; lia).
  destruct (ex' - 0) as [|d|d] eqn:Hd;
    apply binary_round_aux_not_zero; unfold emin, prec, emax in *; lia.
Qed.

Lemma truediv_int_pos (a : float) (n : Z) :
  0 < n -> truediv_int a n = Ok (div a (float_of_int n)).
Proof.
  intros Hn. unfold truediv_int, truediv.
  now rewrite float_of_int_not_zero.
Qed.

Lemma shr_fexp_le (m e B : Z) (l : location) :
  0 <= B -> 0 <= m < 2 ^ B -> emin prec emax <= e ->
  0 <= shr_m (fst (shr_fexp prec emax m e l)) < 2 ^ B
  /\ emin prec emax <= snd (shr_fexp prec emax m e l)
     <= Z.max e (B + e - prec).
Proof.
  intros HB Hm He.
  destruct (shr_fexp_spec m e l ltac:(lia)) as [H1 H2].
  rewrite H1, H2. clear H1 H2.
  pose proof (Zdigits2_le m B HB Hm) as Hd.
  pose proof (Zdigits2_nonneg m) as Hd0.
  unfold fexp.
  set (n := Z.max (Zdigits2 m + e - prec) (emin prec emax) - e).
  destruct (0 <? n) eqn:Hn; [|lia].
  apply Z.ltb_lt in Hn.
  assert (H2n : 0 < 2 ^ n) by (apply Z.pow_pos_nonneg; lia).
  split; [|lia]. split.
  - apply Z.div_pos; lia.
  - apply Z.le_lt_trans with m; [|lia].
    apply Z.div_le_upper_bound; nia.
Qed.

Lemma binary_round_aux_finite (m e : Z) (l : location) :
  0 <= m < 2 ^ 128 -> emin prec emax <= e <= 0 ->
  finite_shape (binary_round_aux prec emax false m e l).
Proof.
  intros Hm He. unfold binary_round_aux.
  destruct (shr_fexp_le m e 128 l ltac:(lia) Hm ltac:(lia)) as [H1 H1'].
  destruct (shr_fexp prec emax m e l) as [mrs' e'] eqn:E1.
  cbn [fst snd] in H1, H1'.
  assert (Hr : 0 <= round_nearest_even (shr_m mrs') (loc_of_shr_record mrs')
               < 2 ^ 129).
  { change (2 ^ 129) with (2 * 2 ^ 128).
    destruct (loc_of_shr_record mrs') as [|[]]; simpl; try lia.
    destruct (Z.even (shr_m mrs')); lia. }
  destruct (shr_fexp_le _ e' 129 loc_Exact ltac:(lia) Hr ltac:(lia))
    as [H2 H2'].
  destruct (shr_fexp prec emax _ e' loc_Exact) as [mrs'' e''] eqn:E2.
  cbn [fst snd] in H2, H2'.
  destruct (shr_m mrs'') as [|p|p]; [exact I| |lia].
  destruct (e'' <=? emax - prec) eqn:Hle; [exact I|].
  apply Z.leb_gt in Hle. unfold emin, prec, emax in *. lia.
Qed.

Lemma pos_iter_xO (p d : positive) :
  Z.pos (Pos.iter xO p d) = Z.pos p * 2 ^ Z.pos d.
Proof.
  induction d as [|d IH] using Pos.peano_ind.
  - simpl. lia.
  - rewrite Pos.iter_succ, Pos2Z.inj_xO, IH, Pos2Z.inj_succ.
    rewrite Z.pow_succ_r by lia. ring.
Qed.

(** Lengths and header fields convert to finite floats. *)
Lemma float_of_int_finite (n : Z) :
  0 <= n < 2 ^ 64 -> finite_shape (float_of_int n).
Proof.
  intros Hn. unfold float_of_int.
  destruct n as [|p|p]; simpl; auto; try lia.
  unfold binary_round, shl_align.
  pose proof (Zdigits2_le (Z.pos p) 64 ltac:(lia) Hn) as Hd.
  simpl in Hd.
  set (ex' := fexp prec emax (Z.pos (digits2_pos p) + 0)).
  assert (Hex : emin prec emax <= ex' /\ -52 <= ex').
  { unfold ex', fexp, emin, prec, emax. lia. }
  destruct (ex' - 0) as [|d|d] eqn:Hd';
    apply binary_round_aux_finite; try (unfold emin, prec, emax in *; lia).
  rewrite pos_iter_xO.
  assert (Hp : 2 ^ Z.pos d <= 2 ^ 52) by (apply Z.pow_le_mono_r; lia).
  assert (H0 : 0 < 2 ^ Z.pos d) by (apply Z.pow_pos_nonneg; lia).
  change (2 ^ 128) with (2 ^ 64 * 2 ^ 64).
  assert (2 ^ 52 < 2 ^ 64) by reflexivity.
  nia.
Qed.

Lemma div_nonneg (a b : float) :
  finite_shape a -> finite_shape b -> eqb b zero = false ->
  leb zero (div a b) = true.
Proof.
  intros Sa Sb Hz.
  destruct b as [[]|[]| |[] m2 e2]; simpl in Sb; try tauto;
    try discriminate.
  destruct a as [[]|[]| |[] m1 e1]; simpl in Sa; try tauto;
    try reflexivity.
  apply nonneg_shape_leb. unfold div. simpl.
  destruct (SFdiv_core_binary prec emax (Z.pos m1) e1 (Z.pos m2) e2)
    as [[mz ez] lz] eqn:Hc.
  apply binary_round_aux_shape.
  unfold SFdiv_core_binary in Hc.
  set (m' := match _ with Z0 => Z.pos m1 | Zpos _ => _ | Zneg _ => 0 end)
    in Hc.
  assert (Hm' : 0 <= m').
  { subst m'. destruct (_ - _)%Z; try lia. apply Z.shiftl_nonneg. lia. }
  pose proof (Z.div_pos m' (Z.pos m2) Hm' ltac:(lia)) as Hq.
  unfold Z.div in Hq.
  destruct (Z.div_eucl m' (Z.pos m2)) as [q r].
  inversion Hc; subst. exact Hq.
Qed.

(** ** The monad and the primitive effects *)

Section Effects.

Context {E : Env}.

Lemma bind_ok {A B} (m : M A) (k : A -> M B) (s s' : state) (a : A) :
  m s = (Ok a, s') -> bind m k s = k a s'.
Proof. intros H. unfold bind. now rewrite H. Qed.

Lemma with_logged_nil (s : state) : with_logged s [] = s.
Proof. destruct s. unfold with_logged. simpl. now rewrite !app_nil_r. Qed.

Lemma with_logged_app (s : state) (l1 l2 : list str) :
  with_logged (with_logged s l1) l2 = with_logged s (l1 ++ l2).
Proof.
  unfold with_logged. simpl. now rewrite map_app, !app_assoc.
Qed.

Lemma log_print_eq (message : str) (s : state) :
  log_print message s = (Ok tt, with_logged s [message]).
Proof. reflexivity. Qed.

Lemma datetime_now_strftime_eq (fmt : str) (s : state) :
  datetime_now_strftime fmt s = (Ok (now_strftime fmt (clock s)), ticked s).
Proof. reflexivity. Qed.

Lemma ticked_with_logged (s : state) (l : list str) :
  ticked (with_logged s l) = with_logged (ticked s) l.
Proof. reflexivity. Qed.

Lemma get_audio_duration_eq (audio_path : str) (s : state) :
  get_audio_duration audio_path s =
  match wave_open (files s) audio_path with
  | Ok (frames, rate) =>
      if (rate =? 0)%N
      then (Ok zero,
            with_logged s [duration_warning audio_path zero_division])
      else (Ok (div (float_of_int (Z.of_N frames))
                    (float_of_int (Z.of_N rate))), s)
  | Raise e => (Ok zero, with_logged s [duration_warning audio_path e])
  end.
Proof.
  unfold get_audio_duration, try_except, bind, get, lift, ret.
  destruct (wave_open (files s) audio_path) as [[frames rate]|e];
    [|reflexivity].
  cbn [fst snd]. unfold int_truediv, truediv.
  destruct (N.eqb_spec rate 0) as [->|Hr].
  - reflexivity.
  - rewrite float_of_int_not_zero by lia. reflexivity.
Qed.

Lemma get_audio_duration_nonneg (audio_path : str) (s : state) :
  exists d,
    fst (get_audio_duration audio_path s) = Ok d /\ leb zero d = true.
Proof.
  rewrite get_audio_duration_eq.
  destruct (wave_open (files s) audio_path) as [[frames rate]|e] eqn:Hw.
  - destruct (N.eqb_spec rate 0) as [->|Hr].
    + exists zero. split; reflexivity.
    + eexists. split; [reflexivity|].
      destruct (wave_open_range _ _ _ _ Hw) as [Hf Hr'].
      assert (2 ^ 32 < 2 ^ 64) by reflexivity.
      assert (Z.of_N (2 ^ 32) = 2 ^ 32) by reflexivity.
      apply div_nonneg.
      * apply float_of_int_finite. lia.
      * apply float_of_int_finite. lia.
      * apply float_of_int_not_zero. lia.
  - exists zero. split; reflexivity.
Qed.

Lemma get_audio_duration_frame (audio_path : str) (s : state) :
  let s' := snd (get_audio_duration audio_path s) in
  total_char_count s' = total_char_count s
  /\ processing_records s' = processing_records s
  /\ files s' = files s /\ clock s' = clock s
  /\ total_start_time s' = total_start_time s.
Proof.
  rewrite get_audio_duration_eq.
  destruct (wave_open (files s) audio_path) as [[frames rate]|e];
    [destruct (rate =? 0)%N|]; simpl; auto.
Qed.

End Effects.

(** ** One synthesis unit *)

Section Units.

Context {E : Env}.
Variable self : config.

(** The destination [process_single_line] hands to the engine. *)
Lemma generate_output_filename_line (line_num : Z) (text : str) (s : state) :
  generate_output_filename self line_num text false s =
  (Ok (str_of_int line_num ++ lit "_" ++ sanitize_filename (slice_to 10 text)
       ++ lit ".wav",
       os_path_join (output_dir self)
         (str_of_int line_num ++ lit "_"
          ++ sanitize_filename (slice_to 10 text) ++ lit ".wav")), s).
Proof. reflexivity. Qed.

Lemma process_single_line_spec (n : Z) (text : str) (s s' : state)
    (out : result record) :
  process_single_line self n text s = (out, s') ->
  processing_records s' = processing_records s
  /\ total_char_count s' = total_char_count s + len text
  /\ is_ok out
     = is_ok (fst (tts_infer (spk_audio_prompt self) text
                     (os_path_join (output_dir self)
                        (str_of_int n ++ lit "_"
                         ++ sanitize_filename (slice_to 10 text)
                         ++ lit ".wav"))
                     (files s)))
  /\ forall r, out = Ok r ->
       line_num r = LabelInt n /\ char_count r = len text
       /\ leb zero (audio_duration r) = true.
Proof.
  unfold process_single_line.
  rewrite (bind_ok _ _ _ _ _ (generate_output_filename_line n text s)).
  cbn [fst snd].
  set (name := str_of_int n ++ lit "_" ++ sanitize_filename (slice_to 10 text)
               ++ lit ".wav").
  set (path := os_path_join (output_dir self) name).
  unfold bind at 1. unfold get at 1.
  unfold bind at 1. unfold set_total_char_count, modify at 1.
  rewrite (bind_ok _ _ _ _ _ (log_print_eq _ _)).
  rewrite (bind_ok _ _ _ _ _ (log_print_eq _ _)).
  rewrite with_logged_app.
  unfold bind at 1. unfold time_now at 1.
  unfold bind at 1. unfold infer at 1. cbn [files with_logged].
  destruct (tts_infer (spk_audio_prompt self) text path (files s))
    as [[[]|e] d']; cbn [fst snd is_ok].
  2:{ intros H. inversion H; subst. cbn.
      repeat split; auto; intros; congruence. }
  unfold bind at 1. unfold time_now at 1.
  unfold bind at 1.
  match goal with
  | |- context [get_audio_duration path ?s1] =>
      destruct (get_audio_duration_nonneg path s1) as [d [Hd Hd0]];
      destruct (get_audio_duration_frame path s1) as (F1 & F2 & _);
      destruct (get_audio_duration path s1) as [r1 s2]
  end.
  cbn [fst snd] in Hd, F1, F2. subst r1.
  rewrite (bind_ok _ _ _ _ _ (log_print_eq _ _)).
  unfold ret. intros H. inversion H; subst. cbn [is_ok].
  cbn [with_logged total_char_count processing_records].
  rewrite F1, F2. cbn [total_char_count processing_records].
  split; [reflexivity|]. split; [reflexivity|]. split; [reflexivity|].
  intros r Hr. inversion Hr; subst r. cbn. auto.
Qed.

(** The destination [process_full_text] hands to the engine; the
    timestamp is a reading of the clock. *)
Lemma process_full_text_spec (text : str) (s s' : state)
    (out : result record) :
  process_full_text self text s = (out, s') ->
  processing_records s' = processing_records s
  /\ total_char_count s' = len text
  /\ is_ok out
     = is_ok (fst (tts_infer (spk_audio_prompt self) text
                     (os_path_join (output_dir self)
                        (lit "full_text_"
                         ++ now_strftime (lit "%Y%m%d_%H%M%S") (clock s)
                         ++ lit "_" ++ sanitize_filename (slice_to 10 text)
                         ++ lit ".wav"))
                     (files s)))
  /\ forall r, out = Ok r ->
       line_num r = LabelStr Msg.full_text_label /\ char_count r = len text
       /\ leb zero (audio_duration r) = true.
Proof.
  unfold process_full_text.
  unfold bind at 1. unfold generate_output_filename.
  unfold bind at 1. unfold bind at 1. unfold datetime_now_strftime at 1.
  unfold ret at 1. unfold ret at 1. cbn [fst snd].
  set (name := lit "full_text_" ++ _ ++ lit "_" ++ _ ++ lit ".wav").
  set (path := os_path_join (output_dir self) name).
  unfold bind at 1. unfold set_total_char_count, modify at 1.
  rewrite (bind_ok _ _ _ _ _ (log_print_eq _ _)).
  rewrite (bind_ok _ _ _ _ _ (log_print_eq _ _)).
  rewrite with_logged_app.
  unfold bind at 1. unfold time_now at 1.
  unfold bind at 1. unfold infer at 1.
  cbn [files with_logged total_char_count processing_records
       total_start_time clock].
  destruct (tts_infer (spk_audio_prompt self) text path (files s))
    as [[[]|e] d']; cbn [fst snd is_ok].
  2:{ intros H. inversion H; subst. cbn.
      repeat split; auto; intros; congruence. }
  unfold bind at 1. unfold time_now at 1.
  unfold bind at 1.
  match goal with
  | |- context [get_audio_duration path ?s1] =>
      destruct (get_audio_duration_nonneg path s1) as [d [Hd Hd0]];
      destruct (get_audio_duration_frame path s1) as (F1 & F2 & _);
      destruct (get_audio_duration path s1) as [r1 s2]
  end.
  cbn [fst snd] in Hd, F1, F2. subst r1.
  rewrite (bind_ok _ _ _ _ _ (log_print_eq _ _)).
  unfold ret. intros H. inversion H; subst. cbn [is_ok].
  cbn [with_logged total_char_count processing_records].
  rewrite F1, F2. cbn [total_char_count processing_records].
  split; [reflexivity|]. split; [reflexivity|]. split; [reflexivity|].
  intros r Hr. inversion Hr; subst r. cbn. auto.
Qed.

End Units.

(** ** The per-line loop *)

Lemma labels_from_succ (offset : Z) (n : nat) :
  labels_from offset (S n) = LabelInt offset :: labels_from (offset + 1) n.
Proof.
  unfold labels_from. simpl. rewrite Z.add_0_r. f_equal.
  rewrite <- seq_shift, map_map. apply map_ext. intros i. f_equal. lia.
Qed.

Section Loop.

Context {E : Env}.
Variable self : config.

Lemma per_line_loop_spec (lines : list str) :
  forall (k : Z) (s s' : state) (out : result unit),
    per_line_loop self lines k s = (out, s') ->
    exists new,
      processing_records s' = processing_records s ++ new
      /\ map line_num new
         = labels_from (start_line_num self + k) (List.length new)
      /\ Forall (fun r => 1 <= char_count r
                          /\ leb zero (audio_duration r) = true) new
      /\ map char_count new
         = map len (firstn (List.length new) (nonblank lines))
      /\ (List.length new <= List.length (nonblank lines))%nat
      /\ (out = Ok tt ->
          List.length new = List.length (nonblank lines)
          /\ total_char_count s'
             = total_char_count s + sum_char_count new)
      /\ ((forall text path d,
             is_ok (fst (tts_infer (spk_audio_prompt self) text path d))
             = true) ->
          out = Ok tt).
Proof.
  induction lines as [|line rest IH]; intros k s s' out H.
  - inversion H; subst. exists []. rewrite app_nil_r. simpl.
    repeat split; auto. lia.
  - simpl in H. unfold nonblank. simpl.
    destruct (truthy (strip line)) eqn:Ht; simpl in H.
    + unfold bind at 1 in H.
      destruct (process_single_line self
                  (start_line_num self + (k + 1 - 1)) (strip line) s)
        as [r1 s1] eqn:H1.
      destruct (process_single_line_spec self _ _ _ _ _ H1)
        as (R1 & T1 & O1 & V1).
      destruct r1 as [rec|e].
      * unfold bind at 1 in H. unfold append_record, modify at 1 in H.
        apply IH in H.
        destruct H as (new & Hr & Hl & Hv & Hc & Hn & Hok & Hall).
        cbn [processing_records total_char_count] in Hr, Hok.
        destruct (V1 rec eq_refl) as (L1 & C1 & A1).
        exists (rec :: new). rewrite Hr, R1, <- app_assoc. simpl.
        rewrite labels_from_succ, L1, Hl, C1.
        replace (start_line_num self + (k + 1 - 1))
          with (start_line_num self + k) by lia.
        replace (start_line_num self + k + 1)
          with (start_line_num self + (k + 1)) by lia.
        repeat split; auto.
        -- constructor; auto. split; auto.
           rewrite C1. now apply truthy_len.
        -- f_equal. exact Hc.
        -- fold (nonblank rest). lia.
        -- fold (nonblank rest). apply Hok in H. lia.
        -- apply Hok in H. destruct H as [_ H]. rewrite H, T1. lia.
      * inversion H; subst. exists []. rewrite app_nil_r. simpl.
        repeat split; auto; try lia; try congruence.
        intros Hall. rewrite Hall in O1. discriminate.
    + apply IH in H. exact H.
Qed.

End Loop.

(** ** The report *)

Lemma guarded_char_ratio_spec (elapsed : float) (count : Z) :
  0 <= count ->
  guarded_char_ratio elapsed count
  = Ok (spec_ratio elapsed (float_of_int count)).
Proof.
  intros Hc. unfold guarded_char_ratio, spec_ratio.
  destruct (Z.ltb_spec 0 count) as [Hp|Hz].
  - rewrite truediv_int_pos by assumption.
    now rewrite float_of_int_not_zero.
  - replace count with 0 by lia. reflexivity.
Qed.

Lemma guarded_time_ratio_spec (elapsed duration : float) :
  leb zero duration = true ->
  guarded_time_ratio elapsed duration = Ok (spec_ratio elapsed duration).
Proof.
  intros Hd. unfold guarded_time_ratio, spec_ratio, truediv.
  rewrite (nonneg_gt_zero _ Hd).
  destruct (eqb duration zero); reflexivity.
Qed.

Lemma add_nonneg (a b : float) :
  leb zero a = true -> leb zero b = true -> leb zero (add a b) = true.
Proof.
  intros Ha Hb.
  destruct a as [[]|[]| |[] m1 e1]; try discriminate;
    destruct b as [[]|[]| |[] m2 e2]; try discriminate; try reflexivity.
  apply nonneg_shape_leb. unfold add, SFadd. cbn [cond_Zopp].
  set (p1 := fst (shl_align m1 e1 (Z.min e1 e2))).
  set (p2 := fst (shl_align m2 e2 (Z.min e1 e2))).
  change (Z.pos p1 + Z.pos p2) with (Z.pos (p1 + p2)).
  unfold binary_normalize, binary_round.
  destruct (shl_align (p1 + p2) (Z.min e1 e2) _) as [mz ez].
  apply binary_round_aux_shape. lia.
Qed.

Lemma sum_audio_nonneg (rs : list record) :
  Forall valid_record rs ->
  forall acc, leb zero acc = true ->
    leb zero (fold_left (fun a r => add a (audio_duration r)) rs acc) = true.
Proof.
  induction 1 as [|r rs [_ Hr] _ IH]; intros acc Hacc; simpl; auto.
  apply IH. now apply add_nonneg.
Qed.

Section Report.

Context {E : Env}.

Lemma row_ratios_spec (r : record) :
  valid_record r ->
  row_char_ratio r
  = Ok (spec_ratio (elapsed_time r) (float_of_int (char_count r)))
  /\ row_time_ratio r
     = Ok (spec_ratio (elapsed_time r) (audio_duration r)).
Proof.
  intros [Hc Ha]. unfold row_char_ratio, row_time_ratio.
  now rewrite guarded_char_ratio_spec, guarded_time_ratio_spec.
Qed.

(** The guards at work: the ratios of a row are computed without an
    exception for any record, and are 0.0 at a count or a duration of
    zero. *)
Lemma row_ratios_guarded (r : record) :
  is_ok (row_char_ratio r) = true
  /\ is_ok (row_time_ratio r) = true
  /\ (char_count r = 0 -> row_char_ratio r = Ok zero)
  /\ (eqb (audio_duration r) zero = true -> row_time_ratio r = Ok zero).
Proof.
  unfold row_char_ratio, row_time_ratio, guarded_char_ratio,
    guarded_time_ratio.
  split; [|split; [|split]].
  - destruct (0 <? char_count r) eqn:Hc; [|reflexivity].
    apply Z.ltb_lt in Hc. now rewrite truediv_int_pos.
  - destruct (gt_zero (audio_duration r)) eqn:Hg; [|reflexivity].
    unfold truediv. now rewrite (gt_zero_not_zero _ Hg).
  - intros Hz. now rewrite Hz.
  - intros Hz. destruct (gt_zero (audio_duration r)) eqn:Hg; [|reflexivity].
    rewrite (gt_zero_not_zero _ Hg) in Hz. discriminate Hz.
Qed.

Lemma report_rows_eq (rs : list record) :
  Forall valid_record rs ->
  forall (acc : float) (s : state),
    report_rows rs acc s
    = (Ok (fold_left (fun a r => add a (audio_duration r)) rs acc),
       with_logged s (map row_text rs)).
Proof.
  induction 1 as [|r rs Hr _ IH]; intros acc s.
  - simpl. unfold ret. now rewrite with_logged_nil.
  - destruct (row_ratios_spec r Hr) as [H1 H2].
    cbn [report_rows]. unfold bind at 1. unfold lift at 1. rewrite H1.
    unfold bind at 1. unfold lift at 1. rewrite H2.
    rewrite (bind_ok _ _ _ _ _ (log_print_eq _ _)).
    rewrite IH, with_logged_app. reflexivity.
Qed.

Lemma generate_report_eq (total_elapsed : float) (s : state) :
  Forall valid_record (processing_records s) ->
  0 <= total_char_count s ->
  generate_report total_elapsed s
  = (Ok tt,
     with_logged s
       (report_text (processing_records s) (total_char_count s)
          total_elapsed)).
Proof.
  intros Hv Ht. unfold generate_report.
  repeat rewrite (bind_ok _ _ _ _ _ (log_print_eq _ _)), ?with_logged_app.
  unfold bind at 1. unfold get at 1.
  cbn [processing_records with_logged].
  unfold bind at 1. rewrite (report_rows_eq _ Hv), with_logged_app.
  rewrite (bind_ok _ _ _ _ _ (log_print_eq _ _)), with_logged_app.
  unfold bind at 1. unfold get at 1. cbn [total_char_count with_logged].
  unfold bind at 1. unfold lift at 1.
  rewrite (guarded_char_ratio_spec _ _ Ht).
  unfold bind at 1. unfold lift at 1.
  rewrite guarded_time_ratio_spec
    by (apply sum_audio_nonneg; [exact Hv | reflexivity]).
  rewrite (bind_ok _ _ _ _ _ (log_print_eq _ _)), with_logged_app.
  rewrite log_print_eq, with_logged_app.
  unfold report_text, sum_audio_duration. simpl app.
  rewrite <- !app_assoc. reflexivity.
Qed.

End Report.

(** ** The batch *)

Section Batch.

Context {E : Env}.
Variable self : config.

Lemma print_log_header_eq (s : state) :
  print_log_header self s
  = (Ok tt, with_logged (ticked s) (header_text self (clock s))).
Proof.
  unfold print_log_header. unfold bind at 1.
  unfold datetime_now_strftime at 1. fold (ticked s).
  repeat rewrite (bind_ok _ _ _ _ _ (log_print_eq _ _)), ?with_logged_app.
  rewrite log_print_eq, with_logged_app. reflexivity.
Qed.

Lemma print_summary_eq (total_elapsed : float) (s : state) :
  print_summary total_elapsed s
  = (Ok tt,
     with_logged (ticked s)
       (summary_text (total_char_count s) total_elapsed (clock s))).
Proof.
  unfold print_summary.
  rewrite (bind_ok _ _ _ _ _ (log_print_eq _ _)).
  unfold bind at 1. unfold get at 1. cbn [total_char_count with_logged].
  rewrite (bind_ok _ _ _ _ _ (log_print_eq _ _)), with_logged_app.
  rewrite (bind_ok _ _ _ _ _ (datetime_now_strftime_eq _ _)).
  rewrite ticked_with_logged. cbn [clock with_logged].
  rewrite (bind_ok _ _ _ _ _ (log_print_eq _ _)), with_logged_app.
  rewrite log_print_eq, with_logged_app. reflexivity.
Qed.

(** [process_batch], cut at its branch: the start, the branch, and when
    the branch returns the summary and the report. *)
Lemma process_batch_eq (s : state) :
  process_batch self s
  = match (if read_by_line self then batch_by_line self
           else batch_full_text self)
            (with_logged (ticked (started s))
               (header_text self (S (clock s)))) with
    | (Ok _, s2) =>
        let total_elapsed :=
          sub (time_time (clock s2)) (time_time (clock s)) in
        match generate_report total_elapsed
                (with_logged (ticked (ticked s2))
                   (summary_text (total_char_count s2) total_elapsed
                      (S (clock s2)))) with
        | (Ok _, s3) => (Ok total_elapsed, s3)
        | (Raise e, s3) => (Raise e, s3)
        end
    | (Raise e, s2) => (Raise e, s2)
    end.
Proof.
  unfold process_batch. unfold bind at 1. unfold time_now at 1.
  unfold bind at 1. unfold set_total_start_time, modify at 1.
  fold (started s).
  rewrite (bind_ok _ _ _ _ _ (print_log_header_eq _)).
  unfold bind at 1. cbn [clock started].
  destruct ((if read_by_line self then batch_by_line self
             else batch_full_text self) _) as [[[]|e] s2]; [|reflexivity].
  unfold bind at 1. unfold time_now at 1. fold (ticked s2).
  rewrite (bind_ok _ _ _ _ _ (print_summary_eq _ _)).
  unfold bind at 1. cbn [total_char_count clock ticked].
  destruct (generate_report _ _) as [[[]|e] s3]; reflexivity.
Qed.

Lemma collect_lines_nonblank (lines : list str) :
  forall acc, collect_lines lines acc = acc ++ nonblank lines.
Proof.
  unfold nonblank.
  induction lines as [|line rest IH]; intros acc; simpl.
  - now rewrite app_nil_r.
  - destruct (truthy (strip line)); rewrite IH; auto.
    now rewrite <- app_assoc.
Qed.

Lemma batch_by_line_spec (content : str) (s s' : state)
    (out : result unit) :
  open_read (files s) (input_file self) = Ok content ->
  batch_by_line self s = (out, s') ->
  exists new,
    processing_records s' = processing_records s ++ new
    /\ map line_num new
       = labels_from (start_line_num self) (List.length new)
    /\ Forall (fun r => 1 <= char_count r
                        /\ leb zero (audio_duration r) = true) new
    /\ map char_count new
       = map len (firstn (List.length new) (units_of content))
    /\ (List.length new <= List.length (units_of content))%nat
    /\ (out = Ok tt ->
        List.length new = List.length (units_of content)
        /\ total_char_count s' = total_char_count s + sum_char_count new)
    /\ ((forall text path d,
           is_ok (fst (tts_infer (spk_audio_prompt self) text path d))
           = true) ->
        out = Ok tt).
Proof.
  intros Hopen. unfold batch_by_line.
  rewrite (bind_ok _ _ _ _ _ (log_print_eq _ _)).
  rewrite (bind_ok _ _ _ _ _ (log_print_eq _ _)), with_logged_app.
  unfold bind at 1. unfold get at 1. cbn [files with_logged].
  unfold bind at 1. unfold lift at 1. rewrite Hopen.
  intros H. apply per_line_loop_spec in H.
  rewrite Z.add_0_r in H. exact H.
Qed.

Lemma batch_by_line_unreadable (e : exn) (s : state) :
  open_read (files s) (input_file self) = Raise e ->
  batch_by_line self s = (Raise e, with_logged s [Msg.mode_by_line; []]).
Proof.
  intros Hopen. unfold batch_by_line.
  rewrite (bind_ok _ _ _ _ _ (log_print_eq _ _)).
  rewrite (bind_ok _ _ _ _ _ (log_print_eq _ _)), with_logged_app.
  unfold bind at 1. unfold get at 1. cbn [files with_logged].
  unfold bind at 1. unfold lift at 1. rewrite Hopen. reflexivity.
Qed.

Lemma batch_full_text_unreadable (e : exn) (s : state) :
  open_read (files s) (input_file self) = Raise e ->
  batch_full_text self s
  = (Raise e, with_logged s [Msg.mode_full_text; []]).
Proof.
  intros Hopen. unfold batch_full_text.
  rewrite (bind_ok _ _ _ _ _ (log_print_eq _ _)).
  rewrite (bind_ok _ _ _ _ _ (log_print_eq _ _)), with_logged_app.
  unfold bind at 1. unfold get at 1. cbn [files with_logged].
  unfold bind at 1. unfold lift at 1. rewrite Hopen. reflexivity.
Qed.

(** A file that breaks while it is read: in per-line mode the units of
    the lines before the error are processed first; in whole-text mode
    nothing is. *)
Lemma batch_by_line_broken (prefix : str) (e : exn) (s : state) :
  open_read (files s) (input_file self) = Ok (Broken prefix e) ->
  batch_by_line self s
  = bind (per_line_loop self (file_lines prefix) 0)
      (fun _ => lift (Raise e)) (with_logged s [Msg.mode_by_line; []]).
Proof.
  intros Hopen. unfold batch_by_line.
  rewrite (bind_ok _ _ _ _ _ (log_print_eq _ _)).
  rewrite (bind_ok _ _ _ _ _ (log_print_eq _ _)), with_logged_app.
  unfold bind at 1. unfold get at 1. cbn [files with_logged].
  unfold bind at 1. unfold lift at 1. rewrite Hopen. reflexivity.
Qed.

Lemma batch_full_text_broken (prefix : str) (e : exn) (s : state) :
  open_read (files s) (input_file self) = Ok (Broken prefix e) ->
  batch_full_text self s
  = (Raise e, with_logged s [Msg.mode_full_text; []]).
Proof.
  intros Hopen. unfold batch_full_text.
  rewrite (bind_ok _ _ _ _ _ (log_print_eq _ _)).
  rewrite (bind_ok _ _ _ _ _ (log_print_eq _ _)), with_logged_app.
  unfold bind at 1. unfold get at 1. cbn [files with_logged].
  unfold bind at 1. unfold lift at 1. rewrite Hopen. reflexivity.
Qed.

Lemma batch_full_text_empty (content : str) (s : state) :
  open_read (files s) (input_file self) = Ok content ->
  blob_of content = [] ->
  batch_full_text self s
  = (Ok tt,
     with_logged s [Msg.mode_full_text; []; Msg.warn_empty_input]).
Proof.
  intros Hopen Hblob. unfold batch_full_text.
  rewrite (bind_ok _ _ _ _ _ (log_print_eq _ _)).
  rewrite (bind_ok _ _ _ _ _ (log_print_eq _ _)), with_logged_app.
  unfold bind at 1. unfold get at 1. cbn [files with_logged].
  unfold bind at 1. unfold lift at 1. rewrite Hopen. cbv beta iota.
  unfold bind at 1. unfold lift at 1. cbv beta iota.
  rewrite collect_lines_nonblank. cbn [app].
  fold (units_of content). fold (blob_of content). rewrite Hblob.
  cbn [truthy]. rewrite log_print_eq, with_logged_app. reflexivity.
Qed.

Lemma batch_full_text_spec (content : str) (s s' : state)
    (out : result unit) :
  open_read (files s) (input_file self) = Ok content ->
  blob_of content <> [] ->
  batch_full_text self s = (out, s') ->
  is_ok out
  = is_ok (fst (tts_infer (spk_audio_prompt self) (blob_of content)
                  (full_text_path self (blob_of content) (clock s))
                  (files s)))
  /\ (out <> Ok tt -> processing_records s' = processing_records s)
  /\ (out = Ok tt ->
      exists r,
        processing_records s' = processing_records s ++ [r]
        /\ line_num r = LabelStr Msg.full_text_label
        /\ char_count r = len (blob_of content)
        /\ leb zero (audio_duration r) = true
        /\ total_char_count s' = len (blob_of content)).
Proof.
  intros Hopen Hblob. unfold batch_full_text.
  rewrite (bind_ok _ _ _ _ _ (log_print_eq _ _)).
  rewrite (bind_ok _ _ _ _ _ (log_print_eq _ _)), with_logged_app.
  unfold bind at 1. unfold get at 1. cbn [files with_logged].
  unfold bind at 1. unfold lift at 1. rewrite Hopen. cbv beta iota.
  unfold bind at 1. unfold lift at 1. cbv beta iota.
  rewrite collect_lines_nonblank. cbn [app].
  fold (units_of content). fold (blob_of content).
  destruct (truthy (blob_of content)) eqn:Ht.
  2:{ destruct (blob_of content); [congruence|discriminate]. }
  unfold bind at 1.
  destruct (process_full_text self (blob_of content) _) as [r1 s1] eqn:H1.
  destruct (process_full_text_spec self _ _ _ _ H1) as (R1 & T1 & O1 & V1).
  cbn [processing_records total_char_count files clock with_logged]
    in R1, T1, O1.
  destruct r1 as [r|e].
  - unfold append_record, modify. intros H. inversion H; subst.
    destruct (V1 r eq_refl) as (L1 & C1 & A1).
    split; [exact O1|]. split; [congruence|]. intros _.
    exists r. cbn [processing_records total_char_count].
    rewrite R1. repeat split; auto.
  - intros H. inversion H; subst.
    split; [exact O1|]. split; [auto|]. congruence.
Qed.

Lemma process_batch_raise (s s2 : state) (e : exn) :
  (if read_by_line self then batch_by_line self else batch_full_text self)
    (at_branch self s) = (Raise e, s2) ->
  process_batch self s = (Raise e, s2).
Proof.
  intros H. rewrite process_batch_eq. fold (at_branch self s). now rewrite H.
Qed.

Lemma process_batch_ok (s s2 : state) :
  (if read_by_line self then batch_by_line self else batch_full_text self)
    (at_branch self s) = (Ok tt, s2) ->
  Forall valid_record (processing_records s2) ->
  0 <= total_char_count s2 ->
  process_batch self s
  = (Ok (sub (time_time (clock s2)) (time_time (clock s))),
     with_logged (ticked (ticked s2))
       (summary_text (total_char_count s2)
          (sub (time_time (clock s2)) (time_time (clock s))) (S (clock s2))
        ++ report_text (processing_records s2) (total_char_count s2)
             (sub (time_time (clock s2)) (time_time (clock s))))).
Proof.
  intros H Hv Ht. rewrite process_batch_eq. fold (at_branch self s).
  rewrite H. cbv zeta.
  rewrite generate_report_eq by assumption.
  now rewrite with_logged_app.
Qed.

Lemma unit_records_valid (rs : list record) :
  Forall (fun r => 1 <= char_count r /\ leb zero (audio_duration r) = true)
    rs ->
  Forall valid_record rs /\ 0 <= sum_char_count rs.
Proof.
  induction 1 as [|r rs [Hc Ha] _ [IH1 IH2]]; simpl.
  - split; [constructor | lia].
  - split; [constructor; auto; split; auto; lia | lia].
Qed.

(** A run in per-line mode, from the state [__init__] leaves. *)
Lemma by_line_run (d : disk) (k : nat) (content : str) :
  read_by_line self = true ->
  open_read d (input_file self) = Ok content ->
  map line_num
    (processing_records (snd (process_batch self (init_state d k))))
  = labels_from (start_line_num self)
      (List.length
         (processing_records (snd (process_batch self (init_state d k)))))
  /\ Forall (fun r => 1 <= char_count r
                      /\ leb zero (audio_duration r) = true)
       (processing_records (snd (process_batch self (init_state d k))))
  /\ map char_count
       (processing_records (snd (process_batch self (init_state d k))))
     = map len
         (firstn
            (List.length
               (processing_records
                  (snd (process_batch self (init_state d k)))))
            (units_of content))
  /\ (is_ok (fst (process_batch self (init_state d k))) = true ->
      List.length
        (processing_records (snd (process_batch self (init_state d k))))
      = List.length (units_of content)
      /\ total_char_count (snd (process_batch self (init_state d k)))
         = sum_char_count
             (processing_records
                (snd (process_batch self (init_state d k)))))
  /\ ((forall text path d',
         is_ok (fst (tts_infer (spk_audio_prompt self) text path d'))
         = true) ->
      is_ok (fst (process_batch self (init_state d k))) = true).
Proof.
  intros Hmode Hopen.
  destruct (batch_by_line self (at_branch self (init_state d k)))
    as [out s2] eqn:Hb.
  destruct (batch_by_line_spec content
              (at_branch self (init_state d k)) s2 out Hopen Hb)
    as (new & Hr & Hl & Hv & Hc & Hn & Hok & Hall).
  cbn [processing_records total_char_count at_branch with_logged ticked
       started init_state app] in Hr, Hok.
  destruct out as [[]|e].
  - destruct (Hok eq_refl) as [Hlen Htot].
    destruct (unit_records_valid _ Hv) as [Hvalid Hsum].
    rewrite (process_batch_ok (init_state d k) s2).
    + cbn [fst snd is_ok processing_records total_char_count with_logged
           ticked].
      rewrite Hr, Htot. repeat split; auto.
    + now rewrite Hmode.
    + now rewrite Hr.
    + rewrite Htot. lia.
  - rewrite (process_batch_raise (init_state d k) s2 e)
      by now rewrite Hmode.
    cbn [fst snd is_ok]. rewrite Hr. repeat split; auto; try discriminate.
    intros Hall'. specialize (Hall Hall'). discriminate.
Qed.

(** A run in per-line mode over a file that breaks while it is read: the
    loop goes through the lines before the error, and the run raises, the
    exception of the engine if a unit failed, else the read error. *)
Lemma by_line_broken_run (d : disk) (k : nat) (prefix : str) (e : exn) :
  read_by_line self = true ->
  open_read d (input_file self) = Ok (Broken prefix e) ->
  exists out1 s1,
    per_line_loop self (file_lines prefix) 0
      (with_logged (at_branch self (init_state d k)) [Msg.mode_by_line; []])
    = (out1, s1)
    /\ process_batch self (init_state d k)
       = (Raise (match out1 with Ok _ => e | Raise e1 => e1 end), s1).
Proof.
  intros Hmode Hopen.
  destruct (per_line_loop self (file_lines prefix) 0
              (with_logged (at_branch self (init_state d k))
                 [Msg.mode_by_line; []])) as [out1 s1] eqn:Hl.
  exists out1, s1. split; [reflexivity|].
  apply process_batch_raise. rewrite Hmode.
  rewrite (batch_by_line_broken prefix e) by exact Hopen.
  unfold bind. rewrite Hl. now destruct out1 as [[]|e1].
Qed.

(** The records of a run in per-line mode, whatever the input file and
    the outcome. *)
Lemma by_line_records_units (d : disk) (k : nat) :
  read_by_line self = true ->
  Forall (fun r => 1 <= char_count r /\ leb zero (audio_duration r) = true)
    (processing_records (snd (process_batch self (init_state d k)))).
Proof.
  intros Hmode.
  destruct (open_read d (input_file self)) as [[content|prefix e0]|e]
    eqn:Hopen.
  - now destruct (by_line_run d k content Hmode Hopen) as (_ & Hv & _).
  - destruct (by_line_broken_run d k prefix e0 Hmode Hopen)
      as (out1 & s1 & Hl & Hrun).
    rewrite Hrun. cbn [snd]. apply per_line_loop_spec in Hl.
    destruct Hl as (new & Hr & _ & Hv & _).
    cbn [processing_records at_branch with_logged ticked started
         init_state app] in Hr.
    now rewrite Hr.
  - rewrite (process_batch_raise (init_state d k)
               (with_logged (at_branch self (init_state d k))
                  [Msg.mode_by_line; []]) e).
    + constructor.
    + rewrite Hmode. now apply batch_by_line_unreadable.
Qed.

Lemma records_by_index (offset : Z) (units : list str) (rs : list record) :
  map line_num rs = labels_from offset (List.length rs) ->
  map char_count rs = map len (firstn (List.length rs) units) ->
  labelled_in_order offset units rs.
Proof.
  intros Hl Hc i r Hi.
  assert (Hlt : (i < List.length rs)%nat).
  { apply nth_error_Some. congruence. }
  apply Nat.ltb_lt in Hlt.
  split.
  - pose proof (map_nth_error line_num _ _ Hi) as H.
    rewrite Hl in H. unfold labels_from in H.
    rewrite nth_error_map, nth_error_seq, Hlt in H. simpl in H.
    congruence.
  - pose proof (map_nth_error char_count _ _ Hi) as H.
    rewrite Hc, nth_error_map, nth_error_firstn, Hlt in H.
    destruct (nth_error units i) as [text|]; [|discriminate].
    exists text. split; auto. simpl in H. congruence.
Qed.

Lemma blank_lines_no_unit (lines : list str) :
  Forall (fun line => strip line = []) lines -> nonblank lines = [].
Proof.
  unfold nonblank.
  induction 1 as [|line rest Hl _ IH]; simpl; auto.
  now rewrite Hl.
Qed.

(** What the branch of [process_batch] leaves, in a run from the state
    [__init__] leaves. *)
Lemma branch_facts (d : disk) (k : nat) (out : result unit) (s2 : state) :
  (if read_by_line self then batch_by_line self else batch_full_text self)
    (at_branch self (init_state d k)) = (out, s2) ->
  Forall valid_record (processing_records s2)
  /\ (out = Ok tt ->
      total_char_count s2 = sum_char_count (processing_records s2)).
Proof.
  destruct (open_read d (input_file self)) as [[content|prefix e0]|e]
    eqn:Hopen.
  2:{ destruct (read_by_line self).
      - rewrite (batch_by_line_broken prefix e0) by assumption.
        unfold bind.
        destruct (per_line_loop self (file_lines prefix) 0 _)
          as [out1 s1] eqn:Hl.
        apply per_line_loop_spec in Hl.
        destruct Hl as (new & Hr & _ & Hv & _).
        cbn [processing_records at_branch with_logged ticked started
             init_state app] in Hr.
        assert (Hs1 : Forall valid_record (processing_records s1)).
        { rewrite Hr. now apply unit_records_valid. }
        destruct out1 as [[]|e1]; unfold lift; intros H; inversion H; subst;
          (split; [exact Hs1 | discriminate]).
      - rewrite (batch_full_text_broken prefix e0) by assumption.
        intros H. inversion H; subst. cbn.
        split; [constructor | discriminate]. }
  - destruct (read_by_line self).
    + intros Hb.
      destruct (batch_by_line_spec content
                  (at_branch self (init_state d k)) s2 out Hopen Hb)
        as (new & Hr & _ & Hv & _ & _ & Hok & _).
      cbn [processing_records total_char_count at_branch with_logged
           ticked started init_state app] in Hr, Hok.
      rewrite Hr. split; [now apply unit_records_valid|].
      intros Ho. destruct (Hok Ho) as [_ Htot]. rewrite Htot. lia.
    + destruct (blob_of content) as [|c t] eqn:Hblob.
      * rewrite (batch_full_text_empty content) by assumption.
        intros H. inversion H; subst. cbn. split; [constructor | reflexivity].
      * intros Hb.
        destruct (batch_full_text_spec content
                    (at_branch self (init_state d k)) s2 out Hopen
                    ltac:(rewrite Hblob; discriminate) Hb)
          as (_ & Hraise & Hok).
        cbn [processing_records at_branch with_logged ticked started
             init_state app] in Hraise, Hok.
        destruct out as [[]|e].
        -- destruct (Hok eq_refl) as (r & Hr & _ & Hc & Ha & Htot).
           rewrite Hr, Htot. simpl. split; [|intros _; lia].
           constructor; [|constructor]. split; auto.
           rewrite Hc. unfold len. lia.
        -- rewrite Hraise by discriminate.
           split; [constructor | discriminate].
  - destruct (read_by_line self).
    + rewrite (batch_by_line_unreadable e) by assumption.
      intros H. inversion H; subst. cbn. split; [constructor | discriminate].
    + rewrite (batch_full_text_unreadable e) by assumption.
      intros H. inversion H; subst. cbn. split; [constructor | discriminate].
Qed.

Lemma sum_char_count_nonneg (rs : list record) :
  Forall valid_record rs -> 0 <= sum_char_count rs.
Proof. induction 1 as [|r rs [Hc _] _ IH]; simpl; lia. Qed.

(** The records of a run, whatever its outcome, are as the processor
    builds them. *)
Lemma run_records_valid (d : disk) (k : nat) :
  Forall valid_record
    (processing_records (snd (process_batch self (init_state d k)))).
Proof.
  destruct ((if read_by_line self then batch_by_line self
             else batch_full_text self) (at_branch self (init_state d k)))
    as [out s2] eqn:Hb.
  destruct (branch_facts d k out s2 Hb) as [Hv Htot].
  destruct out as [[]|e].
  - rewrite (process_batch_ok (init_state d k) s2 Hb Hv).
    + exact Hv.
    + rewrite (Htot eq_refl). now apply sum_char_count_nonneg.
  - now rewrite (process_batch_raise (init_state d k) s2 e Hb).
Qed.

(** A run that returns has gone through the summary and the report. *)
Lemma run_ok_shape (d : disk) (k : nat) :
  is_ok (fst (process_batch self (init_state d k))) = true ->
  exists s2,
    Forall valid_record (processing_records s2)
    /\ total_char_count s2 = sum_char_count (processing_records s2)
    /\ process_batch self (init_state d k)
       = (Ok (sub (time_time (clock s2)) (time_time k)),
          with_logged (ticked (ticked s2))
            (summary_text (total_char_count s2)
               (sub (time_time (clock s2)) (time_time k)) (S (clock s2))
             ++ report_text (processing_records s2) (total_char_count s2)
                  (sub (time_time (clock s2)) (time_time k)))).
Proof.
  destruct ((if read_by_line self then batch_by_line self
             else batch_full_text self) (at_branch self (init_state d k)))
    as [out s2] eqn:Hb.
  destruct (branch_facts d k out s2 Hb) as [Hv Htot].
  destruct out as [[]|e].
  - intros _. exists s2. split; [exact Hv|]. split; [now apply Htot|].
    apply (process_batch_ok (init_state d k) s2 Hb Hv).
    rewrite (Htot eq_refl). now apply sum_char_count_nonneg.
  - rewrite (process_batch_raise (init_state d k) s2 e Hb). discriminate.
Qed.

End Batch.

(** * Properties of the specification *)

(** C7: in per-line mode the namer returns the ordinal, an underscore, the
    sanitized first ten characters of the text and the extension, and as
    full path the output directory joined with that name; for ordinal 5
    and the text of scenario D the prefix is the first ten raw characters
    sanitized, which gives [5_The quick.wav]. *)
Theorem generate_output_filename_per_line `{E : Env} (self : config)
    (n : Z) (text : str) (s : state) :
  generate_output_filename self n text false s
  = (Ok (str_of_int n ++ lit "_" ++ sanitize_filename (slice_to 10 text)
         ++ lit ".wav",
         os_path_join (output_dir self)
           (str_of_int n ++ lit "_" ++ sanitize_filename (slice_to 10 text)
            ++ lit ".wav")), s)
  /\ slice_to 10 (lit "The quick brown fox") = lit "The quick "
  /\ str_of_int 5 ++ lit "_"
     ++ sanitize_filename (slice_to 10 (lit "The quick brown fox"))
     ++ lit ".wav"
     = lit "5_The quick.wav".
Proof.
  split; [apply generate_output_filename_line|]. split; reflexivity.
Qed.

(** C5: the duration probe never raises.  When the file opens and its
    sample rate is not zero it returns the frame count divided by the
    sample rate and leaves the state as it is; when opening fails, with
    any exception, or the rate is zero, it logs one warning to both sinks
    and returns 0.0. *)
Theorem get_audio_duration_never_raises `{E : Env} (audio_path : str)
    (s : state) :
  (exists d, fst (get_audio_duration audio_path s) = Ok d)
  /\ (forall frames rate,
        wave_open (files s) audio_path = Ok (frames, rate) ->
        rate <> 0%N ->
        get_audio_duration audio_path s
        = (Ok (div (float_of_int (Z.of_N frames))
                   (float_of_int (Z.of_N rate))), s))
  /\ (forall frames,
        wave_open (files s) audio_path = Ok (frames, 0%N) ->
        get_audio_duration audio_path s
        = (Ok zero,
           with_logged s [duration_warning audio_path zero_division]))
  /\ (forall e,
        wave_open (files s) audio_path = Raise e ->
        get_audio_duration audio_path s
        = (Ok zero, with_logged s [duration_warning audio_path e])).
Proof.
  split; [|split; [|split]].
  - destruct (get_audio_duration_nonneg audio_path s) as [d [Hd _]].
    now exists d.
  - intros frames rate Hw Hr. rewrite get_audio_duration_eq, Hw.
    destruct (N.eqb_spec rate 0); [contradiction | reflexivity].
  - intros frames Hw. now rewrite get_audio_duration_eq, Hw.
  - intros e Hw. now rewrite get_audio_duration_eq, Hw.
Qed.

(** Scenario C: probing a path that is not on disk gives 0.0 and one
    warning, and no exception. *)
Lemma get_audio_duration_missing_file :
  @get_audio_duration Demo.env_two (lit "missing.wav")
    (@init_state Demo.env_two Demo.empty_disk 0)
  = (Ok zero,
     @with_logged Demo.env_two (@init_state Demo.env_two Demo.empty_disk 0)
       [duration_warning (lit "missing.wav")
          (mk_exn FileNotFoundError (lit "No such file or directory"))]).
Proof.
  destruct (@get_audio_duration_never_raises Demo.env_two
              (lit "missing.wav")
              (@init_state Demo.env_two Demo.empty_disk 0))
    as (_ & _ & _ & H).
  apply H. reflexivity.
Defined.

(** C4: the ratios of a row are computed without an exception for any
    record: [elapsed_time / char_count], or 0.0 when the count is 0, and
    [elapsed_time / audio_duration], or 0.0 when the duration is 0.  The
    report over any records as the processor builds them, with any
    character total that is not negative, zero included, returns, and its
    totals row holds the two ratios computed the same way against the
    character total and the summed durations.  Every record of a run is
    as the processor builds them, and when the run returns the report
    logged last is the one of these rows. *)
Theorem report_ratios_guarded `{E : Env} (self : config) (d : disk)
    (k : nat) :
  (forall r : record,
     is_ok (row_char_ratio r) = true
     /\ is_ok (row_time_ratio r) = true
     /\ (char_count r = 0 -> row_char_ratio r = Ok zero)
     /\ (eqb (audio_duration r) zero = true -> row_time_ratio r = Ok zero)
     /\ (valid_record r ->
         row_char_ratio r
         = Ok (spec_ratio (elapsed_time r) (float_of_int (char_count r)))
         /\ row_time_ratio r
            = Ok (spec_ratio (elapsed_time r) (audio_duration r))))
  /\ (forall (total_elapsed : float) (s : state),
        Forall valid_record (processing_records s) ->
        0 <= total_char_count s ->
        generate_report total_elapsed s
        = (Ok tt,
           with_logged s
             (report_text (processing_records s) (total_char_count s)
                total_elapsed))
        /\ guarded_char_ratio total_elapsed (total_char_count s)
           = Ok (spec_ratio total_elapsed
                   (float_of_int (total_char_count s)))
        /\ guarded_time_ratio total_elapsed
             (sum_audio_duration (processing_records s))
           = Ok (spec_ratio total_elapsed
                   (sum_audio_duration (processing_records s))))
  /\ Forall (fun r =>
              row_char_ratio r
              = Ok (spec_ratio (elapsed_time r)
                      (float_of_int (char_count r)))
              /\ row_time_ratio r
                 = Ok (spec_ratio (elapsed_time r) (audio_duration r))
              /\ (char_count r = 0 -> row_char_ratio r = Ok zero)
              /\ (eqb (audio_duration r) zero = true ->
                  row_time_ratio r = Ok zero))
       (processing_records (snd (process_batch self (init_state d k))))
  /\ forall total_elapsed,
       fst (process_batch self (init_state d k)) = Ok total_elapsed ->
       guarded_char_ratio total_elapsed
         (total_char_count (snd (process_batch self (init_state d k))))
       = Ok (spec_ratio total_elapsed
               (float_of_int
                  (total_char_count
                     (snd (process_batch self (init_state d k))))))
       /\ guarded_time_ratio total_elapsed
            (sum_audio_duration
               (processing_records
                  (snd (process_batch self (init_state d k)))))
          = Ok (spec_ratio total_elapsed
                  (sum_audio_duration
                     (processing_records
                        (snd (process_batch self (init_state d k))))))
       /\ exists before,
            log_content (snd (process_batch self (init_state d k)))
            = before
              ++ map (fun m => m ++ [10])
                   (report_text
                      (processing_records
                         (snd (process_batch self (init_state d k))))
                      (total_char_count
                         (snd (process_batch self (init_state d k))))
                      total_elapsed).
Proof.
  split; [|split; [|split]].
  - intros r. destruct (row_ratios_guarded r) as (H1 & H2 & H3 & H4).
    split; [exact H1|]. split; [exact H2|]. split; [exact H3|].
    split; [exact H4|]. apply row_ratios_spec.
  - intros total_elapsed s Hv Ht.
    split; [now apply generate_report_eq|]. split.
    + now apply guarded_char_ratio_spec.
    + apply guarded_time_ratio_spec.
      apply sum_audio_nonneg; [exact Hv | reflexivity].
  - pose proof (run_records_valid self d k) as Hv.
    eapply Forall_impl; [|exact Hv].
    intros r Hr. destruct (row_ratios_spec r Hr) as [H1 H2].
    split; [exact H1|]. split; [exact H2|]. split.
    + intros Hz. rewrite H1, Hz. reflexivity.
    + intros Hz. rewrite H2. unfold spec_ratio. now rewrite Hz.
  - intros total_elapsed Hrun.
    destruct (run_ok_shape self d k) as (s2 & Hv & Htot & Heq).
    { now rewrite Hrun. }
    rewrite Heq in Hrun |- *. cbn [fst] in Hrun. inversion Hrun; subst.
    cbn [snd processing_records total_char_count log_content with_logged
         ticked].
    split; [|split].
    + apply guarded_char_ratio_spec. rewrite Htot.
      now apply sum_char_count_nonneg.
    + apply guarded_time_ratio_spec.
      apply sum_audio_nonneg; [exact Hv | reflexivity].
    + eexists. rewrite map_app, app_assoc. reflexivity.
Qed.

(** A record of no character and no audio: both ratios of its row are
    0.0, and the report over it with the character total 0 returns.
    Scenario A with an engine that leaves no audio file: both records
    have the duration 0.0, their time ratio is 0.0, and the run returns. *)
Lemma report_ratios_guarded_witness :
  valid_record (mk_record (LabelInt 1) 0 (float_of_int 1) zero)
  /\ row_char_ratio (mk_record (LabelInt 1) 0 (float_of_int 1) zero)
     = Ok zero
  /\ row_time_ratio (mk_record (LabelInt 1) 0 (float_of_int 1) zero)
     = Ok zero
  /\ fst (@generate_report Demo.env_mute (float_of_int 1)
            (@mk_state Demo.env_mute 0
               [mk_record (LabelInt 1) 0 (float_of_int 1) zero] None 0%nat
               Demo.empty_disk [] []))
     = Ok tt
  /\ Forall (fun r =>
               row_char_ratio r
               = Ok (spec_ratio (elapsed_time r)
                       (float_of_int (char_count r)))
               /\ row_time_ratio r
                  = Ok (spec_ratio (elapsed_time r) (audio_duration r))
               /\ (char_count r = 0 -> row_char_ratio r = Ok zero)
               /\ (eqb (audio_duration r) zero = true ->
                   row_time_ratio r = Ok zero))
       (processing_records (snd Demo.run_mute))
  /\ map audio_duration (processing_records (snd Demo.run_mute))
     = [zero; zero]
  /\ map row_time_ratio (processing_records (snd Demo.run_mute))
     = [Ok zero; Ok zero]
  /\ is_ok (fst Demo.run_mute) = true.
Proof.
  destruct (@report_ratios_guarded Demo.env_mute (Demo.cfg true 1)
              Demo.empty_disk 0%nat) as (Hrow & Hreport & Hrun & _).
  assert (Hv : valid_record (mk_record (LabelInt 1) 0 (float_of_int 1) zero)).
  { split; [cbn; lia | reflexivity]. }
  destruct (Hrow (mk_record (LabelInt 1) 0 (float_of_int 1) zero))
    as (_ & _ & Hc & Ht & _).
  split; [exact Hv|]. split; [exact (Hc eq_refl)|].
  split; [exact (Ht eq_refl)|]. split.
  - destruct (Hreport (float_of_int 1)
                (@mk_state Demo.env_mute 0
                   [mk_record (LabelInt 1) 0 (float_of_int 1) zero] None
                   0%nat Demo.empty_disk [] [])) as (Hr & _).
    + constructor; [exact Hv | constructor].
    + cbn. lia.
    + now rewrite Hr.
  - split; [exact Hrun|]. repeat split; vm_compute; reflexivity.
Defined.

(** C1: in per-line mode the record at index [i] (from 0) is the one of
    the [i]-th unit of the input, the units being the lines that are not
    empty once stripped, in file order, and its label is the start offset
    plus [i]: blank lines consume no ordinal.  A run that returns has a
    record for every unit, and a run returns whenever the engine does not
    raise. *)
Theorem per_line_labels_sequential `{E : Env} (self : config) (d : disk)
    (k : nat) (content : str) :
  read_by_line self = true ->
  open_read d (input_file self) = Ok content ->
  labelled_in_order (start_line_num self) (units_of content)
    (processing_records (snd (process_batch self (init_state d k))))
  /\ (is_ok (fst (process_batch self (init_state d k))) = true ->
      List.length
        (processing_records (snd (process_batch self (init_state d k))))
      = List.length (units_of content))
  /\ ((forall text path d',
         is_ok (fst (tts_infer (spk_audio_prompt self) text path d'))
         = true) ->
      is_ok (fst (process_batch self (init_state d k))) = true).
Proof.
  intros Hmode Hopen.
  destruct (by_line_run self d k content Hmode Hopen)
    as (Hl & _ & Hc & Hok & Hall).
  split; [now apply records_by_index|]. split; [|exact Hall].
  intros H. now destruct (Hok H).
Qed.

(** Scenario A: two sentences around an empty line, start offset 1, give
    two records labelled 1 and 2 with 12 and 8 characters. *)
Lemma per_line_labels_sequential_witness :
  read_by_line (Demo.cfg true 1) = true
  /\ @open_read Demo.env_two Demo.empty_disk (input_file (Demo.cfg true 1))
     = Ok Demo.two_sentences
  /\ labelled_in_order (start_line_num (Demo.cfg true 1))
       (units_of Demo.two_sentences)
       (processing_records (snd Demo.run_by_line))
  /\ map line_num (processing_records (snd Demo.run_by_line))
     = [LabelInt 1; LabelInt 2]
  /\ map char_count (processing_records (snd Demo.run_by_line)) = [12; 8].
Proof.
  split; [reflexivity|]. split; [reflexivity|]. split.
  - exact (proj1 (@per_line_labels_sequential Demo.env_two
                    (Demo.cfg true 1) Demo.empty_disk 0%nat
                    Demo.two_sentences eq_refl eq_refl)).
  - split; vm_compute; reflexivity.
Defined.

(** C10: every record of a run in per-line mode counts at least one
    character, so the report takes the division and never the fallback
    when it computes the character ratio of such a record. *)
Theorem per_line_records_nonempty `{E : Env} (self : config) (d : disk)
    (k : nat) :
  read_by_line self = true ->
  Forall (fun r =>
            1 <= char_count r
            /\ (0 <? char_count r) = true
            /\ row_char_ratio r
               = Ok (div (elapsed_time r) (float_of_int (char_count r))))
    (processing_records (snd (process_batch self (init_state d k)))).
Proof.
  intros Hmode.
  assert (Hrs : Forall (fun r => 1 <= char_count r
                                 /\ leb zero (audio_duration r) = true)
                  (processing_records
                     (snd (process_batch self (init_state d k))))).
  { now apply by_line_records_units. }
  eapply Forall_impl; [|exact Hrs].
  intros r [Hc _]. split; [exact Hc|]. split; [apply Z.ltb_lt; lia|].
  unfold row_char_ratio, guarded_char_ratio.
  replace (0 <? char_count r) with true by (symmetry; apply Z.ltb_lt; lia).
  apply truediv_int_pos. lia.
Qed.

(** The two records of scenario A count 12 and 8 characters. *)
Lemma per_line_records_nonempty_witness :
  read_by_line (Demo.cfg true 1) = true
  /\ Forall (fun r =>
               1 <= char_count r
               /\ (0 <? char_count r) = true
               /\ row_char_ratio r
                  = Ok (div (elapsed_time r) (float_of_int (char_count r))))
       (processing_records (snd Demo.run_by_line)).
Proof.
  split; [reflexivity|].
  exact (@per_line_records_nonempty Demo.env_two (Demo.cfg true 1)
           Demo.empty_disk 0%nat eq_refl).
Defined.

(** C2: in whole-text mode the blob is the stripped lines that are not
    empty, joined by one space.  When it is not empty the run returns
    exactly when the engine call for the blob does; it then holds exactly
    one record, labelled with the whole-text sentinel, whose character
    count is the length of the blob, which is also the character total;
    when the engine raises there is no record. *)
Theorem whole_text_single_record `{E : Env} (self : config) (d : disk)
    (k : nat) (content : str) :
  read_by_line self = false ->
  open_read d (input_file self) = Ok content ->
  blob_of content <> [] ->
  is_ok (fst (process_batch self (init_state d k)))
  = is_ok (fst (tts_infer (spk_audio_prompt self) (blob_of content)
                  (full_text_path self (blob_of content) (S (S k))) d))
  /\ (is_ok (fst (process_batch self (init_state d k))) = true ->
      exists r,
        processing_records (snd (process_batch self (init_state d k))) = [r]
        /\ line_num r = LabelStr Msg.full_text_label
        /\ char_count r = len (blob_of content)
        /\ total_char_count (snd (process_batch self (init_state d k)))
           = len (blob_of content))
  /\ (is_ok (fst (process_batch self (init_state d k))) = false ->
      processing_records (snd (process_batch self (init_state d k))) = []).
Proof.
  intros Hmode Hopen Hblob.
  destruct (batch_full_text self (at_branch self (init_state d k)))
    as [out s2] eqn:Hb.
  destruct (batch_full_text_spec self content
              (at_branch self (init_state d k)) s2 out Hopen Hblob Hb)
    as (Hout & Hraise & Hok).
  cbn [files clock processing_records at_branch with_logged ticked started
       init_state app] in Hout, Hraise, Hok.
  destruct out as [[]|e].
  - destruct (Hok eq_refl) as (r & Hr & Hl & Hc & Ha & Htot).
    rewrite (process_batch_ok self (init_state d k) s2).
    + cbn [fst snd is_ok processing_records total_char_count with_logged
           ticked].
      split; [exact Hout|]. split; [|discriminate].
      intros _. exists r. auto.
    + now rewrite Hmode.
    + rewrite Hr. constructor; [|constructor]. split; auto.
      rewrite Hc. unfold len. lia.
    + rewrite Htot. unfold len. lia.
  - rewrite (process_batch_raise self (init_state d k) s2 e)
      by now rewrite Hmode.
    cbn [fst snd is_ok]. split; [exact Hout|]. split; [discriminate|].
    intros _. apply Hraise. discriminate.
Qed.

(** Scenario B: the two sentences give one record of 21 characters, the
    length of the sentences joined by one space. *)
Lemma whole_text_single_record_witness :
  read_by_line (Demo.cfg false 1) = false
  /\ @open_read Demo.env_two Demo.empty_disk (input_file (Demo.cfg false 1))
     = Ok Demo.two_sentences
  /\ blob_of Demo.two_sentences = lit "Hello world. Goodbye."
  /\ is_ok (fst Demo.run_full_text) = true
  /\ exists r,
       processing_records (snd Demo.run_full_text) = [r]
       /\ line_num r = LabelStr Msg.full_text_label
       /\ char_count r = 21.
Proof.
  split; [reflexivity|]. split; [reflexivity|]. split; [reflexivity|].
  split; [reflexivity|].
  destruct (@whole_text_single_record Demo.env_two (Demo.cfg false 1)
              Demo.empty_disk 0%nat Demo.two_sentences eq_refl eq_refl
              ltac:(discriminate))
    as (_ & Hok & _).
  destruct (Hok eq_refl) as (r & Hr & Hl & Hc & _).
  exists r. auto.
Defined.

(** C3: when a run returns, in either mode, the character total equals
    the sum of the character counts of the accumulated records, and the
    report, logged last, is the one of these records with that total. *)
Theorem total_char_count_is_sum `{E : Env} (self : config) (d : disk)
    (k : nat) :
  is_ok (fst (process_batch self (init_state d k))) = true ->
  total_char_count (snd (process_batch self (init_state d k)))
  = sum_char_count
      (processing_records (snd (process_batch self (init_state d k))))
  /\ exists total_elapsed before,
       fst (process_batch self (init_state d k)) = Ok total_elapsed
       /\ log_content (snd (process_batch self (init_state d k)))
          = before
            ++ map (fun m => m ++ [10])
                 (report_text
                    (processing_records
                       (snd (process_batch self (init_state d k))))
                    (sum_char_count
                       (processing_records
                          (snd (process_batch self (init_state d k)))))
                    total_elapsed).
Proof.
  intros Hrun.
  destruct (run_ok_shape self d k Hrun) as (s2 & Hv & Htot & Heq).
  rewrite Heq.
  cbn [fst snd processing_records total_char_count log_content with_logged
       ticked].
  split; [exact Htot|].
  eexists. eexists. split; [reflexivity|].
  rewrite map_app, app_assoc, Htot. reflexivity.
Qed.

(** In scenario A the total is 20, the sum of 12 and 8. *)
Lemma total_char_count_is_sum_witness :
  is_ok (fst Demo.run_by_line) = true
  /\ total_char_count (snd Demo.run_by_line)
     = sum_char_count (processing_records (snd Demo.run_by_line))
  /\ total_char_count (snd Demo.run_by_line) = 20.
Proof.
  split; [reflexivity|]. split; [|reflexivity].
  exact (proj1 (@total_char_count_is_sum Demo.env_two (Demo.cfg true 1)
                  Demo.empty_disk 0%nat eq_refl)).
Defined.

(** C6: in whole-text mode an input whose lines are all empty once
    stripped makes the run return its elapsed time with no record and a
    character total of 0; the log holds the header, the mode, the warning,
    the summary and the report, whose totals row shows 0 characters, 0.0
    seconds of audio and 0.0 for both ratios, computed without a
    division. *)
Theorem blank_input_whole_text `{E : Env} (self : config) (d : disk)
    (k : nat) (content : str) :
  read_by_line self = false ->
  open_read d (input_file self) = Ok content ->
  Forall (fun line => strip line = []) (file_lines content) ->
  process_batch self (init_state d k)
  = (Ok (sub (time_time (S (S k))) (time_time k)),
     with_logged
       (mk_state 0 [] (Some (time_time k)) (S (S (S (S k)))) d [] [])
       (header_text self (S k)
        ++ [Msg.mode_full_text; []; Msg.warn_empty_input]
        ++ summary_text 0 (sub (time_time (S (S k))) (time_time k))
             (S (S (S k)))
        ++ report_text [] 0 (sub (time_time (S (S k))) (time_time k))))
  /\ report_text [] 0 (sub (time_time (S (S k))) (time_time k))
     = [repeat_char 61 total_width; center total_width Msg.report_title;
        repeat_char 61 total_width; header_line; repeat_char 45 total_width;
        repeat_char 45 total_width;
        total_line 0 zero (sub (time_time (S (S k))) (time_time k))
          zero zero;
        repeat_char 61 total_width]
  /\ guarded_char_ratio (sub (time_time (S (S k))) (time_time k)) 0
     = Ok zero
  /\ guarded_time_ratio (sub (time_time (S (S k))) (time_time k)) zero
     = Ok zero.
Proof.
  intros Hmode Hopen Hblank.
  assert (Hblob : blob_of content = []).
  { unfold blob_of, units_of. now rewrite blank_lines_no_unit. }
  split; [|split; [|split]]; try reflexivity.
  rewrite (process_batch_ok self (init_state d k)
             (with_logged (at_branch self (init_state d k))
                [Msg.mode_full_text; []; Msg.warn_empty_input])).
  - cbn [clock processing_records total_char_count at_branch with_logged
         ticked started init_state].
    f_equal.
  - rewrite Hmode. now apply (batch_full_text_empty self content).
  - constructor.
  - cbn. lia.
Qed.


(** A file of spaces, tabs and line ends only. *)
Lemma blank_input_whole_text_witness :
  read_by_line (Demo.cfg false 1) = false
  /\ @open_read Demo.env_blank Demo.empty_disk
       (input_file (Demo.cfg false 1)) = Ok Demo.blank_lines
  /\ Forall (fun line => strip line = []) (file_lines Demo.blank_lines)
  /\ @process_batch Demo.env_blank (Demo.cfg false 1)
       (@init_state Demo.env_blank Demo.empty_disk 0)
     = (Ok (sub (@time_time Demo.env_blank 2) (@time_time Demo.env_blank 0)),
        @with_logged Demo.env_blank
          (@mk_state Demo.env_blank 0 []
             (Some (@time_time Demo.env_blank 0)) 4 Demo.empty_disk [] [])
          (@header_text Demo.env_blank (Demo.cfg false 1) 1
           ++ [Msg.mode_full_text; []; Msg.warn_empty_input]
           ++ @summary_text Demo.env_blank 0
                (sub (@time_time Demo.env_blank 2)
                   (@time_time Demo.env_blank 0)) 3
           ++ @report_text Demo.env_blank [] 0
                (sub (@time_time Demo.env_blank 2)
                   (@time_time Demo.env_blank 0)))).
Proof.
  assert (Hb : Forall (fun line => strip line = [])
                 (file_lines Demo.blank_lines)).
  { repeat constructor. }
  split; [reflexivity|]. split; [reflexivity|]. split; [exact Hb|].
  exact (proj1 (@blank_input_whole_text Demo.env_blank
                  (Demo.cfg false 1) Demo.empty_disk 0%nat
                  Demo.blank_lines eq_refl eq_refl Hb)).
Defined.

(** * Further properties *)

(** ** The sanitizer *)

Lemma strip_nil_iff (s : str) :
  strip s = [] <-> forallb is_space s = true.
Proof.
  split.
  - intros H. destruct (strip_split s) as (pre & post & Hp & Hq & Hs).
    rewrite H in Hs. rewrite Hs. simpl. rewrite forallb_app. now rewrite Hp, Hq.
  - intros H. unfold strip.
    assert (Hl : lstrip s = []).
    { induction s as [|c t IH]; simpl in *; auto.
      apply andb_true_iff in H. destruct H as [Hc Ht]. rewrite Hc. auto. }
    now rewrite Hl.
Qed.

Lemma strip_length (s : str) : (List.length (strip s) <= List.length s)%nat.
Proof.
  destruct (strip_split s) as (pre & post & _ & _ & Hs).
  rewrite Hs at 2. rewrite !length_app. lia.
Qed.

Lemma legal_in_class (c : char) : legal c <-> in_class illegal_chars c = false.
Proof.
  unfold legal. rewrite <- in_class_In.
  destruct (in_class illegal_chars c); split; congruence.
Qed.

Lemma sanitize_filename_legal (text : str) :
  Forall legal (sanitize_filename text).
Proof.
  unfold sanitize_filename.
  eapply Forall_impl; [|apply strip_Forall, re_sub_class_empty_clean].
  intros c Hc. now apply legal_in_class.
Qed.

(** X1: the sanitizer leaves a text as it is exactly when the text holds
    no illegal character and neither starts nor ends with whitespace. *)
Theorem sanitize_filename_fixed_iff (text : str) :
  sanitize_filename text = text
  <-> Forall legal text /\ lstrip text = text /\ rstrip text = text.
Proof.
  split.
  - intros H. rewrite <- H. split; [apply sanitize_filename_legal|].
    unfold sanitize_filename.
    split; [apply strip_lstrip_fix | apply strip_rstrip_fix].
  - intros (Hl & Hs & Hr). unfold sanitize_filename.
    rewrite re_sub_class_empty_fix.
    + unfold strip. now rewrite Hs.
    + eapply Forall_impl; [|exact Hl]. intros c. apply legal_in_class.
Qed.

Lemma sanitize_filename_length (text : str) :
  (List.length (sanitize_filename text) <= List.length text)%nat.
Proof.
  unfold sanitize_filename. rewrite re_sub_class_empty_filter.
  etransitivity; [apply strip_length | apply filter_length_le].
Qed.

(** X2: the sanitizer never lengthens a text, and its result is empty
    exactly when every character of the text is illegal or whitespace. *)
Theorem sanitize_filename_empty_iff (text : str) :
  (List.length (sanitize_filename text) <= List.length text)%nat
  /\ (sanitize_filename text = []
      <-> Forall (fun c => In c illegal_chars \/ is_space c = true) text).
Proof.
  split; [apply sanitize_filename_length|].
  unfold sanitize_filename. rewrite re_sub_class_empty_filter.
  rewrite strip_nil_iff, forallb_forall, Forall_forall. split.
  - intros H c Hc.
    destruct (in_class illegal_chars c) eqn:Hi.
    + left. now apply in_class_In.
    + right. apply H. apply filter_In. now rewrite Hi.
  - intros H c Hc. apply filter_In in Hc. destruct Hc as [Hc Hi].
    destruct (H c Hc) as [Hill|Hsp]; auto.
    apply in_class_In in Hill. rewrite Hill in Hi. discriminate.
Qed.

(** ** File names *)

Lemma lit_cons (a : ascii) (s : string) :
  lit (String a s) = Z.of_N (N_of_ascii a) :: lit s.
Proof. reflexivity. Qed.

Lemma lit_inj (a b : string) : lit a = lit b -> a = b.
Proof.
  revert b. induction a as [|x a IH]; intros [|y b] H;
    try discriminate; auto.
  rewrite !lit_cons in H. inversion H as [[Hx Hr]].
  apply N2Z.inj in Hx. apply (f_equal ascii_of_N) in Hx.
  rewrite !ascii_N_embedding in Hx. subst y. f_equal. now apply IH.
Qed.

Lemma to_int_not_nil (n : Z) :
  Z.to_int n <> Decimal.Pos Decimal.Nil
  /\ Z.to_int n <> Decimal.Neg Decimal.Nil.
Proof.
  destruct n as [|p|p]; simpl; split; try discriminate;
    intros H; inversion H as [H1];
    now apply (DecimalPos.Unsigned.to_uint_nonnil p).
Qed.

Lemma str_of_int_inj (n m : Z) : str_of_int n = str_of_int m -> n = m.
Proof.
  unfold str_of_int. intros H. apply lit_inj in H.
  apply (f_equal NilZero.int_of_string) in H.
  destruct (to_int_not_nil n) as [Hn1 Hn2].
  destruct (to_int_not_nil m) as [Hm1 Hm2].
  rewrite !NilZero.isi in H by assumption.
  inversion H as [H1]. apply (f_equal Z.of_int) in H1.
  now rewrite !DecimalZ.of_to in H1.
Qed.

Lemma uint_chars (d : Decimal.uint) :
  Forall digit_or_minus (lit (NilEmpty.string_of_uint d)).
Proof.
  induction d; simpl NilEmpty.string_of_uint;
    try rewrite lit_cons; constructor; auto;
    left; cbn; lia.
Qed.

Lemma str_of_int_chars (n : Z) : Forall digit_or_minus (str_of_int n).
Proof.
  unfold str_of_int.
  assert (Hu : forall d, Forall digit_or_minus
                           (lit (NilZero.string_of_uint d))).
  { intros d. destruct d; try apply uint_chars.
    constructor; [left; cbn; lia | constructor]. }
  destruct (Z.to_int n) as [d|d]; simpl NilZero.string_of_int.
  - apply Hu.
  - rewrite lit_cons. constructor; [right; reflexivity | apply Hu].
Qed.

Lemma digit_or_minus_legal (c : char) : digit_or_minus c -> legal c.
Proof.
  unfold digit_or_minus, legal, illegal_chars. simpl. intros H Hin.
  repeat (destruct Hin as [Hin|Hin]; [lia|]). exact Hin.
Qed.

Lemma split_at_first (sep : char) (a b x y : str) :
  ~ In sep a -> ~ In sep b ->
  a ++ sep :: x = b ++ sep :: y -> a = b /\ x = y.
Proof.
  revert b. induction a as [|c a IH]; intros [|c' b] Ha Hb H; simpl in *.
  - inversion H. auto.
  - inversion H; subst. exfalso. apply Hb. now left.
  - inversion H; subst. exfalso. apply Ha. now left.
  - injection H as Hc Hr. subst c'.
    destruct (IH b) as [Hab Hxy]; auto. now subst.
Qed.

(** X3: the file name of a unit in per-line mode holds no character that
    is illegal in a file name, hence no path separator; it is at most
    fifteen characters longer than the ordinal; and the full path is the
    output directory joined with it. *)
Theorem per_line_filename_legal `{E : Env} (self : config) (n : Z)
    (text name path : str) (s s' : state) :
  generate_output_filename self n text false s = (Ok (name, path), s') ->
  Forall legal name
  /\ ~ In 47 name /\ ~ In 92 name
  /\ (List.length name <= List.length (str_of_int n) + 15)%nat
  /\ path = os_path_join (output_dir self) name.
Proof.
  rewrite generate_output_filename_line. intros H.
  assert (Hname : name = str_of_int n ++ lit "_"
                         ++ sanitize_filename (slice_to 10 text)
                         ++ lit ".wav") by congruence.
  assert (Hpath : path = os_path_join (output_dir self) name) by congruence.
  clear H. subst name.
  assert (Hl : Forall legal
                 (str_of_int n ++ lit "_"
                  ++ sanitize_filename (slice_to 10 text) ++ lit ".wav")).
  { assert (Hlit : forall c : char, ~ In c illegal_chars -> Forall legal [c]).
    { intros c Hc. constructor; [exact Hc | constructor]. }
    apply Forall_app. split.
    - eapply Forall_impl; [|apply str_of_int_chars].
      apply digit_or_minus_legal.
    - apply Forall_app. split.
      + apply Hlit. simpl. lia.
      + apply Forall_app. split; [apply sanitize_filename_legal|].
        change (lit ".wav") with ([46] ++ [119] ++ [97] ++ [118]).
        repeat (apply Forall_app; split); apply Hlit; simpl; lia. }
  split; [exact Hl|]. rewrite Forall_forall in Hl.
  split; [|split; [|split]].
  - intros Hin. apply (Hl _ Hin). simpl. tauto.
  - intros Hin. apply (Hl _ Hin). simpl. tauto.
  - rewrite !length_app.
    pose proof (sanitize_filename_length (slice_to 10 text)) as Hlen.
    pose proof (firstn_le_length 10 text) as Hten.
    unfold slice_to in Hlen |- *.
    change (List.length (lit "_")) with 1%nat.
    change (List.length (lit ".wav")) with 4%nat. lia.
  - exact Hpath.
Qed.

(** The name of scenario D. *)
Lemma per_line_filename_legal_witness :
  @generate_output_filename Demo.env_two (Demo.cfg true 1) 5
    (lit "The quick brown fox") false
    (@init_state Demo.env_two Demo.empty_disk 0)
  = (Ok (lit "5_The quick.wav", lit "outputs/5_The quick.wav"),
     @init_state Demo.env_two Demo.empty_disk 0)
  /\ Forall legal (lit "5_The quick.wav")
  /\ (List.length (lit "5_The quick.wav")
      <= List.length (str_of_int 5) + 15)%nat.
Proof.
  split; [reflexivity|].
  destruct (@per_line_filename_legal Demo.env_two (Demo.cfg true 1) 5
              (lit "The quick brown fox") (lit "5_The quick.wav")
              (lit "outputs/5_The quick.wav")
              (@init_state Demo.env_two Demo.empty_disk 0)
              (@init_state Demo.env_two Demo.empty_disk 0) eq_refl)
    as (H1 & _ & _ & H2 & _).
  split; [exact H1 | exact H2].
Defined.

(** X4: in per-line mode two units with different ordinals never get the
    same file name, whatever their texts: within a run no unit overwrites
    the audio file of another. *)
Theorem per_line_filenames_distinct `{E : Env} (self : config) (n m : Z)
    (text text' name name' path path' : str) (s s' t t' : state) :
  generate_output_filename self n text false s = (Ok (name, path), t) ->
  generate_output_filename self m text' false s' = (Ok (name', path'), t') ->
  n <> m ->
  name <> name'.
Proof.
  rewrite !generate_output_filename_line. intros H1 H2 Hnm Heq.
  assert (Hname : name = str_of_int n ++ lit "_"
                         ++ sanitize_filename (slice_to 10 text)
                         ++ lit ".wav") by congruence.
  assert (Hname' : name' = str_of_int m ++ lit "_"
                           ++ sanitize_filename (slice_to 10 text')
                           ++ lit ".wav") by congruence.
  clear H1 H2. rewrite Hname, Hname' in Heq.
  apply Hnm, str_of_int_inj.
  assert (Hsep : forall k, ~ In 95 (str_of_int k)).
  { intros k Hin. pose proof (str_of_int_chars k) as Hc.
    rewrite Forall_forall in Hc. specialize (Hc _ Hin).
    unfold digit_or_minus in Hc. lia. }
  exact (proj1 (split_at_first 95 (str_of_int n) (str_of_int m)
                  (sanitize_filename (slice_to 10 text) ++ lit ".wav")
                  (sanitize_filename (slice_to 10 text') ++ lit ".wav")
                  (Hsep n) (Hsep m) Heq)).
Qed.

(** Two lines that start alike, at the ordinals 1 and 2. *)
Lemma per_line_filenames_distinct_witness :
  @generate_output_filename Demo.env_two (Demo.cfg true 1) 1
    (lit "Hello world.") false (@init_state Demo.env_two Demo.empty_disk 0)
  = (Ok (lit "1_Hello worl.wav", lit "outputs/1_Hello worl.wav"),
     @init_state Demo.env_two Demo.empty_disk 0)
  /\ @generate_output_filename Demo.env_two (Demo.cfg true 1) 2
       (lit "Hello world.") false
       (@init_state Demo.env_two Demo.empty_disk 0)
     = (Ok (lit "2_Hello worl.wav", lit "outputs/2_Hello worl.wav"),
        @init_state Demo.env_two Demo.empty_disk 0)
  /\ 1 <> 2
  /\ lit "1_Hello worl.wav" <> lit "2_Hello worl.wav".
Proof.
  split; [reflexivity|]. split; [reflexivity|]. split; [discriminate|].
  exact (@per_line_filenames_distinct Demo.env_two (Demo.cfg true 1) 1 2
           (lit "Hello world.") (lit "Hello world.") _ _ _ _
           (@init_state Demo.env_two Demo.empty_disk 0)
           (@init_state Demo.env_two Demo.empty_disk 0) _ _
           eq_refl eq_refl ltac:(discriminate)).
Defined.

(** ** Relations every method keeps

    A relation on states that is reflexive and transitive and holds across
    each primitive change of the state holds across every method, whether
    the method returns or raises. *)

Section Keeps.

Context {E : Env}.
Variable R : state -> state -> Prop.
Hypothesis R_refl : forall s, R s s.
Hypothesis R_trans : forall a b c, R a b -> R b c -> R a c.
Hypothesis R_log : forall s message, R s (with_logged s [message]).
Hypothesis R_tick : forall s, R s (ticked s).
Hypothesis R_files : forall s d, R s (with_files s d).
Hypothesis R_total : forall s n, R s (with_total s n).
Hypothesis R_record : forall s r, R s (with_record s r).
Hypothesis R_start : forall s t, R s (with_start s t).

Lemma keeps_ret {A} (a : A) : keeps R (ret a).
Proof. intros s. apply R_refl. Qed.

Lemma keeps_lift {A} (r : result A) : keeps R (lift r).
Proof. intros s. apply R_refl. Qed.

Lemma keeps_get {A} (f : state -> A) : keeps R (get f).
Proof. intros s. apply R_refl. Qed.

Lemma keeps_bind {A B} (m : M A) (k : A -> M B) :
  keeps R m -> (forall a, keeps R (k a)) -> keeps R (bind m k).
Proof.
  intros Hm Hk s. unfold bind. specialize (Hm s).
  destruct (m s) as [[a|e] s1]; cbn [snd] in *; auto.
  eapply R_trans; [exact Hm | apply Hk].
Qed.

Lemma keeps_try_except {A} (m : M A) (h : exn -> M A) :
  keeps R m -> (forall e, keeps R (h e)) -> keeps R (try_except m h).
Proof.
  intros Hm Hh s. unfold try_except. specialize (Hm s).
  destruct (m s) as [[a|e] s1]; cbn [snd] in *; auto.
  eapply R_trans; [exact Hm | apply Hh].
Qed.

Lemma keeps_log_print (message : str) : keeps R (log_print message).
Proof. intros s. apply R_log. Qed.

Lemma keeps_time_now : keeps R time_now.
Proof. intros s. apply R_tick. Qed.

Lemma keeps_datetime_now_strftime (fmt : str) :
  keeps R (datetime_now_strftime fmt).
Proof. intros s. apply R_tick. Qed.

Lemma keeps_infer (self : config) (text path : str) :
  keeps R (infer self text path).
Proof.
  intros s. unfold infer.
  destruct (tts_infer (spk_audio_prompt self) text path (files s))
    as [r d]. apply (R_files s d).
Qed.

Lemma keeps_set_total_char_count (n : Z) : keeps R (set_total_char_count n).
Proof. intros s. apply (R_total s n). Qed.

Lemma keeps_append_record (r : record) : keeps R (append_record r).
Proof. intros s. apply (R_record s r). Qed.

Lemma keeps_set_total_start_time (t : float) :
  keeps R (set_total_start_time t).
Proof. intros s. apply (R_start s t). Qed.

(** One step through a computation, chosen by its head. *)
Ltac keeps_prim :=
  idtac;
  lazymatch goal with
  | |- keeps _ (bind _ _) => apply keeps_bind; [|intros ?]
  | |- keeps _ (try_except _ _) => apply keeps_try_except; [|intros ?]
  | |- keeps _ (ret _) => apply keeps_ret
  | |- keeps _ (lift _) => apply keeps_lift
  | |- keeps _ (get _) => apply keeps_get
  | |- keeps _ (log_print _) => apply keeps_log_print
  | |- keeps _ time_now => apply keeps_time_now
  | |- keeps _ (datetime_now_strftime _) =>
      apply keeps_datetime_now_strftime
  | |- keeps _ (infer _ _ _) => apply keeps_infer
  | |- keeps _ (set_total_char_count _) => apply keeps_set_total_char_count
  | |- keeps _ (append_record _) => apply keeps_append_record
  | |- keeps _ (set_total_start_time _) => apply keeps_set_total_start_time
  | |- keeps _ (if ?b then _ else _) => destruct b
  | |- keeps _ (match ?f with Whole _ => _ | Broken _ _ => _ end) =>
      destruct f
  end.

Ltac keeps_with tac := repeat (cbv beta zeta; first [keeps_prim | tac]).

Lemma keeps_get_audio_duration (audio_path : str) :
  keeps R (get_audio_duration audio_path).
Proof. unfold get_audio_duration. keeps_with idtac. Qed.

Lemma keeps_generate_output_filename (self : config) (n : Z) (text : str)
    (is_full_text : bool) :
  keeps R (generate_output_filename self n text is_full_text).
Proof. unfold generate_output_filename. keeps_with idtac. Qed.

Ltac keeps_unit :=
  idtac;
  lazymatch goal with
  | |- keeps _ (get_audio_duration _) => apply keeps_get_audio_duration
  | |- keeps _ (generate_output_filename _ _ _ _) =>
      apply keeps_generate_output_filename
  end.

Lemma keeps_process_single_line (self : config) (n : Z) (text : str) :
  keeps R (process_single_line self n text).
Proof. unfold process_single_line. keeps_with keeps_unit. Qed.

Lemma keeps_process_full_text (self : config) (text : str) :
  keeps R (process_full_text self text).
Proof. unfold process_full_text. keeps_with keeps_unit. Qed.

Lemma keeps_print_log_header (self : config) :
  keeps R (print_log_header self).
Proof. unfold print_log_header. keeps_with idtac. Qed.

Lemma keeps_print_summary (total_elapsed : float) :
  keeps R (print_summary total_elapsed).
Proof. unfold print_summary. keeps_with idtac. Qed.

Lemma keeps_report_rows (records : list record) :
  forall acc, keeps R (report_rows records acc).
Proof.
  induction records as [|r rest IH]; intros acc; cbn [report_rows].
  - apply keeps_ret.
  - keeps_with ltac:(apply IH).
Qed.

Lemma keeps_generate_report (total_elapsed : float) :
  keeps R (generate_report total_elapsed).
Proof.
  unfold generate_report. keeps_with ltac:(apply keeps_report_rows).
Qed.

Lemma keeps_per_line_loop (self : config) (lines : list str) :
  forall k, keeps R (per_line_loop self lines k).
Proof.
  induction lines as [|line rest IH]; intros k; cbn [per_line_loop].
  - apply keeps_ret.
  - keeps_with ltac:(first [apply IH | apply keeps_process_single_line]).
Qed.

Lemma keeps_batch_by_line (self : config) : keeps R (batch_by_line self).
Proof.
  unfold batch_by_line. keeps_with ltac:(apply keeps_per_line_loop).
Qed.

Lemma keeps_batch_full_text (self : config) :
  keeps R (batch_full_text self).
Proof.
  unfold batch_full_text. keeps_with ltac:(apply keeps_process_full_text).
Qed.

Ltac keeps_batch :=
  idtac;
  lazymatch goal with
  | |- keeps _ (print_log_header _) => apply keeps_print_log_header
  | |- keeps _ (print_summary _) => apply keeps_print_summary
  | |- keeps _ (generate_report _) => apply keeps_generate_report
  | |- keeps _ (batch_by_line _) => apply keeps_batch_by_line
  | |- keeps _ (batch_full_text _) => apply keeps_batch_full_text
  end.

Lemma keeps_process_batch (self : config) : keeps R (process_batch self).
Proof. unfold process_batch. keeps_with keeps_batch. Qed.

End Keeps.

(** ** The two sinks, and the records *)

Section Sinks.

Context {E : Env}.

Lemma sinks_extended_refl (s : state) : sinks_extended s s.
Proof. exists []. simpl. now rewrite !app_nil_r. Qed.

Lemma sinks_extended_trans (a b c : state) :
  sinks_extended a b -> sinks_extended b c -> sinks_extended a c.
Proof.
  intros [l1 [H1 H1']] [l2 [H2 H2']]. exists (l1 ++ l2).
  rewrite H2, H2', H1, H1', map_app, !app_assoc. auto.
Qed.

Lemma sinks_extended_log (s : state) (message : str) :
  sinks_extended s (with_logged s [message]).
Proof. exists [message]. auto. Qed.

Lemma records_extended_refl (s : state) : records_extended s s.
Proof. exists []. now rewrite app_nil_r. Qed.

Lemma records_extended_trans (a b c : state) :
  records_extended a b -> records_extended b c -> records_extended a c.
Proof.
  intros [l1 H1] [l2 H2]. exists (l1 ++ l2).
  now rewrite H2, H1, app_assoc.
Qed.

End Sinks.

(** X5: whatever a run does, and whether it returns or raises, it writes
    the same newline-terminated lines to the console and to the log file,
    in the same order; from the state [__init__] leaves the two sinks are
    therefore equal. *)
Theorem sinks_mirrored `{E : Env} (self : config) (s : state) :
  (exists lines,
     console (snd (process_batch self s))
     = console s ++ map (fun m => m ++ [10]) lines
     /\ log_content (snd (process_batch self s))
        = log_content s ++ map (fun m => m ++ [10]) lines)
  /\ forall d k,
       console (snd (process_batch self (init_state d k)))
       = log_content (snd (process_batch self (init_state d k))).
Proof.
  assert (H : forall s0, sinks_extended s0 (snd (process_batch self s0))).
  { apply (keeps_process_batch sinks_extended sinks_extended_refl
             sinks_extended_trans sinks_extended_log);
      intros; exists []; simpl; now rewrite !app_nil_r. }
  split; [exact (H s)|].
  intros d k. destruct (H (init_state d k)) as [lines [H1 H2]].
  now rewrite H1, H2.
Qed.

(** X6: a run only appends to the records of the processor: whatever the
    state it starts in and whether it returns or raises, the records it
    found are still there, in order, before the ones it added. *)
Theorem records_append_only `{E : Env} (self : config) (s : state) :
  exists new,
    processing_records (snd (process_batch self s))
    = processing_records s ++ new.
Proof.
  apply (keeps_process_batch records_extended records_extended_refl
           records_extended_trans); intros.
  - exists []. simpl. now rewrite app_nil_r.
  - exists []. simpl. now rewrite app_nil_r.
  - exists []. simpl. now rewrite app_nil_r.
  - exists []. simpl. now rewrite app_nil_r.
  - exists [r]. reflexivity.
  - exists []. simpl. now rewrite app_nil_r.
Qed.

(** X7: the report changes nothing but the two sinks, to which it writes
    the same lines: the character total, the records, the files, the clock
    and the start time are as before, even when a ratio raises. *)
Theorem generate_report_only_logs `{E : Env} (total_elapsed : float)
    (s : state) :
  exists lines,
    snd (generate_report total_elapsed s) = with_logged s lines.
Proof.
  apply (keeps_generate_report
           (fun a b => exists lines, b = with_logged a lines)).
  - intros a. exists []. now rewrite with_logged_nil.
  - intros a b c [l1 H1] [l2 H2]. exists (l1 ++ l2).
    now rewrite H2, H1, with_logged_app.
  - intros a message. now exists [message].
Qed.

(** ** The lines of a text file *)

Lemma translate_newlines_chars (n : nat) :
  forall (s : str) (c : char),
    (List.length s <= n)%nat -> In c (translate_newlines s) -> c <> 13.
Proof.
  induction n as [|n IH]; intros [|a t] c Hn Hin;
    try (simpl in Hn; lia); try (now destruct Hin).
  change (translate_newlines (a :: t))
    with (if a =? 13 then
            10 :: match t with
                  | [] => []
                  | c' :: t' =>
                      if c' =? 10 then translate_newlines t'
                      else translate_newlines t
                  end
          else a :: translate_newlines t) in Hin.
  simpl in Hn.
  destruct (a =? 13) eqn:Ha.
  - destruct Hin as [H|H]; [lia|].
    destruct t as [|c' t']; [now destruct H|].
    destruct (c' =? 10).
    + apply (IH t' c); [simpl in Hn; lia | exact H].
    + apply (IH (c' :: t') c); [lia | exact H].
  - destruct Hin as [H|H]; [apply Z.eqb_neq in Ha; lia|].
    apply (IH t c); [lia | exact H].
Qed.

Lemma split_lines_cons (c : char) (t : str) :
  split_lines (c :: t)
  = if c =? 10 then [c] :: split_lines t
    else match split_lines t with
         | [] => [[c]]
         | l :: ls => (c :: l) :: ls
         end.
Proof. reflexivity. Qed.

Lemma split_lines_chars (P : char -> Prop) (s : str) :
  Forall P s -> Forall (Forall P) (split_lines s).
Proof.
  induction 1 as [|c t Hc Ht IH]; [constructor|].
  rewrite split_lines_cons. destruct (c =? 10).
  - constructor; [|exact IH]. constructor; [exact Hc | constructor].
  - destruct (split_lines t) as [|l ls].
    + constructor; [|constructor]. constructor; [exact Hc | constructor].
    + inversion IH as [|? ? Hl Hls]; subst.
      constructor; [|exact Hls]. constructor; [exact Hc | exact Hl].
Qed.

(** A line holds a line feed as its last character or not at all. *)
Lemma split_lines_lf (s : str) :
  Forall (fun l => exists body,
            ~ In 10 body /\ (l = body \/ l = body ++ [10]))
    (split_lines s).
Proof.
  induction s as [|c t IH]; [constructor|].
  rewrite split_lines_cons. destruct (c =? 10) eqn:Hc.
  - constructor; [|exact IH]. exists []. split; [intros []|].
    right. apply Z.eqb_eq in Hc. now subst c.
  - apply Z.eqb_neq in Hc. destruct (split_lines t) as [|l ls].
    + constructor; [|constructor]. exists [c].
      split; [intros [H|[]]; lia | now left].
    + inversion IH as [|? ? (body & Hb & Hl) Hls]; subst.
      constructor; [|exact Hls]. exists (c :: body). split.
      * intros [H|H]; [lia | tauto].
      * destruct Hl as [Hl|Hl]; subst l; auto.
Qed.

Lemma rstrip_app_space (s : str) (c : char) :
  is_space c = true -> rstrip (s ++ [c]) = rstrip s.
Proof.
  intros Hc. induction s as [|a s IH]; cbn [app rstrip].
  - now rewrite Hc.
  - now rewrite IH.
Qed.

Lemma strip_line_feed (body : str) : strip (body ++ [10]) = strip body.
Proof.
  unfold strip. rewrite <- !lstrip_rstrip.
  now rewrite rstrip_app_space.
Qed.

Lemma file_lines_one_line (content : str) :
  Forall (fun line => one_line (strip line)) (file_lines content).
Proof.
  unfold file_lines.
  assert (Hcr : Forall (fun c => c <> 13) (translate_newlines content)).
  { apply Forall_forall. intros c.
    apply (translate_newlines_chars (List.length content)). lia. }
  apply (split_lines_chars _ _) in Hcr.
  pose proof (split_lines_lf (translate_newlines content)) as Hlf.
  apply Forall_forall. intros line Hin.
  assert (H13 : Forall (fun c => c <> 13) line).
  { exact (proj1 (Forall_forall _ _) Hcr line Hin). }
  assert (H10 : exists body,
             ~ In 10 body /\ (line = body \/ line = body ++ [10])).
  { exact (proj1 (Forall_forall _ _) Hlf line Hin). }
  clear Hcr Hlf Hin. destruct H10 as (body & Hb & Hl). split.
  - assert (Hs : Forall (fun c => c <> 10) (strip body)).
    { apply strip_Forall, Forall_forall. intros c Hc Heq. now subst c. }
    assert (Heq : strip line = strip body).
    { destruct Hl as [Hl|Hl]; subst line; auto using strip_line_feed. }
    rewrite Heq. intros Hin.
    now apply (proj1 (Forall_forall _ _) Hs 10 Hin).
  - apply (strip_Forall _ _) in H13. intros Hin.
    now apply (proj1 (Forall_forall _ _) H13 13 Hin).
Qed.

(** The units of an input: not empty, without surrounding whitespace, on
    one line. *)
Lemma units_of_shape (content : str) :
  Forall (fun u => u <> [] /\ strip u = u /\ one_line u) (units_of content).
Proof.
  unfold units_of, nonblank. apply Forall_forall. intros u Hu.
  apply filter_In in Hu. destruct Hu as [Hu Ht].
  apply in_map_iff in Hu. destruct Hu as (line & Hl & Hin). subst u.
  split; [intros Heq; rewrite Heq in Ht; discriminate|].
  split; [apply strip_idem|].
  exact (proj1 (Forall_forall _ _) (file_lines_one_line content) line Hin).
Qed.

Lemma lstrip_fix_app (a b : str) :
  a <> [] -> lstrip a = a -> lstrip (a ++ b) = a ++ b.
Proof.
  destruct a as [|c t]; [congruence|]. intros _. cbn [lstrip app].
  destruct (is_space c); [|reflexivity].
  intros H. exfalso. destruct (lstrip_split t) as (pre & _ & Hpre).
  rewrite H in Hpre. apply (f_equal (@List.length char)) in Hpre.
  rewrite length_app in Hpre. simpl in Hpre. lia.
Qed.

Lemma rstrip_fix_app (a b : str) :
  b <> [] -> rstrip b = b -> rstrip (a ++ b) = a ++ b.
Proof.
  intros Hb Hr. induction a as [|c a IH]; [exact Hr|].
  cbn [app rstrip]. rewrite IH.
  destruct (a ++ b) eqn:Hab; [|reflexivity].
  apply app_eq_nil in Hab. destruct Hab. congruence.
Qed.

(** Units joined by spaces: not empty, without surrounding whitespace, on
    one line. *)
Lemma join_space_shape (units : list str) :
  Forall (fun u => u <> [] /\ strip u = u /\ one_line u) units ->
  units <> [] ->
  join [32] units <> []
  /\ strip (join [32] units) = join [32] units
  /\ one_line (join [32] units).
Proof.
  induction 1 as [|u rest (Hne & Hs & H10 & H13) Hrest IH];
    [intros H; now destruct H|].
  intros _. destruct rest as [|v rest]; [now cbn [join]|].
  destruct (IH ltac:(discriminate)) as (Jne & Js & J10 & J13).
  change (join [32] (u :: v :: rest))
    with (u ++ [32] ++ join [32] (v :: rest)).
  set (J := join [32] (v :: rest)) in *.
  split; [|split; [|split]].
  - intros H. apply app_eq_nil in H. tauto.
  - unfold strip. rewrite lstrip_fix_app; auto.
    + rewrite app_assoc. apply rstrip_fix_app; auto.
      rewrite <- Js. apply strip_rstrip_fix.
    + rewrite <- Hs. apply strip_lstrip_fix.
  - intros H. apply in_app_or in H. destruct H as [H|[H|H]]; auto. lia.
  - intros H. apply in_app_or in H. destruct H as [H|[H|H]]; auto. lia.
Qed.

Lemma blob_of_shape (content : str) :
  blob_of content <> [] ->
  strip (blob_of content) = blob_of content /\ one_line (blob_of content).
Proof.
  intros Hne. unfold blob_of in *.
  destruct (join_space_shape (units_of content) (units_of_shape content))
    as (_ & Hs & Hl); auto.
  intros Hu. rewrite Hu in Hne. now apply Hne.
Qed.

(** ** Timing and failure of the per-line loop *)

Section LoopMore.

Context {E : Env}.
Variable self : config.

(** The clock readings of one unit: one before the engine call, and one
    after it when the engine returns. *)
Lemma process_single_line_clock (n : Z) (text : str) (s s' : state)
    (out : result record) :
  process_single_line self n text s = (out, s') ->
  clock s' = ((if is_ok out then 2 else 1) + clock s)%nat
  /\ forall r, out = Ok r ->
       elapsed_time r = sub (time_time (S (clock s))) (time_time (clock s)).
Proof.
  unfold process_single_line.
  rewrite (bind_ok _ _ _ _ _ (generate_output_filename_line self n text s)).
  cbn [fst snd].
  set (name := str_of_int n ++ lit "_" ++ sanitize_filename (slice_to 10 text)
               ++ lit ".wav").
  set (path := os_path_join (output_dir self) name).
  unfold bind at 1. unfold get at 1.
  unfold bind at 1. unfold set_total_char_count, modify at 1.
  rewrite (bind_ok _ _ _ _ _ (log_print_eq _ _)).
  rewrite (bind_ok _ _ _ _ _ (log_print_eq _ _)).
  rewrite with_logged_app.
  unfold bind at 1. unfold time_now at 1.
  unfold bind at 1. unfold infer at 1. cbn [files clock with_logged].
  destruct (tts_infer (spk_audio_prompt self) text path (files s))
    as [[[]|e] d']; cbn [fst snd is_ok].
  2:{ intros H. inversion H; subst. cbn. split; [reflexivity|].
      intros; congruence. }
  unfold bind at 1. unfold time_now at 1.
  unfold bind at 1.
  match goal with
  | |- context [get_audio_duration path ?s1] =>
      destruct (get_audio_duration_nonneg path s1) as [d [Hd _]];
      destruct (get_audio_duration_frame path s1) as (_ & _ & _ & F4 & _);
      destruct (get_audio_duration path s1) as [r1 s2]
  end.
  cbn [fst snd clock] in Hd, F4. subst r1.
  rewrite (bind_ok _ _ _ _ _ (log_print_eq _ _)).
  unfold ret. intros H. inversion H; subst. cbn [is_ok with_logged clock].
  split; [exact F4|].
  intros r Hr. inversion Hr; subst r. reflexivity.
Qed.

Lemma per_line_loop_more (lines : list str) :
  forall (k : Z) (s s' : state) (out : result unit),
    per_line_loop self lines k s = (out, s') ->
    exists new,
      processing_records s' = processing_records s ++ new
      /\ (forall i r,
            nth_error new i = Some r ->
            elapsed_time r
            = sub (time_time (clock s + 2 * i + 1))
                  (time_time (clock s + 2 * i)))
      /\ (out = Ok tt ->
          clock s' = (clock s + 2 * List.length new)%nat)
      /\ (out <> Ok tt ->
          (List.length new < List.length (nonblank lines))%nat
          /\ total_char_count s'
             = total_char_count s + sum_char_count new
               + len (nth (List.length new) (nonblank lines) []))
      /\ (Forall (fun line => one_line (strip line)) lines ->
          (forall n text d,
             text <> [] -> strip text = text -> one_line text ->
             is_ok (fst (tts_infer (spk_audio_prompt self) text
                           (os_path_join (output_dir self)
                              (str_of_int n ++ lit "_"
                               ++ sanitize_filename (slice_to 10 text)
                               ++ lit ".wav")) d)) = true) ->
          out = Ok tt).
Proof.
  induction lines as [|line rest IH]; intros k s s' out H.
  - inversion H; subst. exists []. rewrite app_nil_r. simpl.
    repeat split; auto; try lia; try congruence.
    intros i r Hi. destruct i; discriminate.
  - simpl in H. unfold nonblank. simpl.
    destruct (truthy (strip line)) eqn:Ht; simpl in H.
    + unfold bind at 1 in H.
      destruct (process_single_line self
                  (start_line_num self + (k + 1 - 1)) (strip line) s)
        as [r1 s1] eqn:H1.
      destruct (process_single_line_spec self _ _ _ _ _ H1)
        as (R1 & T1 & O1 & V1).
      destruct (process_single_line_clock _ _ _ _ _ H1) as (K1 & P1).
      destruct r1 as [rec|e].
      * unfold bind at 1 in H. unfold append_record, modify at 1 in H.
        apply IH in H.
        destruct H as (new & Hr & He & Hk & Hf & Hall).
        cbn [processing_records total_char_count clock] in Hr, He, Hk, Hf.
        cbn [is_ok] in K1.
        destruct (V1 rec eq_refl) as (_ & C1 & _).
        exists (rec :: new). rewrite Hr, R1, <- app_assoc.
        split; [reflexivity|]. split; [|split; [|split]].
        -- intros [|i] r Hi; simpl in Hi.
           ++ inversion Hi; subst r. rewrite (P1 rec eq_refl).
              f_equal; f_equal; lia.
           ++ rewrite (He i r Hi), K1. f_equal; f_equal; lia.
        -- intros Ho. rewrite (Hk Ho), K1. simpl. lia.
        -- intros Ho. destruct (Hf Ho) as [Hlt Htot].
           fold (nonblank rest). simpl. split; [lia|].
           rewrite Htot, T1, C1. lia.
        -- intros Hlines. apply Hall. now inversion Hlines.
      * inversion H; subst. exists []. rewrite app_nil_r.
        split; [auto|]. split; [|split; [|split]].
        -- intros i r Hi. destruct i; discriminate.
        -- intros Ho. discriminate.
        -- intros _. simpl. split; [lia|]. rewrite T1. lia.
        -- intros Hlines Hall. rewrite Hall in O1; [discriminate| | |].
           ++ destruct (strip line); [discriminate|congruence].
           ++ apply strip_idem.
           ++ now inversion Hlines.
    + apply IH in H.
      destruct H as (new & Hr & He & Hk & Hf & Hall).
      exists new. split; [exact Hr|]. split; [exact He|].
      split; [exact Hk|]. split; [exact Hf|].
      intros Hlines. apply Hall. now inversion Hlines.
Qed.

End LoopMore.

(** ** Runs in per-line mode: timing, failure, what the engine is given *)

Section RunMore.

Context {E : Env}.
Variable self : config.

Lemma batch_by_line_loop (content : str) (s : state) :
  open_read (files s) (input_file self) = Ok content ->
  batch_by_line self s
  = per_line_loop self (file_lines content) 0
      (with_logged s [Msg.mode_by_line; []]).
Proof.
  intros Hopen. unfold batch_by_line.
  rewrite (bind_ok _ _ _ _ _ (log_print_eq _ _)).
  rewrite (bind_ok _ _ _ _ _ (log_print_eq _ _)), with_logged_app.
  unfold bind at 1. unfold get at 1. cbn [files with_logged].
  unfold bind at 1. unfold lift at 1. now rewrite Hopen.
Qed.

(** A run in per-line mode, from the state [__init__] leaves: the clock,
    the elapsed times, and the character total of a run that raises. *)
Lemma by_line_run_more (d : disk) (k : nat) (content : str) :
  read_by_line self = true ->
  open_read d (input_file self) = Ok content ->
  (forall i r,
     nth_error
       (processing_records (snd (process_batch self (init_state d k)))) i
     = Some r ->
     elapsed_time r
     = sub (time_time (S (S k) + 2 * i + 1)) (time_time (S (S k) + 2 * i)))
  /\ (is_ok (fst (process_batch self (init_state d k))) = true ->
      clock (snd (process_batch self (init_state d k)))
      = (S (S (S (S k)))
         + 2 * List.length
                 (processing_records
                    (snd (process_batch self (init_state d k)))))%nat)
  /\ (is_ok (fst (process_batch self (init_state d k))) = false ->
      (List.length
         (processing_records (snd (process_batch self (init_state d k))))
       < List.length (units_of content))%nat
      /\ total_char_count (snd (process_batch self (init_state d k)))
         = sum_char_count
             (processing_records
                (snd (process_batch self (init_state d k))))
           + len (nth
                    (List.length
                       (processing_records
                          (snd (process_batch self (init_state d k)))))
                    (units_of content) []))
  /\ ((forall n text d',
         text <> [] -> strip text = text -> one_line text ->
         is_ok (fst (tts_infer (spk_audio_prompt self) text
                       (os_path_join (output_dir self)
                          (str_of_int n ++ lit "_"
                           ++ sanitize_filename (slice_to 10 text)
                           ++ lit ".wav")) d')) = true) ->
      is_ok (fst (process_batch self (init_state d k))) = true).
Proof.
  intros Hmode Hopen.
  destruct (batch_by_line self (at_branch self (init_state d k)))
    as [out s2] eqn:Hb.
  pose proof Hb as Hloop.
  rewrite (batch_by_line_loop content) in Hloop by exact Hopen.
  apply per_line_loop_more in Hloop.
  destruct Hloop as (new & Hr & He & Hk & Hf & Hall).
  specialize (Hall (file_lines_one_line content)).
  cbn [processing_records total_char_count clock at_branch with_logged
       ticked started init_state app] in Hr, He, Hk, Hf.
  assert (Hbr : (if read_by_line self then batch_by_line self
                 else batch_full_text self)
                  (at_branch self (init_state d k)) = (out, s2)).
  { now rewrite Hmode. }
  destruct (branch_facts self d k out s2 Hbr) as [Hv Htot].
  destruct out as [[]|e].
  - rewrite (process_batch_ok self (init_state d k) s2 Hbr Hv).
    + cbn [fst snd is_ok processing_records clock with_logged ticked].
      rewrite Hr, (Hk eq_refl).
      split; [exact He|]. split; [intros _; lia|].
      split; [discriminate | auto].
    + rewrite (Htot eq_refl). now apply sum_char_count_nonneg.
  - rewrite (process_batch_raise self (init_state d k) s2 e Hbr).
    cbn [fst snd is_ok]. rewrite Hr.
    split; [exact He|]. split; [discriminate|]. split.
    + intros _. destruct Hf as [Hlt Ht]; [discriminate|].
      split; [exact Hlt|]. rewrite Ht. unfold units_of. lia.
    + intros Hengine. specialize (Hall Hengine). discriminate.
Qed.

End RunMore.

(** X8: in per-line mode the elapsed time of the record at index [i] is
    the difference of two successive clock readings, the ones taken just
    before and just after the engine call of that unit, so it excludes
    the duration probe and the logging; a run that returns has read the
    clock four times plus twice per record. *)
Theorem elapsed_is_engine_time `{E : Env} (self : config) (d : disk)
    (k : nat) (content : str) :
  read_by_line self = true ->
  open_read d (input_file self) = Ok content ->
  (forall i r,
     nth_error
       (processing_records (snd (process_batch self (init_state d k)))) i
     = Some r ->
     elapsed_time r
     = sub (time_time (S (S k) + 2 * i + 1)) (time_time (S (S k) + 2 * i)))
  /\ (is_ok (fst (process_batch self (init_state d k))) = true ->
      clock (snd (process_batch self (init_state d k)))
      = (S (S (S (S k)))
         + 2 * List.length
                 (processing_records
                    (snd (process_batch self (init_state d k)))))%nat).
Proof.
  intros Hmode Hopen.
  destruct (by_line_run_more self d k content Hmode Hopen)
    as (He & Hk & _).
  split; assumption.
Qed.

(** In scenario A each record took one second, and eight readings were
    made. *)
Lemma elapsed_is_engine_time_witness :
  read_by_line (Demo.cfg true 1) = true
  /\ @open_read Demo.env_two Demo.empty_disk (input_file (Demo.cfg true 1))
     = Ok Demo.two_sentences
  /\ (forall i r,
        nth_error (processing_records (snd Demo.run_by_line)) i = Some r ->
        elapsed_time r
        = sub (@time_time Demo.env_two (2 + 2 * i + 1))
              (@time_time Demo.env_two (2 + 2 * i)))
  /\ map elapsed_time (processing_records (snd Demo.run_by_line))
     = [float_of_int 1; float_of_int 1]
  /\ clock (snd Demo.run_by_line) = 8%nat.
Proof.
  split; [reflexivity|]. split; [reflexivity|]. split.
  - exact (proj1 (@elapsed_is_engine_time Demo.env_two (Demo.cfg true 1)
                    Demo.empty_disk 0%nat Demo.two_sentences
                    eq_refl eq_refl)).
  - split; vm_compute; reflexivity.
Defined.

(** X9: when the engine raises in per-line mode the character total
    already counts the unit that failed, although no record was appended
    for it: the total is the sum over the records plus the length of the
    next unit. *)
Theorem failed_run_counts_failed_unit `{E : Env} (self : config)
    (d : disk) (k : nat) (content : str) :
  read_by_line self = true ->
  open_read d (input_file self) = Ok content ->
  is_ok (fst (process_batch self (init_state d k))) = false ->
  (List.length
     (processing_records (snd (process_batch self (init_state d k))))
   < List.length (units_of content))%nat
  /\ total_char_count (snd (process_batch self (init_state d k)))
     = sum_char_count
         (processing_records (snd (process_batch self (init_state d k))))
       + len (nth
                (List.length
                   (processing_records
                      (snd (process_batch self (init_state d k)))))
                (units_of content) []).
Proof.
  intros Hmode Hopen Hfail.
  destruct (by_line_run_more self d k content Hmode Hopen)
    as (_ & _ & Hf & _).
  exact (Hf Hfail).
Qed.

(** The engine raises on the second sentence: one record of 12 characters,
    and a total of 20. *)
Lemma failed_run_counts_failed_unit_witness :
  read_by_line (Demo.cfg true 1) = true
  /\ @open_read DemoFail.env Demo.empty_disk (input_file (Demo.cfg true 1))
     = Ok Demo.two_sentences
  /\ is_ok (fst DemoFail.run_by_line) = false
  /\ map char_count (processing_records (snd DemoFail.run_by_line)) = [12]
  /\ total_char_count (snd DemoFail.run_by_line) = 20
  /\ total_char_count (snd DemoFail.run_by_line)
     = sum_char_count (processing_records (snd DemoFail.run_by_line))
       + len (nth
                (List.length
                   (processing_records (snd DemoFail.run_by_line)))
                (units_of Demo.two_sentences) []).
Proof.
  split; [reflexivity|]. split; [reflexivity|]. split; [reflexivity|].
  split; [vm_compute; reflexivity|]. split; [vm_compute; reflexivity|].
  exact (proj2 (@failed_run_counts_failed_unit DemoFail.env
                  (Demo.cfg true 1) Demo.empty_disk 0%nat
                  Demo.two_sentences eq_refl eq_refl eq_refl)).
Defined.

(** X10: in per-line mode the engine is only ever given a text that is
    not empty, has no surrounding whitespace and holds no line feed or
    carriage return, with a destination in the output directory named by
    ordinal and sanitized prefix: a run over a readable input returns as
    soon as the engine returns on such calls, whatever it would do on
    others. *)
Theorem engine_given_units_only `{E : Env} (self : config) (d : disk)
    (k : nat) (content : str) :
  read_by_line self = true ->
  open_read d (input_file self) = Ok content ->
  (forall n text d',
     text <> [] -> strip text = text -> one_line text ->
     is_ok (fst (tts_infer (spk_audio_prompt self) text
                   (os_path_join (output_dir self)
                      (str_of_int n ++ lit "_"
                       ++ sanitize_filename (slice_to 10 text)
                       ++ lit ".wav")) d')) = true) ->
  is_ok (fst (process_batch self (init_state d k))) = true.
Proof.
  intros Hmode Hopen Hengine.
  destruct (by_line_run_more self d k content Hmode Hopen)
    as (_ & _ & _ & Hall).
  exact (Hall Hengine).
Qed.

Lemma picky_engine_accepts (text : str) :
  text <> [] -> strip text = text -> one_line text ->
  DemoPicky.accepts text = true.
Proof.
  intros Hne Hstrip [H10 H13].
  unfold DemoPicky.accepts, Demo.str_eqb. rewrite Hstrip.
  destruct (list_eq_dec Z.eq_dec text text); [|congruence].
  assert (Hl : forallb (fun c => negb (in_class [10; 13] c)) text = true).
  { apply forallb_forall. intros c Hc. unfold in_class. cbn [existsb].
    destruct (Z.eqb_spec c 10); [now subst c|].
    destruct (Z.eqb_spec c 13); [now subst c|]. reflexivity. }
  rewrite Hl. destruct text; [congruence | reflexivity].
Qed.

Lemma picky_engine_accepts_units (n : Z) (text : str)
    (d : list (str * (N * N))) :
  text <> [] -> strip text = text -> one_line text ->
  is_ok (fst (@tts_infer DemoPicky.env (spk_audio_prompt (Demo.cfg true 1))
                text
                (@os_path_join DemoPicky.env (output_dir (Demo.cfg true 1))
                   (str_of_int n ++ lit "_"
                    ++ sanitize_filename (slice_to 10 text) ++ lit ".wav"))
                d)) = true.
Proof.
  intros Hne Hstrip Hline. cbn [tts_infer DemoPicky.env].
  now rewrite picky_engine_accepts.
Qed.

(** An engine that raises on empty, untrimmed or multi-line text still
    serves the two sentences. *)
Lemma engine_given_units_only_witness :
  read_by_line (Demo.cfg true 1) = true
  /\ @open_read DemoPicky.env Demo.empty_disk
       (input_file (Demo.cfg true 1)) = Ok Demo.two_sentences
  /\ is_ok (fst (@tts_infer DemoPicky.env (lit "voice.mp3") (lit " x")
                   (lit "outputs/1_x.wav") Demo.empty_disk)) = false
  /\ is_ok (fst (@tts_infer DemoPicky.env (lit "voice.mp3") [120; 10; 121]
                   (lit "outputs/1_x.wav") Demo.empty_disk)) = false
  /\ is_ok (fst DemoPicky.run_by_line) = true.
Proof.
  split; [reflexivity|]. split; [reflexivity|]. split; [reflexivity|].
  split; [reflexivity|].
  exact (@engine_given_units_only DemoPicky.env (Demo.cfg true 1)
           Demo.empty_disk 0%nat Demo.two_sentences eq_refl eq_refl
           picky_engine_accepts_units).
Defined.

(** ** Runs in whole-text mode, and the two modes compared *)

Lemma len_join_space (texts : list str) :
  texts <> [] ->
  len (join [32] texts) = sum_len texts + Z.of_nat (List.length texts) - 1.
Proof.
  induction texts as [|p rest IH]; [congruence|]. intros _.
  destruct rest as [|q rest].
  - simpl. unfold len. lia.
  - specialize (IH ltac:(discriminate)).
    change (join [32] (p :: q :: rest))
      with (p ++ [32] ++ join [32] (q :: rest)).
    change (sum_len (p :: q :: rest))
      with (len p + sum_len (q :: rest)).
    change (List.length (p :: q :: rest))
      with (S (List.length (q :: rest))).
    remember (q :: rest) as tail eqn:Htail.
    remember (join [32] tail) as joined eqn:Hjoined.
    unfold len in *. rewrite !length_app. cbn [List.length].
    rewrite !Nat2Z.inj_add, Nat2Z.inj_succ. unfold str, char in *. lia.
Qed.

Lemma sum_char_count_len (rs : list record) :
  forall texts,
    map char_count rs = map len texts -> sum_char_count rs = sum_len texts.
Proof.
  induction rs as [|r rs IH]; intros [|t texts] H; try discriminate; auto.
  simpl in *. inversion H as [[Hc Hr]]. rewrite (IH texts Hr). lia.
Qed.

Lemma sum_char_count_app (a b : list record) :
  sum_char_count (a ++ b) = sum_char_count a + sum_char_count b.
Proof. induction a as [|r a IH]; simpl; lia. Qed.

Section WholeText.

Context {E : Env}.
Variable self : config.

(** A run in whole-text mode, from the state [__init__] leaves. *)
Lemma full_text_run (d : disk) (k : nat) :
  read_by_line self = false ->
  (processing_records (snd (process_batch self (init_state d k))) = []
   \/ exists r,
        processing_records (snd (process_batch self (init_state d k))) = [r]
        /\ line_num r = LabelStr Msg.full_text_label)
  /\ forall content : str,
       open_read d (input_file self) = Ok content ->
       is_ok (fst (process_batch self (init_state d k))) = true ->
       total_char_count (snd (process_batch self (init_state d k)))
       = len (blob_of content).
Proof.
  intros Hmode.
  destruct (open_read d (input_file self)) as [[content|prefix e0]|e]
    eqn:Hopen.
  2:{ rewrite (process_batch_raise self (init_state d k)
                 (with_logged (at_branch self (init_state d k))
                    [Msg.mode_full_text; []]) e0).
      - cbn. split; [now left|]. intros content Hc. discriminate Hc.
      - rewrite Hmode. now apply (batch_full_text_broken self prefix). }
  - destruct (blob_of content) as [|c t] eqn:Hblob.
    + rewrite (process_batch_ok self (init_state d k)
                 (with_logged (at_branch self (init_state d k))
                    [Msg.mode_full_text; []; Msg.warn_empty_input])).
      * cbn. split; [now left|]. intros content' Hc _.
        inversion Hc; subst. now rewrite Hblob.
      * rewrite Hmode. now apply (batch_full_text_empty self content).
      * constructor.
      * cbn. lia.
    + destruct (batch_full_text self (at_branch self (init_state d k)))
        as [out s2] eqn:Hb.
      destruct (batch_full_text_spec self content
                  (at_branch self (init_state d k)) s2 out Hopen
                  ltac:(rewrite Hblob; discriminate) Hb)
        as (_ & Hraise & Hok).
      cbn [processing_records at_branch with_logged ticked started
           init_state app] in Hraise, Hok.
      destruct out as [[]|e].
      * destruct (Hok eq_refl) as (r & Hr & Hl & Hc & Ha & Htot).
        rewrite (process_batch_ok self (init_state d k) s2).
        -- cbn [fst snd is_ok processing_records total_char_count
                with_logged ticked].
           split; [right; exists r; auto|].
           intros content' Hc' _. inversion Hc'; subst. exact Htot.
        -- now rewrite Hmode.
        -- rewrite Hr. constructor; [|constructor]. split; auto.
           rewrite Hc. unfold len. lia.
        -- rewrite Htot. unfold len. lia.
      * rewrite (process_batch_raise self (init_state d k) s2 e)
          by now rewrite Hmode.
        cbn [fst snd is_ok]. split; [|discriminate].
        left. apply Hraise. discriminate.
  - rewrite (process_batch_raise self (init_state d k)
               (with_logged (at_branch self (init_state d k))
                  [Msg.mode_full_text; []]) e).
    + cbn. split; [now left | discriminate].
    + rewrite Hmode. now apply batch_full_text_unreadable.
Qed.

End WholeText.

(** X11: a run in whole-text mode, whatever its outcome, holds at most
    one record, and that record carries the whole-text sentinel as its
    label, never a number. *)
Theorem whole_text_at_most_one_record `{E : Env} (self : config)
    (d : disk) (k : nat) :
  read_by_line self = false ->
  processing_records (snd (process_batch self (init_state d k))) = []
  \/ exists r,
       processing_records (snd (process_batch self (init_state d k))) = [r]
       /\ line_num r = LabelStr Msg.full_text_label.
Proof.
  intros Hmode. exact (proj1 (full_text_run self d k Hmode)).
Qed.

Lemma whole_text_at_most_one_record_witness :
  read_by_line (Demo.cfg false 1) = false
  /\ (processing_records (snd Demo.run_full_text) = []
      \/ exists r,
           processing_records (snd Demo.run_full_text) = [r]
           /\ line_num r = LabelStr Msg.full_text_label).
Proof.
  split; [reflexivity|].
  exact (@whole_text_at_most_one_record Demo.env_two (Demo.cfg false 1)
           Demo.empty_disk 0%nat eq_refl).
Defined.

(** X12: on the same input, the character total of a returning run in
    whole-text mode exceeds the one of a returning run in per-line mode by
    the separators of the join, one fewer than there are units. *)
Theorem whole_text_total_adds_separators `{E : Env}
    (by_line whole : config) (d : disk) (k k' : nat) (content : str) :
  read_by_line by_line = true ->
  read_by_line whole = false ->
  open_read d (input_file by_line) = Ok content ->
  open_read d (input_file whole) = Ok content ->
  units_of content <> [] ->
  is_ok (fst (process_batch by_line (init_state d k))) = true ->
  is_ok (fst (process_batch whole (init_state d k'))) = true ->
  total_char_count (snd (process_batch whole (init_state d k')))
  = total_char_count (snd (process_batch by_line (init_state d k)))
    + Z.of_nat (List.length (units_of content)) - 1.
Proof.
  intros Hm1 Hm2 Ho1 Ho2 Hu Hr1 Hr2.
  destruct (full_text_run whole d k' Hm2) as [_ Htot2].
  rewrite (Htot2 content Ho2 Hr2).
  destruct (by_line_run by_line d k content Hm1 Ho1)
    as (_ & _ & Hc & Hok & _).
  destruct (Hok Hr1) as [Hlen Htot1].
  rewrite Hlen, firstn_all in Hc.
  rewrite Htot1, (sum_char_count_len _ _ Hc).
  unfold blob_of. now apply len_join_space.
Qed.

(** Scenarios A and B: 21 is 20 plus the one space between two units. *)
Lemma whole_text_total_adds_separators_witness :
  read_by_line (Demo.cfg true 1) = true
  /\ read_by_line (Demo.cfg false 1) = false
  /\ units_of Demo.two_sentences = [lit "Hello world."; lit "Goodbye."]
  /\ total_char_count (snd Demo.run_by_line) = 20
  /\ total_char_count (snd Demo.run_full_text) = 21
  /\ total_char_count (snd Demo.run_full_text)
     = total_char_count (snd Demo.run_by_line)
       + Z.of_nat (List.length (units_of Demo.two_sentences)) - 1.
Proof.
  split; [reflexivity|]. split; [reflexivity|]. split; [reflexivity|].
  split; [vm_compute; reflexivity|]. split; [vm_compute; reflexivity|].
  exact (@whole_text_total_adds_separators Demo.env_two (Demo.cfg true 1)
           (Demo.cfg false 1) Demo.empty_disk 0%nat 0%nat
           Demo.two_sentences eq_refl eq_refl eq_refl eq_refl
           ltac:(discriminate) eq_refl eq_refl).
Defined.

Section StartNumber.

Context {E : Env}.
Variables (spk input output log : str) (n m : Z) (b : bool).

Lemma infer_start_number :
  infer (mk_config spk input output log n b)
  = infer (mk_config spk input output log m b).
Proof. reflexivity. Qed.

Lemma generate_output_filename_start_number :
  generate_output_filename (mk_config spk input output log n b)
  = generate_output_filename (mk_config spk input output log m b).
Proof. reflexivity. Qed.

Lemma process_full_text_start_number :
  process_full_text (mk_config spk input output log n b)
  = process_full_text (mk_config spk input output log m b).
Proof.
  unfold process_full_text.
  now rewrite infer_start_number, generate_output_filename_start_number.
Qed.

Lemma batch_full_text_start_number :
  batch_full_text (mk_config spk input output log n b)
  = batch_full_text (mk_config spk input output log m b).
Proof.
  unfold batch_full_text. now rewrite process_full_text_start_number.
Qed.

Lemma print_log_header_start_number :
  print_log_header (mk_config spk input output log n b)
  = print_log_header (mk_config spk input output log m b).
Proof. reflexivity. Qed.

End StartNumber.

(** X13: in whole-text mode the start number is not used: two processors
    that differ in it only make the same run, from any state. *)
Theorem whole_text_ignores_start_number `{E : Env}
    (spk input output log : str) (n m : Z) (s : state) :
  process_batch (mk_config spk input output log n false) s
  = process_batch (mk_config spk input output log m false) s.
Proof.
  unfold process_batch. cbn [read_by_line].
  now rewrite (print_log_header_start_number _ _ _ _ n m),
    (batch_full_text_start_number _ _ _ _ n m).
Qed.

(** ** Runs from any state *)

Section AnyState.

Context {E : Env}.
Variable self : config.

Lemma generate_report_frame (total_elapsed : float) (s : state) :
  processing_records (snd (generate_report total_elapsed s))
  = processing_records s
  /\ total_char_count (snd (generate_report total_elapsed s))
     = total_char_count s.
Proof.
  apply (keeps_generate_report
           (fun a b =>
              processing_records b = processing_records a
              /\ total_char_count b = total_char_count a)).
  - auto.
  - intros a b c [] []. split; congruence.
  - intros. split; reflexivity.
Qed.

(** What the summary and the report leave of the state the branch of
    [process_batch] ended in. *)
Lemma process_batch_after_branch (s s2 : state) (out : result unit) :
  (if read_by_line self then batch_by_line self else batch_full_text self)
    (at_branch self s) = (out, s2) ->
  (is_ok (fst (process_batch self s)) = true -> out = Ok tt)
  /\ processing_records (snd (process_batch self s)) = processing_records s2
  /\ total_char_count (snd (process_batch self s)) = total_char_count s2.
Proof.
  intros Hb. rewrite process_batch_eq. unfold at_branch in Hb. rewrite Hb.
  destruct out as [[]|e];
    [|cbn; split; [intros H; discriminate H | auto]].
  cbv zeta.
  match goal with
  | |- context [generate_report ?te ?st] =>
      destruct (generate_report_frame te st) as [Hr Ht];
      destruct (generate_report te st) as [[[]|e] s3]
  end; cbn [fst snd] in *; rewrite Hr, Ht; cbn; auto.
Qed.

End AnyState.

(** X14: a returning run in per-line mode, from any state of the
    processor, appends one record per unit and adds their character counts
    to the total: the total stays the sum over the records when it was,
    also on a processor that is run again. *)
Theorem per_line_run_accumulates `{E : Env} (self : config) (s : state)
    (content : str) :
  read_by_line self = true ->
  open_read (files s) (input_file self) = Ok content ->
  is_ok (fst (process_batch self s)) = true ->
  exists new,
    processing_records (snd (process_batch self s))
    = processing_records s ++ new
    /\ map char_count new = map len (units_of content)
    /\ total_char_count (snd (process_batch self s))
       = total_char_count s + sum_char_count new
    /\ (total_char_count s = sum_char_count (processing_records s) ->
        total_char_count (snd (process_batch self s))
        = sum_char_count
            (processing_records (snd (process_batch self s)))).
Proof.
  intros Hmode Hopen Hok.
  destruct (batch_by_line self (at_branch self s)) as [out s2] eqn:Hb.
  assert (Hbr : (if read_by_line self then batch_by_line self
                 else batch_full_text self) (at_branch self s) = (out, s2)).
  { now rewrite Hmode. }
  destruct (process_batch_after_branch self s s2 out Hbr) as (Ho & Hr & Ht).
  specialize (Ho Hok).
  destruct (batch_by_line_spec self content (at_branch self s) s2 out
              Hopen Hb) as (new & Hr2 & _ & _ & Hc & _ & Hd & _).
  destruct (Hd Ho) as [Hlen Htot].
  cbn [at_branch with_logged ticked started processing_records
       total_char_count] in Hr2, Htot.
  rewrite Hlen, firstn_all in Hc.
  exists new. rewrite Hr, Ht, Hr2, Htot.
  split; [reflexivity|]. split; [exact Hc|]. split; [reflexivity|].
  intros Hinv. rewrite sum_char_count_app. lia.
Qed.

(** Scenario A run twice on the same processor: four records, and a total
    of 40. *)
Lemma per_line_run_accumulates_witness :
  read_by_line (Demo.cfg true 1) = true
  /\ total_char_count (snd Demo.run_by_line) = 20
  /\ map char_count
       (processing_records
          (snd (@process_batch Demo.env_two (Demo.cfg true 1)
                  (snd Demo.run_by_line)))) = [12; 8; 12; 8]
  /\ total_char_count
       (snd (@process_batch Demo.env_two (Demo.cfg true 1)
               (snd Demo.run_by_line))) = 40
  /\ exists new,
       processing_records
         (snd (@process_batch Demo.env_two (Demo.cfg true 1)
                 (snd Demo.run_by_line)))
       = processing_records (snd Demo.run_by_line) ++ new
       /\ map char_count new = map len (units_of Demo.two_sentences).
Proof.
  split; [reflexivity|]. split; [vm_compute; reflexivity|].
  split; [vm_compute; reflexivity|]. split; [vm_compute; reflexivity|].
  destruct (@per_line_run_accumulates Demo.env_two (Demo.cfg true 1)
              (snd Demo.run_by_line) Demo.two_sentences eq_refl eq_refl
              ltac:(vm_compute; reflexivity))
    as (new & H1 & H2 & _).
  exists new. split; [exact H1 | exact H2].
Defined.

(** X15: a returning run in whole-text mode over a non-empty blob, from
    any state of the processor, appends one record and overwrites the
    character total with the length of the blob: on a processor that
    already holds records the total no longer counts them. *)
Theorem whole_text_run_overwrites_total `{E : Env} (self : config)
    (s : state) (content : str) :
  read_by_line self = false ->
  open_read (files s) (input_file self) = Ok content ->
  blob_of content <> [] ->
  is_ok (fst (process_batch self s)) = true ->
  exists r,
    processing_records (snd (process_batch self s))
    = processing_records s ++ [r]
    /\ char_count r = len (blob_of content)
    /\ total_char_count (snd (process_batch self s)) = len (blob_of content)
    /\ sum_char_count (processing_records (snd (process_batch self s)))
       = sum_char_count (processing_records s)
         + total_char_count (snd (process_batch self s)).
Proof.
  intros Hmode Hopen Hne Hok.
  destruct (batch_full_text self (at_branch self s)) as [out s2] eqn:Hb.
  assert (Hbr : (if read_by_line self then batch_by_line self
                 else batch_full_text self) (at_branch self s) = (out, s2)).
  { now rewrite Hmode. }
  destruct (process_batch_after_branch self s s2 out Hbr) as (Ho & Hr & Ht).
  specialize (Ho Hok).
  destruct (batch_full_text_spec self content (at_branch self s) s2 out
              Hopen Hne Hb) as (_ & _ & Hd).
  destruct (Hd Ho) as (r & Hr2 & _ & Hc & _ & Htot).
  cbn [at_branch with_logged ticked started processing_records] in Hr2.
  exists r. rewrite Hr, Ht, Hr2, Htot.
  split; [reflexivity|]. split; [exact Hc|]. split; [reflexivity|].
  rewrite sum_char_count_app. simpl. lia.
Qed.

(** Scenario B run twice on the same processor: two records of 21
    characters, and a total of 21. *)
Lemma whole_text_run_overwrites_total_witness :
  read_by_line (Demo.cfg false 1) = false
  /\ blob_of Demo.two_sentences <> []
  /\ map char_count
       (processing_records
          (snd (@process_batch Demo.env_two (Demo.cfg false 1)
                  (snd Demo.run_full_text)))) = [21; 21]
  /\ total_char_count
       (snd (@process_batch Demo.env_two (Demo.cfg false 1)
               (snd Demo.run_full_text))) = 21
  /\ exists r,
       processing_records
         (snd (@process_batch Demo.env_two (Demo.cfg false 1)
                 (snd Demo.run_full_text)))
       = processing_records (snd Demo.run_full_text) ++ [r]
       /\ char_count r = len (blob_of Demo.two_sentences).
Proof.
  split; [reflexivity|]. split; [discriminate|].
  split; [vm_compute; reflexivity|]. split; [vm_compute; reflexivity|].
  destruct (@whole_text_run_overwrites_total Demo.env_two
              (Demo.cfg false 1) (snd Demo.run_full_text)
              Demo.two_sentences eq_refl eq_refl ltac:(discriminate)
              ltac:(vm_compute; reflexivity))
    as (r & H1 & H2 & _).
  exists r. split; [exact H1 | exact H2].
Defined.

(** X16: in whole-text mode the engine is called at most once, on a text
    that is not empty, has no surrounding whitespace and holds no line
    feed or carriage return, with a destination in the output directory
    named by a timestamp and the sanitized prefix: a run over a readable
    input returns as soon as the engine returns on such calls. *)
Theorem whole_text_engine_given_one_line `{E : Env} (self : config)
    (d : disk) (k : nat) (content : str) :
  read_by_line self = false ->
  open_read d (input_file self) = Ok content ->
  (forall timestamp text d',
     text <> [] -> strip text = text -> one_line text ->
     is_ok (fst (tts_infer (spk_audio_prompt self) text
                   (os_path_join (output_dir self)
                      (lit "full_text_" ++ timestamp ++ lit "_"
                       ++ sanitize_filename (slice_to 10 text)
                       ++ lit ".wav")) d')) = true) ->
  is_ok (fst (process_batch self (init_state d k))) = true.
Proof.
  intros Hmode Hopen Hengine.
  destruct (batch_full_text self (at_branch self (init_state d k)))
    as [out s2] eqn:Hb.
  assert (Hbr : (if read_by_line self then batch_by_line self
                 else batch_full_text self)
                  (at_branch self (init_state d k)) = (out, s2)).
  { now rewrite Hmode. }
  destruct (branch_facts self d k out s2 Hbr) as [Hv Htot].
  assert (Ho : out = Ok tt).
  { assert (Hblob : blob_of content = [] \/ blob_of content <> []).
    { destruct (blob_of content); [now left | right; discriminate]. }
    destruct Hblob as [Hblob|Hblob].
    - rewrite (batch_full_text_empty self content
                 (at_branch self (init_state d k)) Hopen Hblob) in Hb.
      congruence.
    - destruct (batch_full_text_spec self content
                  (at_branch self (init_state d k)) s2 out Hopen Hblob Hb)
        as (His & _).
      destruct (blob_of_shape content Hblob) as [Hs Hl].
      unfold full_text_path in His. rewrite Hengine in His by assumption.
      destruct out as [[]|e]; [reflexivity | discriminate His]. }
  subst out.
  rewrite (process_batch_ok self (init_state d k) s2 Hbr Hv).
  - reflexivity.
  - rewrite (Htot eq_refl). now apply sum_char_count_nonneg.
Qed.

(** The particular engine serves the two sentences joined by a space. *)
Lemma whole_text_engine_given_one_line_witness :
  read_by_line (Demo.cfg false 1) = false
  /\ @open_read DemoPicky.env Demo.empty_disk
       (input_file (Demo.cfg false 1)) = Ok Demo.two_sentences
  /\ is_ok (fst (@tts_infer DemoPicky.env (lit "voice.mp3")
                   Demo.two_sentences (lit "outputs/full_text.wav")
                   Demo.empty_disk)) = false
  /\ is_ok (fst DemoPicky.run_full_text) = true.
Proof.
  split; [reflexivity|]. split; [reflexivity|]. split; [reflexivity|].
  apply (@whole_text_engine_given_one_line DemoPicky.env (Demo.cfg false 1)
           Demo.empty_disk 0%nat Demo.two_sentences eq_refl eq_refl).
  intros timestamp text d' Hne Hs Hl. cbn [tts_infer DemoPicky.env].
  now rewrite picky_engine_accepts.
Defined.

(** ** The line end of [log_print] *)

(** X17: [log_print] writes the line end to the log file only when it is
    a newline: with the console and the log file holding the same text
    before, they hold the same text after exactly when the line end is a
    newline or empty. *)
Theorem log_print_end_mirrors_iff `{E : Env} (message end_ : str)
    (s : state) :
  List.concat (console s) = List.concat (log_content s) ->
  List.concat (console (snd (log_print_end message end_ s)))
  = List.concat (log_content (snd (log_print_end message end_ s)))
  <-> end_ = [10] \/ end_ = [].
Proof.
  intros H. unfold log_print_end, modify. cbn [snd console log_content].
  rewrite !concat_app, H. cbn [List.concat]. rewrite !app_nil_r.
  destruct (list_eq_dec Z.eq_dec end_ [10]) as [He|He].
  - split; auto.
  - split.
    + intros Heq. apply app_inv_head in Heq. right.
      rewrite <- (app_nil_r message) in Heq at 2.
      now apply app_inv_head in Heq.
    + intros [H1|H1]; [contradiction|]. subst end_.
      now rewrite app_nil_r.
Qed.

(** A space as line end reaches the console only. *)
Lemma log_print_end_mirrors_iff_witness :
  List.concat (console (@init_state Demo.env_two Demo.empty_disk 0))
  = List.concat (log_content (@init_state Demo.env_two Demo.empty_disk 0))
  /\ List.concat (console
               (snd (@log_print_end Demo.env_two (lit "a") [32]
                       (@init_state Demo.env_two Demo.empty_disk 0))))
     = lit "a "
  /\ List.concat (log_content
               (snd (@log_print_end Demo.env_two (lit "a") [32]
                       (@init_state Demo.env_two Demo.empty_disk 0))))
     = lit "a"
  /\ List.concat (console
               (snd (@log_print_end Demo.env_two (lit "a") []
                       (@init_state Demo.env_two Demo.empty_disk 0))))
     = List.concat (log_content
                 (snd (@log_print_end Demo.env_two (lit "a") []
                         (@init_state Demo.env_two Demo.empty_disk 0)))).
Proof.
  split; [reflexivity|]. split; [reflexivity|]. split; [reflexivity|].
  exact (proj2 (@log_print_end_mirrors_iff Demo.env_two (lit "a") []
                  (@init_state Demo.env_two Demo.empty_disk 0) eq_refl)
           (or_intror eq_refl)).
Defined.

(** ** The rows of the report *)

Lemma ljust_length (w : nat) (s : str) :
  List.length (ljust w s) = Nat.max w (List.length s).
Proof.
  unfold ljust, repeat_char. rewrite length_app, repeat_length. lia.
Qed.

Lemma format_label_text (w : nat) (l : label) :
  format_label w l = ljust w (label_text l).
Proof. now destruct l. Qed.

(** X18: a row of the report is never narrower than the rules above and
    below it, and exactly as wide when each of its six cells fits the
    column; a cell that does not fit is not cut, it widens the row. *)
Theorem report_row_width `{E : Env} (r : record)
    (ratio time_ratio : float) :
  List.length (repeat_char 45 total_width) = total_width
  /\ (total_width <= List.length (data_line r ratio time_ratio))%nat
  /\ ((List.length (label_text (line_num r)) <= COL_WIDTH_LINE_NUM)%nat ->
      (List.length (str_of_int (char_count r))
       <= COL_WIDTH_CHAR_COUNT)%nat ->
      (List.length (format_f2 (audio_duration r))
       <= COL_WIDTH_AUDIO_TIME)%nat ->
      (List.length (format_f2 (elapsed_time r))
       <= COL_WIDTH_ELAPSED_TIME)%nat ->
      (List.length (format_f2 ratio) <= COL_WIDTH_CHAR_RATIO)%nat ->
      (List.length (format_f2 time_ratio) <= COL_WIDTH_TIME_RATIO)%nat ->
      List.length (data_line r ratio time_ratio) = total_width)
  /\ (List.length (data_line r ratio time_ratio)
      = total_width
        + (List.length (label_text (line_num r)) - COL_WIDTH_LINE_NUM)
        + (List.length (str_of_int (char_count r)) - COL_WIDTH_CHAR_COUNT)
        + (List.length (format_f2 (audio_duration r))
           - COL_WIDTH_AUDIO_TIME)
        + (List.length (format_f2 (elapsed_time r))
           - COL_WIDTH_ELAPSED_TIME)
        + (List.length (format_f2 ratio) - COL_WIDTH_CHAR_RATIO)
        + (List.length (format_f2 time_ratio) - COL_WIDTH_TIME_RATIO))%nat.
Proof.
  unfold data_line. rewrite format_label_text, !length_app, !ljust_length.
  unfold repeat_char. rewrite repeat_length.
  unfold total_width, COL_WIDTH_LINE_NUM, COL_WIDTH_CHAR_COUNT,
    COL_WIDTH_AUDIO_TIME, COL_WIDTH_ELAPSED_TIME, COL_WIDTH_CHAR_RATIO,
    COL_WIDTH_TIME_RATIO.
  split; [reflexivity|]. split; [lia|]. split; [intros; lia | lia].
Qed.

(** The first row of scenario A is 99 characters wide. *)
Lemma report_row_width_witness :
  (List.length (label_text (LabelInt 1)) <= COL_WIDTH_LINE_NUM)%nat
  /\ (List.length (str_of_int 12) <= COL_WIDTH_CHAR_COUNT)%nat
  /\ (List.length (@format_f2 Demo.env_two zero)
      <= COL_WIDTH_CHAR_RATIO)%nat
  /\ List.length
       (@data_line Demo.env_two
          (mk_record (LabelInt 1) 12 (float_of_int 1) (float_of_int 12))
          zero zero) = 99%nat.
Proof.
  assert (H1 : (List.length (label_text (LabelInt 1))
                <= COL_WIDTH_LINE_NUM)%nat) by (cbv; lia).
  assert (H2 : (List.length (str_of_int 12) <= COL_WIDTH_CHAR_COUNT)%nat)
    by (cbv; lia).
  assert (H3 : forall x w, (4 <= w)%nat ->
                 (List.length (@format_f2 Demo.env_two x) <= w)%nat)
    by (intros x w Hw; exact Hw).
  split; [exact H1|]. split; [exact H2|].
  split; [apply H3; cbv; lia|].
  apply (proj1 (proj2 (proj2
           (@report_row_width Demo.env_two
              (mk_record (LabelInt 1) 12 (float_of_int 1) (float_of_int 12))
              zero zero))));
    [exact H1 | exact H2 | apply H3; cbv; lia ..].
Defined.

(** ** The duration of a unit *)

(** X19: the duration in the record of a unit is the one of the file at
    the destination handed to the engine, probed on the disk the engine
    left; when that file cannot be opened, or its rate is zero, the unit
    does not fail: its record holds the duration 0.0. *)
Theorem unit_duration_from_probe `{E : Env} (self : config) (n : Z)
    (text : str) (s s' : state) (r : record) :
  process_single_line self n text s = (Ok r, s') ->
  files s'
  = snd (tts_infer (spk_audio_prompt self) text (line_path self n text)
           (files s))
  /\ audio_duration r
     = match wave_open (files s') (line_path self n text) with
       | Ok (frames, rate) =>
           if (rate =? 0)%N then zero
           else div (float_of_int (Z.of_N frames))
                    (float_of_int (Z.of_N rate))
       | Raise _ => zero
       end.
Proof.
  unfold process_single_line.
  rewrite (bind_ok _ _ _ _ _ (generate_output_filename_line self n text s)).
  cbn [fst snd]. fold (line_path self n text).
  set (path := line_path self n text).
  unfold bind at 1. unfold get at 1.
  unfold bind at 1. unfold set_total_char_count, modify at 1.
  rewrite (bind_ok _ _ _ _ _ (log_print_eq _ _)).
  rewrite (bind_ok _ _ _ _ _ (log_print_eq _ _)).
  rewrite with_logged_app.
  unfold bind at 1. unfold time_now at 1.
  unfold bind at 1. unfold infer at 1. cbn [files with_logged].
  destruct (tts_infer (spk_audio_prompt self) text path (files s))
    as [[[]|e] d']; cbn [fst snd]; [|intros H; discriminate H].
  unfold bind at 1. unfold time_now at 1.
  unfold bind at 1. rewrite get_audio_duration_eq. cbn [files].
  destruct (wave_open d' path) as [[frames rate]|e] eqn:Hw;
    [destruct (rate =? 0)%N eqn:Hrate|];
    rewrite (bind_ok _ _ _ _ _ (log_print_eq _ _));
    unfold ret; intros H; inversion H; subst; cbn [files with_logged];
    rewrite Hw, ?Hrate; auto.
Qed.

(** With an engine that writes no file the probe fails, and the record
    holds the duration 0.0. *)
Lemma unit_duration_from_probe_witness :
  @wave_open Demo.env_mute Demo.empty_disk
    (@line_path Demo.env_mute (Demo.cfg true 1) 1 (lit "Hello world."))
  = Raise (mk_exn FileNotFoundError (lit "No such file or directory"))
  /\ fst (@process_single_line Demo.env_mute (Demo.cfg true 1) 1
            (lit "Hello world.")
            (@init_state Demo.env_mute Demo.empty_disk 0))
     = Ok (mk_record (LabelInt 1) 12 (float_of_int 1) zero)
  /\ files (snd (@process_single_line Demo.env_mute (Demo.cfg true 1) 1
                   (lit "Hello world.")
                   (@init_state Demo.env_mute Demo.empty_disk 0)))
     = snd (@tts_infer Demo.env_mute
              (spk_audio_prompt (Demo.cfg true 1)) (lit "Hello world.")
              (@line_path Demo.env_mute (Demo.cfg true 1) 1
                 (lit "Hello world."))
              (files (@init_state Demo.env_mute Demo.empty_disk 0))).
Proof.
  split; [reflexivity|]. split; [vm_compute; reflexivity|].
  assert (H : @process_single_line Demo.env_mute (Demo.cfg true 1) 1
                (lit "Hello world.")
                (@init_state Demo.env_mute Demo.empty_disk 0)
              = (Ok (mk_record (LabelInt 1) 12 (float_of_int 1) zero),
                 snd (@process_single_line Demo.env_mute (Demo.cfg true 1) 1
                        (lit "Hello world.")
                        (@init_state Demo.env_mute Demo.empty_disk 0)))).
  { etransitivity; [apply surjective_pairing|].
    f_equal. }
  exact (proj1 (@unit_duration_from_probe Demo.env_mute (Demo.cfg true 1) 1
                  (lit "Hello world.")
                  (@init_state Demo.env_mute Demo.empty_disk 0) _ _ H)).
Defined.

(** ** Where exceptions come from *)

Section Raises.

Context {E : Env}.
Variable P : exn -> Prop.

Lemma raises_only_total {A} (m : M A) :
  (forall s, is_ok (fst (m s)) = true) -> raises_only P m.
Proof. intros H s e He. specialize (H s). rewrite He in H. discriminate H. Qed.

Lemma raises_only_bind {A B} (m : M A) (k : A -> M B) :
  raises_only P m -> (forall a, raises_only P (k a)) ->
  raises_only P (bind m k).
Proof.
  intros Hm Hk s e. unfold bind. specialize (Hm s).
  destruct (m s) as [[a|e0] s1]; cbn [fst] in *.
  - apply Hk.
  - intros H. apply Hm. congruence.
Qed.

Lemma raises_only_try_except {A} (m : M A) (h : exn -> M A) :
  (forall e, raises_only P (h e)) -> raises_only P (try_except m h).
Proof.
  intros Hh s e. unfold try_except.
  destruct (m s) as [[a|e0] s1]; cbn [fst].
  - intros H. discriminate H.
  - apply Hh.
Qed.

Variable self : config.
Hypothesis P_engine :
  forall text path d e,
    fst (tts_infer (spk_audio_prompt self) text path d) = Raise e -> P e.

Lemma raises_only_infer (text path : str) :
  raises_only P (infer self text path).
Proof.
  intros s e. unfold infer.
  pose proof (P_engine text path (files s) e) as H.
  destruct (tts_infer (spk_audio_prompt self) text path (files s))
    as [r d']. exact H.
Qed.

(** One step through a computation, chosen by its head. *)
Ltac raises_prim :=
  idtac;
  lazymatch goal with
  | |- raises_only _ (bind _ _) => apply raises_only_bind; [|intros ?]
  | |- raises_only _ (try_except _ _) =>
      apply raises_only_try_except; intros ?
  | |- raises_only _ (infer _ _ _) => apply raises_only_infer
  | |- raises_only _ (if ?b then _ else _) => destruct b
  | |- raises_only _ _ =>
      apply raises_only_total; intros ?; reflexivity
  end.

Lemma raises_only_process_single_line (n : Z) (text : str) :
  raises_only P (process_single_line self n text).
Proof.
  unfold process_single_line, generate_output_filename, get_audio_duration.
  repeat (cbv beta zeta; raises_prim).
Qed.

Lemma raises_only_process_full_text (text : str) :
  raises_only P (process_full_text self text).
Proof.
  unfold process_full_text, generate_output_filename, get_audio_duration.
  repeat (cbv beta zeta; raises_prim).
Qed.

Lemma raises_only_per_line_loop (lines : list str) :
  forall k, raises_only P (per_line_loop self lines k).
Proof.
  induction lines as [|line rest IH]; intros k; cbn [per_line_loop].
  - apply raises_only_total. intros s. reflexivity.
  - cbv zeta. destruct (negb (truthy (strip line))); [apply IH|].
    apply raises_only_bind; [apply raises_only_process_single_line|].
    intros r. apply raises_only_bind; [|intros ?; apply IH].
    apply raises_only_total. intros s. reflexivity.
Qed.

Lemma batch_full_text_blob (content : str) (s : state) :
  open_read (files s) (input_file self) = Ok content ->
  batch_full_text self s
  = (if truthy (blob_of content)
     then bind (process_full_text self (blob_of content)) append_record
     else log_print Msg.warn_empty_input)
      (with_logged s [Msg.mode_full_text; []]).
Proof.
  intros Hopen. unfold batch_full_text.
  rewrite (bind_ok _ _ _ _ _ (log_print_eq _ _)).
  rewrite (bind_ok _ _ _ _ _ (log_print_eq _ _)), with_logged_app.
  unfold bind at 1. unfold get at 1. cbn [files with_logged].
  unfold bind at 1. unfold lift at 1. rewrite Hopen. cbv beta iota.
  unfold bind at 1. unfold lift at 1. cbv beta iota zeta.
  now rewrite collect_lines_nonblank.
Qed.

(** The branch of [process_batch] over a file that opens raises no
    exception but those of [P] and the error of reading the file. *)
Lemma raises_only_branch (f : text_file) (s : state) (e : exn) :
  open_read (files s) (input_file self) = Ok f ->
  fst ((if read_by_line self then batch_by_line self
        else batch_full_text self) s) = Raise e ->
  P e \/ exists prefix, f = Broken prefix e.
Proof.
  intros Hopen. destruct f as [content|prefix e0].
  - intros H. left. revert H. destruct (read_by_line self).
    + rewrite (batch_by_line_loop self content s Hopen).
      apply raises_only_per_line_loop.
    + rewrite (batch_full_text_blob content s Hopen).
      destruct (truthy (blob_of content)).
      * apply raises_only_bind; [apply raises_only_process_full_text|].
        intros r. apply raises_only_total. intros s0. reflexivity.
      * apply raises_only_total. intros s0. reflexivity.
  - destruct (read_by_line self).
    + rewrite (batch_by_line_broken self prefix e0 s Hopen). unfold bind.
      destruct (per_line_loop self (file_lines prefix) 0 _)
        as [[[]|e1] s1] eqn:Hl; cbn [fst lift]; intros H.
      * right. exists prefix. congruence.
      * left.
        apply (raises_only_per_line_loop (file_lines prefix) 0
                 (with_logged s [Msg.mode_by_line; []])).
        rewrite Hl. exact H.
    + rewrite (batch_full_text_broken self prefix e0 s Hopen).
      cbn [fst]. intros H. right. exists prefix. congruence.
Qed.

End Raises.

(** X20: a run from the state [__init__] leaves raises no exception of its
    own: what it raises was raised by opening the input file, by reading
    it while the loop over its lines runs, or by a call of the engine.
    The duration probe, the summary and the report never make the run
    fail. *)
Theorem run_raises_input_or_engine_error `{E : Env} (self : config)
    (d : disk) (k : nat) (e : exn) :
  fst (process_batch self (init_state d k)) = Raise e ->
  open_read d (input_file self) = Raise e
  \/ (exists prefix, open_read d (input_file self) = Ok (Broken prefix e))
  \/ (exists f, open_read d (input_file self) = Ok f)
     /\ exists text path d',
          fst (tts_infer (spk_audio_prompt self) text path d') = Raise e.
Proof.
  intros Hrun.
  destruct ((if read_by_line self then batch_by_line self
             else batch_full_text self) (at_branch self (init_state d k)))
    as [out s2] eqn:Hb.
  destruct (branch_facts self d k out s2 Hb) as [Hv Htot].
  destruct out as [[]|e1].
  - rewrite (process_batch_ok self (init_state d k) s2 Hb Hv) in Hrun.
    + discriminate Hrun.
    + rewrite (Htot eq_refl). now apply sum_char_count_nonneg.
  - rewrite (process_batch_raise self (init_state d k) s2 e1 Hb) in Hrun.
    cbn [fst] in Hrun. inversion Hrun; subst e1. clear Hrun.
    destruct (open_read d (input_file self)) as [f|e0] eqn:Hopen.
    + right.
      destruct (raises_only_branch
                  (fun e => exists text path d',
                     fst (tts_infer (spk_audio_prompt self) text path d')
                     = Raise e)
                  self
                  ltac:(intros text path d' e0 H; now exists text, path, d')
                  f (at_branch self (init_state d k)) e Hopen)
        as [Hengine|[prefix Hf]].
      * now rewrite Hb.
      * right. split; [now exists f | exact Hengine].
      * left. exists prefix. now rewrite Hf.
    + left. destruct (read_by_line self).
      * rewrite (batch_by_line_unreadable self e0
                   (at_branch self (init_state d k)) Hopen) in Hb.
        congruence.
      * rewrite (batch_full_text_unreadable self e0
                   (at_branch self (init_state d k)) Hopen) in Hb.
        congruence.
Qed.

(** The run whose engine fails on the second sentence raises the
    exception of the engine, and the run over the file that breaks raises
    the decoding error. *)
Lemma run_raises_input_or_engine_error_witness :
  fst DemoFail.run_by_line
  = Raise (mk_exn RuntimeError (lit "engine failure"))
  /\ fst DemoBroken.run_by_line = Raise DemoBroken.bad_byte
  /\ (@open_read DemoFail.env Demo.empty_disk (input_file (Demo.cfg true 1))
      = Raise (mk_exn RuntimeError (lit "engine failure"))
      \/ (exists prefix,
            @open_read DemoFail.env Demo.empty_disk
              (input_file (Demo.cfg true 1))
            = Ok (Broken prefix
                    (mk_exn RuntimeError (lit "engine failure"))))
      \/ (exists f,
            @open_read DemoFail.env Demo.empty_disk
              (input_file (Demo.cfg true 1)) = Ok f)
         /\ exists text path d',
              fst (@tts_infer DemoFail.env
                     (spk_audio_prompt (Demo.cfg true 1)) text path d')
              = Raise (mk_exn RuntimeError (lit "engine failure"))).
Proof.
  assert (H : fst (@process_batch DemoFail.env (Demo.cfg true 1)
                     (@init_state DemoFail.env Demo.empty_disk 0))
              = Raise (mk_exn RuntimeError (lit "engine failure")))
    by (vm_compute; reflexivity).
  split; [exact H|]. split; [vm_compute; reflexivity|].
  exact (@run_raises_input_or_engine_error DemoFail.env (Demo.cfg true 1)
           Demo.empty_disk 0%nat
           (mk_exn RuntimeError (lit "engine failure")) H).
Defined.

(** X21: when the input file cannot be opened the run raises the exception
    of [open], from any state and in either mode: the header and the two
    lines of the mode are logged, the clock is read twice, and nothing
    else changes; the engine is not called, and neither summary nor
    report is written. *)
Theorem unreadable_input_propagates `{E : Env} (self : config) (s : state)
    (e : exn) :
  open_read (files s) (input_file self) = Raise e ->
  process_batch self s
  = (Raise e,
     with_logged (ticked (started s))
       (header_text self (S (clock s))
        ++ [if read_by_line self then Msg.mode_by_line
            else Msg.mode_full_text; []])).
Proof.
  intros Hopen. rewrite <- with_logged_app.
  apply process_batch_raise. fold (at_branch self s).
  destruct (read_by_line self).
  - now apply batch_by_line_unreadable.
  - now apply batch_full_text_unreadable.
Qed.

(** Without input file the run in per-line mode raises, holds no record
    and has logged seven lines. *)
Lemma unreadable_input_propagates_witness :
  @open_read DemoMissing.env
    (files (@init_state DemoMissing.env Demo.empty_disk 0))
    (input_file (Demo.cfg true 1)) = Raise DemoMissing.no_such_file
  /\ fst DemoMissing.run_by_line = Raise DemoMissing.no_such_file
  /\ processing_records (snd DemoMissing.run_by_line) = []
  /\ List.length (console (snd DemoMissing.run_by_line)) = 7%nat.
Proof.
  split; [reflexivity|].
  unfold DemoMissing.run_by_line.
  rewrite (@unreadable_input_propagates DemoMissing.env (Demo.cfg true 1)
             (@init_state DemoMissing.env Demo.empty_disk 0)
             DemoMissing.no_such_file eq_refl).
  split; [reflexivity|]. split; reflexivity.
Defined.

(** ** A file that breaks while it is read *)

(** X22: in per-line mode, when reading the input file fails after some
    lines, the units of the lines before the error have been processed
    by then: their records are there, labelled in order, and the run
    raises.  With an engine that does not raise, the run raises the read
    error, holds one record for each of these units, and its character
    total is their sum. *)
Theorem per_line_read_error_after_units `{E : Env} (self : config)
    (d : disk) (k : nat) (prefix : str) (e : exn) :
  read_by_line self = true ->
  open_read d (input_file self) = Ok (Broken prefix e) ->
  labelled_in_order (start_line_num self) (units_of prefix)
    (processing_records (snd (process_batch self (init_state d k))))
  /\ is_ok (fst (process_batch self (init_state d k))) = false
  /\ ((forall text path d',
         is_ok (fst (tts_infer (spk_audio_prompt self) text path d'))
         = true) ->
      fst (process_batch self (init_state d k)) = Raise e
      /\ List.length
           (processing_records (snd (process_batch self (init_state d k))))
         = List.length (units_of prefix)
      /\ total_char_count (snd (process_batch self (init_state d k)))
         = sum_char_count
             (processing_records
                (snd (process_batch self (init_state d k))))).
Proof.
  intros Hmode Hopen.
  destruct (by_line_broken_run self d k prefix e Hmode Hopen)
    as (out1 & s1 & Hl & Hrun).
  rewrite Hrun. cbn [fst snd is_ok].
  apply per_line_loop_spec in Hl.
  destruct Hl as (new & Hr & Hlab & _ & Hc & _ & Hok & Hall).
  cbn [processing_records total_char_count at_branch with_logged ticked
       started init_state app] in Hr, Hok.
  rewrite Z.add_0_r in Hlab. rewrite Hr.
  split; [now apply records_by_index|]. split; [reflexivity|].
  intros Hengine. specialize (Hall Hengine). subst out1.
  destruct (Hok eq_refl) as [Hlen Htot].
  split; [reflexivity|]. split; [exact Hlen|].
  rewrite Htot. lia.
Qed.

(** The file that breaks after the first sentence: one record of 12
    characters, and the decoding error. *)
Lemma per_line_read_error_after_units_witness :
  read_by_line (Demo.cfg true 1) = true
  /\ @open_read DemoBroken.env Demo.empty_disk
       (input_file (Demo.cfg true 1))
     = Ok (Broken DemoBroken.first_lines DemoBroken.bad_byte)
  /\ fst DemoBroken.run_by_line = Raise DemoBroken.bad_byte
  /\ map char_count (processing_records (snd DemoBroken.run_by_line)) = [12]
  /\ total_char_count (snd DemoBroken.run_by_line) = 12
  /\ labelled_in_order (start_line_num (Demo.cfg true 1))
       (units_of DemoBroken.first_lines)
       (processing_records (snd DemoBroken.run_by_line)).
Proof.
  split; [reflexivity|]. split; [reflexivity|].
  split; [vm_compute; reflexivity|]. split; [vm_compute; reflexivity|].
  split; [vm_compute; reflexivity|].
  exact (proj1 (@per_line_read_error_after_units DemoBroken.env
                  (Demo.cfg true 1) Demo.empty_disk 0%nat
                  DemoBroken.first_lines DemoBroken.bad_byte
                  eq_refl eq_refl)).
Defined.

(** X23: in whole-text mode, when reading the input file fails, the run
    raises the read error before anything is processed, from any state:
    the header and the two lines of the mode are logged, the clock is
    read twice, and nothing else changes; the lines read before the error
    are lost, the engine is not called, and neither summary nor report
    is written. *)
Theorem whole_text_read_error_before_engine `{E : Env} (self : config)
    (s : state) (prefix : str) (e : exn) :
  read_by_line self = false ->
  open_read (files s) (input_file self) = Ok (Broken prefix e) ->
  process_batch self s
  = (Raise e,
     with_logged (ticked (started s))
       (header_text self (S (clock s)) ++ [Msg.mode_full_text; []])).
Proof.
  intros Hmode Hopen. rewrite <- with_logged_app.
  apply process_batch_raise. fold (at_branch self s). rewrite Hmode.
  now apply (batch_full_text_broken self prefix).
Qed.

(** The file that breaks after the first sentence, in whole-text mode: the
    decoding error, no record, and seven lines logged. *)
Lemma whole_text_read_error_before_engine_witness :
  read_by_line (Demo.cfg false 1) = false
  /\ @open_read DemoBroken.env
       (files (@init_state DemoBroken.env Demo.empty_disk 0))
       (input_file (Demo.cfg false 1))
     = Ok (Broken DemoBroken.first_lines DemoBroken.bad_byte)
  /\ fst DemoBroken.run_full_text = Raise DemoBroken.bad_byte
  /\ processing_records (snd DemoBroken.run_full_text) = []
  /\ files (snd DemoBroken.run_full_text) = Demo.empty_disk
  /\ List.length (console (snd DemoBroken.run_full_text)) = 7%nat.
Proof.
  split; [reflexivity|]. split; [reflexivity|].
  unfold DemoBroken.run_full_text.
  rewrite (@whole_text_read_error_before_engine DemoBroken.env
             (Demo.cfg false 1)
             (@init_state DemoBroken.env Demo.empty_disk 0)
             DemoBroken.first_lines DemoBroken.bad_byte eq_refl eq_refl).
  split; [reflexivity|]. split; [reflexivity|]. split; reflexivity.
Defined.
